(** * EdgePulse agent: remote control plane of [ping_benchmark.py]

    A shallow embedding of the agent-side control plane of
    [src/ping_benchmark.py] (class [PingBenchmark]): the web-shell session
    registry ([shell_sessions]) with the open / input / resize / close
    handlers and the disconnect handler, and the command dispatch worker
    ([execute_command], [poll_for_commands], [submit_command_result],
    [command_polling_worker]).

    The Python code is imperative and talks to the operating system and to
    the network.  It is embedded as a state-and-exception monad over a
    [world] (the fields of [self] that the handlers mutate, the events
    emitted so far and the log of the calls made to the outside), with the
    outcome of every outside call supplied by an oracle [os_env].
    [try]/[except] blocks are the [try_except] combinator.

    Each method is run to completion on its own: the interleaving of the
    Socket.IO thread, the reader threads and the workers is not part of
    the model, and neither are the reader loop [_shell_read_worker] and
    the [on_shell_*] wrappers that unpack an event and call a method. *)

From Stdlib Require Import ZArith NArith QArith Ascii String List Bool Lia.
From Stdlib.Strings Require Import Byte.
From Stdlib Require Import Lqa.
From stdpp Require Import base option gmap strings list fin_maps pretty.

Local Open Scope Z_scope.
Local Open Scope string_scope.

(* ===================================================================== *)
(** * Exceptions *)
(* ===================================================================== *)

(** The exception classes that the modelled code can meet.  All of them
    derive from Python's [Exception]; signals that derive only from
    [BaseException] ([KeyboardInterrupt], [SystemExit]) are outside the
    model, so a bare [except:] and [except Exception:] coincide here. *)
Inductive exn_class : Type :=
| OSError
| ChildProcessError
| ProcessLookupError
| BlockingIOError
| TimeoutExpired
| HTTPError (code : Z)
| URLError
| ValueError
| TypeError
| AttributeError
| RuntimeError
| BinasciiError
| StructError
| JSONDecodeError
| UnicodeDecodeError
| BadNamespaceError
| KeyError
| OverflowError.

(** An exception object: its class and [str(e)]. *)
Record exn : Type := mkExn { exn_cls : exn_class; exn_str : string }.

(* ===================================================================== *)
(** * Base64 (Python's [base64.b64encode] / [base64.b64decode]) *)
(* ===================================================================== *)

Module Base64.

Local Open Scope N_scope.

(** [byte_of_N n]: the byte stored when the C code assigns [n] to an
    [unsigned char]. *)
Definition byte_of_N (n : N) : Byte.byte :=
  match Byte.of_N (n mod 256) with
  | Some b => b
  | None => Byte.x00
  end.

(** [table_b2a_base64]: A-Z, a-z, 0-9, '+', '/'. *)
Definition b64_char (n : N) : ascii :=
  if n <? 26 then ascii_of_N (65 + n)
  else if n <? 52 then ascii_of_N (71 + n)
  else if n <? 62 then ascii_of_N (n - 4)
  else if n =? 62 then "+"%char
  else "/"%char.

(** [table_a2b_base64]: the inverse table; [None] for a character outside
    the alphabet. *)
Definition b64_index (c : ascii) : option N :=
  let n := N_of_ascii c in
  if (65 <=? n) && (n <=? 90) then Some (n - 65)
  else if (97 <=? n) && (n <=? 122) then Some (n - 71)
  else if (48 <=? n) && (n <=? 57) then Some (n + 4)
  else if n =? 43 then Some 62
  else if n =? 47 then Some 63
  else None.

Definition BASE64_PAD : ascii := "="%char.

(** [base64.b64encode(data).decode('ascii')]: three bytes give four
    characters; a final group of one or two bytes is padded with '='. *)
Fixpoint b64encode (bs : list Byte.byte) : string :=
  match bs with
  | [] => EmptyString
  | [b1] =>
      let n1 := Byte.to_N b1 in
      String (b64_char (n1 / 4))
        (String (b64_char ((n1 mod 4) * 16))
           (String BASE64_PAD (String BASE64_PAD EmptyString)))
  | [b1; b2] =>
      let n1 := Byte.to_N b1 in
      let n2 := Byte.to_N b2 in
      String (b64_char (n1 / 4))
        (String (b64_char ((n1 mod 4) * 16 + n2 / 16))
           (String (b64_char ((n2 mod 16) * 4))
              (String BASE64_PAD EmptyString)))
  | b1 :: b2 :: b3 :: rest =>
      let n1 := Byte.to_N b1 in
      let n2 := Byte.to_N b2 in
      let n3 := Byte.to_N b3 in
      String (b64_char (n1 / 4))
        (String (b64_char ((n1 mod 4) * 16 + n2 / 16))
           (String (b64_char ((n2 mod 16) * 4 + n3 / 64))
              (String (b64_char (n3 mod 64)) (b64encode rest))))
  end.

Definition push (b : Byte.byte) (r : exn + list Byte.byte) : exn + list Byte.byte :=
  match r with
  | inl e => inl e
  | inr bs => inr (b :: bs)
  end.

(** [binascii.a2b_base64] in its default, non-strict mode: characters
    outside the alphabet are skipped, a pad sequence that completes the
    current quad ends the input, and a dangling quad is an error. *)
Fixpoint a2b_base64 (s : string) (quad_pos leftchar pads : N)
  : exn + list Byte.byte :=
  match s with
  | EmptyString =>
      if quad_pos =? 0 then inr []
      else if quad_pos =? 1
           then inl (mkExn BinasciiError "Invalid base64-encoded string")
           else inl (mkExn BinasciiError "Incorrect padding")
  | String c rest =>
      if Ascii.eqb c BASE64_PAD then
        if (2 <=? quad_pos) && (4 <=? quad_pos + (pads + 1)) then inr []
        else a2b_base64 rest quad_pos leftchar
               (if 2 <=? quad_pos then pads + 1 else pads)
      else
        match b64_index c with
        | None => a2b_base64 rest quad_pos leftchar pads
        | Some v =>
            if quad_pos =? 0 then a2b_base64 rest 1 v 0
            else if quad_pos =? 1 then
              push (byte_of_N (leftchar * 4 + v / 16))
                   (a2b_base64 rest 2 (v mod 16) 0)
            else if quad_pos =? 2 then
              push (byte_of_N (leftchar * 16 + v / 4))
                   (a2b_base64 rest 3 (v mod 4) 0)
            else
              push (byte_of_N (leftchar * 64 + v))
                   (a2b_base64 rest 0 0 0)
        end
  end.

(** [s.encode('ascii')] succeeds only on 7-bit characters. *)
Fixpoint is_ascii (s : string) : bool :=
  match s with
  | EmptyString => true
  | String c rest => (N_of_ascii c <? 128) && is_ascii rest
  end.

(** [base64.b64decode(s)] for a [str] argument. *)
Definition b64decode (s : string) : exn + list Byte.byte :=
  if is_ascii s then a2b_base64 s 0 0 0
  else inl (mkExn ValueError
              "string argument should contain only ASCII characters").

End Base64.

(* ===================================================================== *)
(** * Python values *)
(* ===================================================================== *)

(** The values that arrive in JSON messages (command records, poll
    responses).  JSON floats are not modelled.  A [PDict] keeps its items
    in order; keys are unique in a parsed message and a lookup takes the
    first binding. *)
#[local] Unset Elimination Schemes.
Inductive pyval : Type :=
| PNone
| PBool (b : bool)
| PInt (z : Z)
| PStr (s : string)
| PList (l : list pyval)
| PDict (d : list (string * pyval)).
#[local] Set Elimination Schemes.

(** Truth value of an object, as tested by [if v:] and [not v]. *)
Definition truthy (v : pyval) : bool :=
  match v with
  | PNone => false
  | PBool b => b
  | PInt z => negb (z =? 0)%Z
  | PStr s => negb (String.eqb s "")
  | PList l => match l with [] => false | _ => true end
  | PDict d => match d with [] => false | _ => true end
  end.

Fixpoint dict_lookup (k : string) (d : list (string * pyval)) : option pyval :=
  match d with
  | [] => None
  | (k', v) :: rest => if String.eqb k k' then Some v else dict_lookup k rest
  end.

(** [v.get(k, dflt)]: only a dict has the method; on any other value the
    attribute lookup raises [AttributeError]. *)
Definition py_get (v : pyval) (k : string) (dflt : pyval) : exn + pyval :=
  match v with
  | PDict d => inr (default dflt (dict_lookup k d))
  | _ => inl (mkExn AttributeError "object has no attribute 'get'")
  end.

Fixpoint join (sep : string) (l : list string) : string :=
  match l with
  | [] => ""
  | [x] => x
  | x :: rest => x ++ sep ++ join sep rest
  end.

(** [repr(v)].  String quoting is the plain single-quote form (no escape
    sequences). *)
Fixpoint py_repr (v : pyval) : string :=
  match v with
  | PNone => "None"
  | PBool true => "True"
  | PBool false => "False"
  | PInt z => pretty z
  | PStr s => "'" ++ s ++ "'"
  | PList l => "[" ++ join ", " (List.map py_repr l) ++ "]"
  | PDict d =>
      "{" ++ join ", "
               (List.map (fun kv => match kv with
                                    | (k, x) => "'" ++ k ++ "': " ++ py_repr x
                                    end) d) ++ "}"
  end.

(** [str(v)], as used by f-string interpolation [{v}]. *)
Definition py_str (v : pyval) : string :=
  match v with
  | PStr s => s
  | _ => py_repr v
  end.

(** [round(q, 3)]: nearest multiple of 1/1000, ties to even.  Times are
    rationals here; the binary rounding of Python floats is not
    modelled. *)
Definition py_round3 (q : Q) : Q :=
  let a := (Qnum q * 1000)%Z in
  let b := Z.pos (Qden q) in
  let fl := (a / b)%Z in
  let r2 := (2 * (a mod b))%Z in
  let n := if (r2 <? b)%Z then fl
           else if (b <? r2)%Z then (fl + 1)%Z
           else if Z.even fl then fl else (fl + 1)%Z in
  Qmake n 1000.

(* ===================================================================== *)
(** * Data model *)
(* ===================================================================== *)

(** A registry entry: [{'fd': fd, 'pid': pid, 'rows': rows, 'cols': cols}].
    The dict always has these four keys, so it is never falsy. *)
Record session : Type := mkSession {
  fd : Z;
  pid : Z;
  rows : Z;
  cols : Z
}.

(** Outbound Socket.IO events ([self.sio.emit(name, payload)]). *)
Inductive event : Type :=
| shell_register_client (client_id api_key : string)
| shell_ready (session_id client_id : string)
| shell_output (session_id output_b64 : string)
| shell_client_exit (session_id : string) (exit_code : Z).

Inductive signal : Type := SIGTERM | SIGKILL.

(** The dict returned by [execute_command]; [error] is [None] when the
    key is absent. *)
Record cmd_result : Type := mkResult {
  command_uuid : pyval;
  command_id : pyval;
  exit_code : Z;
  stdout : string;
  stderr : string;
  executed_at : string;
  duration_seconds : Q;
  error : option string
}.

(** [urllib.request.Request(url, data=..., headers=..., method=...)]
    together with the [timeout] given to [urlopen].  The JSON body of a
    result submission is kept as the record it serialises. *)
Record http_request : Type := mkRequest {
  req_method : string;
  req_url : string;
  req_headers : list (string * string);
  req_data : option cmd_result;
  req_timeout : Z
}.

(** What the code reads from a response: [response.status], and
    [json.loads(response.read().decode('utf-8'))], which either raises or
    yields a value. *)
Record http_response : Type := mkResponse {
  status : Z;
  body_json : exn + pyval
}.

(** [subprocess.CompletedProcess] with captured text output. *)
Record completed_process : Type := mkCompleted {
  returncode : Z;
  cp_stdout : string;
  cp_stderr : string
}.

(** The fields of the configuration that the control plane reads. *)
Record config : Type := mkConfig {
  center_server_url : string;
  secret_key : string;
  client_id : string;
  command_poll_interval : Q
}.

(* ===================================================================== *)
(** * Calls to the outside and their outcomes *)
(* ===================================================================== *)

Definition WNOHANG : Z := 1.
Definition O_NONBLOCK : Z := 2048.

(** Every operating-system, library or network call the modelled methods
    make, with its arguments.  [print] is logging only and is left out. *)
Inductive call : Type :=
| PtyFork
| GetenvSHELL
| PathExists (path : string)
| Execvpe (file : string) (args : list string) (env_set : list (string * string))
| FcntlGetfl (fd : Z)
| FcntlSetfl (fd : Z) (flags : Z)
| IoctlTIOCSWINSZ (fd : Z) (ws_row ws_col ws_xpixel ws_ypixel : Z)
| ThreadStart (session_id : string)
| SioEmit (ev : event)
| OsWrite (fd : Z) (data : list Byte.byte)
| OsClose (fd : Z)
| OsKill (pid : Z) (sig : signal)
| OsWaitpid (pid : Z) (options : Z)
| TimeSleep (seconds : Q)
| TimeTime
| DatetimeNow
| SubprocessRun (command_string : pyval) (timeout : pyval)
| Urlopen (req : http_request).

(** The value a call returns when it does not raise. *)
Definition resp (c : call) : Type :=
  match c with
  | PtyFork => (Z * Z)%type
  | GetenvSHELL => option string
  | PathExists _ => bool
  | FcntlGetfl _ => Z
  | OsWrite _ _ => Z
  | OsWaitpid _ _ => (Z * Z)%type
  | TimeTime => Q
  | DatetimeNow => string
  | SubprocessRun _ _ => completed_process
  | Urlopen _ => http_response
  | _ => unit
  end.

(** Reads of the environment that never raise. *)
Definition infallible (c : call) : bool :=
  match c with
  | GetenvSHELL | PathExists _ | TimeTime | DatetimeNow => true
  | _ => false
  end.

Definition answer (c : call) : Type :=
  if infallible c then resp c else (exn + resp c)%type.

(** The oracle: what the outside answers to a call, given the calls made
    so far. *)
Definition os_env : Type := list call -> forall c : call, answer c.

(** The part of [self] that the handlers read and write, the events sent
    and the calls made, in order. *)
Record world : Type := mkWorld {
  shell_sessions : gmap string session;
  shell_connected : bool;
  command_polling_running : bool;
  emitted : list event;
  trace : list call
}.

(** How a Python call ends: it returns, it raises, or (after a successful
    [os.execvpe]) the process image is gone and nothing follows. *)
Inductive outcome (A : Type) : Type :=
| Ret (a : A)
| Raise (e : exn)
| Replaced.
Arguments Ret {A} a.
Arguments Raise {A} e.
Arguments Replaced {A}.

Definition M (A : Type) : Type := world -> outcome A * world.

Definition ret {A} (a : A) : M A := fun w => (Ret a, w).

Definition raise {A} (e : exn) : M A := fun w => (Raise e, w).

Definition bind {A B} (m : M A) (k : A -> M B) : M B :=
  fun w =>
    match m w with
    | (Ret a, w') => k a w'
    | (Raise e, w') => (Raise e, w')
    | (Replaced, w') => (Replaced, w')
    end.

(** [try: m  except Exception as e: h e]. *)
Definition try_except {A} (m : M A) (h : exn -> M A) : M A :=
  fun w =>
    match m w with
    | (Raise e, w') => h e w'
    | r => r
    end.

Definition lift {A} (r : exn + A) : M A :=
  match r with
  | inl e => raise e
  | inr a => ret a
  end.

Definition gets {A} (f : world -> A) : M A := fun w => (Ret (f w), w).

Definition modify (f : world -> world) : M unit := fun w => (Ret tt, f w).

Notation "'let*' x ':=' m 'in' k" := (bind m (fun x => k))
  (at level 10, x pattern, m at level 100, k at level 200).
Notation "'run' m 'then' k" := (bind m (fun _ => k))
  (at level 10, m at level 100, k at level 200).

Definition to_outcome (c : call) : answer c -> outcome (resp c) :=
  match c return answer c -> outcome (resp c) with
  | GetenvSHELL => fun r => Ret r
  | PathExists _ => fun r => Ret r
  | TimeTime => fun r => Ret r
  | DatetimeNow => fun r => Ret r
  | _ => fun r => match r with inl e => Raise e | inr v => Ret v end
  end.

Arguments to_outcome : simpl never.

Definition log_call (c : call) (w : world) : world :=
  mkWorld (shell_sessions w) (shell_connected w) (command_polling_running w)
          (emitted w) (trace w ++ [c]).

Definition log_calls (cs : list call) (w : world) : world :=
  mkWorld (shell_sessions w) (shell_connected w) (command_polling_running w)
          (emitted w) (trace w ++ cs).

Definition log_event (ev : event) (w : world) : world :=
  mkWorld (shell_sessions w) (shell_connected w) (command_polling_running w)
          (emitted w ++ [ev]) (trace w).

Definition set_sessions (m : gmap string session) (w : world) : world :=
  mkWorld m (shell_connected w) (command_polling_running w)
          (emitted w) (trace w).

Definition set_connected (b : bool) (w : world) : world :=
  mkWorld (shell_sessions w) b (command_polling_running w)
          (emitted w) (trace w).

(* ===================================================================== *)
(** * The methods of [PingBenchmark] *)
(* ===================================================================== *)

Section Agent.

Variable cfg : config.
Variable env : os_env.

(** Make a call: ask the oracle, log the call. *)
Definition perform (c : call) : M (resp c) :=
  fun w => (to_outcome c (env (trace w) c), log_call c w).

(** [self.sio.emit(...)]: the event counts as emitted when the call
    returns. *)
Definition sio_emit (ev : event) : M unit :=
  fun w =>
    match perform (SioEmit ev) w with
    | (Ret _, w') => (Ret tt, log_event ev w')
    | r => r
    end.

(** [os.execvpe(...)]: returns only by raising. *)
Definition os_execvpe {A} (file : string) (args : list string)
    (env_set : list (string * string)) : M A :=
  fun w =>
    match perform (Execvpe file args env_set) w with
    | (Ret _, w') => (Replaced, w')
    | (Raise e, w') => (Raise e, w')
    | (Replaced, w') => (Replaced, w')
    end.

(** [struct.pack('HHHH', a, b, c, d)]: each field is an unsigned short. *)
Definition struct_pack_HHHH (a b c d : Z) : exn + (Z * Z * Z * Z) :=
  let ok x := ((0 <=? x) && (x <=? 65535))%Z in
  if ok a && ok b && ok c && ok d then inr (a, b, c, d)
  else inl (mkExn StructError "ushort format requires 0 <= number <= 65535").

(** [_set_pty_size], lines 811-817. *)
Definition _set_pty_size (fd rows cols : Z) : M unit :=
  try_except
    (let* (r, c, x, y) := lift (struct_pack_HHHH rows cols 0 0) in
     perform (IoctlTIOCSWINSZ fd r c x y))
    (fun _ => ret tt).

(** [self.shell_sessions.get(session_id)]. *)
Definition get_session (session_id : string) : M (option session) :=
  gets (fun w => shell_sessions w !! session_id).

(** [self.shell_sessions[session_id] = s]. *)
Definition store_session (session_id : string) (s : session) : M unit :=
  modify (fun w => set_sessions (<[session_id := s]> (shell_sessions w)) w).

(** [self.shell_sessions.pop(session_id, None)]. *)
Definition pop_session (session_id : string) : M (option session) :=
  fun w =>
    match shell_sessions w !! session_id with
    | None => (Ret None, w)
    | Some s => (Ret (Some s), set_sessions (delete session_id (shell_sessions w)) w)
    end.

(** [_open_shell_session], lines 674-733.  [pty.fork()] returns in two
    processes; [pid = 0] is the child, which becomes the login shell. *)
Definition _open_shell_session (session_id : string) (rows cols : Z) : M unit :=
  try_except
    (let* (pid, fd) := perform PtyFork in
     if (pid =? 0)%Z then
       let env_set := [("TERM", "xterm-256color");
                       ("COLUMNS", pretty cols);
                       ("LINES", pretty rows)] in
       let* shell0 := perform GetenvSHELL in
       let shell := default "/bin/bash" shell0 in
       let* e1 := perform (PathExists shell) in
       let shell := if e1 : bool then shell else "/bin/bash" in
       let* e2 := perform (PathExists shell) in
       let shell := if e2 : bool then shell else "/bin/sh" in
       os_execvpe shell [shell; "-l"] env_set
     else
       let* flags := perform (FcntlGetfl fd) in
       run perform (FcntlSetfl fd (Z.lor flags O_NONBLOCK)) then
       run _set_pty_size fd rows cols then
       run store_session session_id (mkSession fd pid rows cols) then
       run sio_emit (shell_ready session_id (client_id cfg)) then
       run perform (ThreadStart session_id) then
       ret tt)
    (fun _ => sio_emit (shell_client_exit session_id (-1))).

(** [_handle_shell_input], lines 787-799. *)
Definition _handle_shell_input (session_id : string) (input_data : string) : M unit :=
  let* session := get_session session_id in
  match session with
  | None => ret tt
  | Some s =>
      try_except
        (let* data := lift (Base64.b64decode input_data) in
         run perform (OsWrite (fd s) data) then
         ret tt)
        (fun _ => ret tt)
  end.

(** [_resize_shell], lines 801-809.  [session] is the dict held by the
    registry, so the two assignments update the registry entry. *)
Definition _resize_shell (session_id : string) (rows cols : Z) : M unit :=
  let* session := get_session session_id in
  match session with
  | None => ret tt
  | Some s =>
      run store_session session_id (mkSession (fd s) (pid s) rows cols) then
      _set_pty_size (fd s) rows cols
  end.

(** [_close_shell_session], lines 819-848. *)
Definition _close_shell_session (session_id : string) : M unit :=
  let* session := pop_session session_id in
  match session with
  | None => ret tt
  | Some s =>
      run try_except (perform (OsClose (fd s))) (fun _ => ret tt) then
      run try_except
            (run perform (OsKill (pid s) SIGTERM) then
             run perform (TimeSleep (1 # 10)) then
             run try_except (perform (OsKill (pid s) SIGKILL))
                            (fun _ => ret tt) then
             run try_except
                   (run perform (OsWaitpid (pid s) WNOHANG) then ret tt)
                   (fun _ => ret tt) then
             ret tt)
            (fun _ => ret tt) then
      ret tt
  end.

(** [for x in xs: body x]. *)
Fixpoint for_each {A} (xs : list A) (body : A -> M unit) : M unit :=
  match xs with
  | [] => ret tt
  | x :: rest => run body x then for_each rest body
  end.

(** The [disconnect] handler, lines 607-613.  [list(dict.keys())] is the
    key enumeration of the map; the insertion order of the Python dict is
    not tracked, and nothing stated below depends on the order in which
    the sessions are closed. *)
Definition disconnect : M unit :=
  run modify (set_connected false) then
  let* keys := gets (fun w => (map_to_list (shell_sessions w)).*1) in
  for_each keys _close_shell_session.

(** [execute_command], lines 394-453. *)
Definition execute_command (command_data : pyval) : M cmd_result :=
  let* command_string := lift (py_get command_data "command_string" (PStr "")) in
  let* timeout := lift (py_get command_data "timeout" (PInt 60)) in
  let* command_uuid := lift (py_get command_data "command_uuid" (PStr "")) in
  let* command_id := lift (py_get command_data "command_id" (PStr "")) in
  let* start_time := perform TimeTime in
  try_except
    (let* result := perform (SubprocessRun command_string timeout) in
     let* t := perform TimeTime in
     let duration := Qminus t start_time in
     let* now := perform DatetimeNow in
     ret (mkResult command_uuid command_id (returncode result)
            (cp_stdout result) (cp_stderr result) now
            (py_round3 duration) None))
    (fun e =>
       match exn_cls e with
       | TimeoutExpired =>
           let* t := perform TimeTime in
           let duration := Qminus t start_time in
           let* now := perform DatetimeNow in
           ret (mkResult command_uuid command_id (-1) ""
                  ("Command timed out after " ++ py_str timeout ++ " seconds")
                  now (py_round3 duration) (Some "timeout"))
       | _ =>
           let* t := perform TimeTime in
           let duration := Qminus t start_time in
           let* now := perform DatetimeNow in
           ret (mkResult command_uuid command_id (-1) ""
                  (exn_str e) now (py_round3 duration) (Some (exn_str e)))
       end).

Definition auth_headers : list (string * string) :=
  [("X-Client-ID", client_id cfg); ("X-Client-API-Key", secret_key cfg)].

(** [submit_command_result], lines 455-482. *)
Definition submit_command_result (result : cmd_result) : M unit :=
  if String.eqb (center_server_url cfg) "" then ret tt
  else
    try_except
      (let url := center_server_url cfg ++ "/api/commands/result" in
       let req := mkRequest "POST" url
                    (("Content-Type", "application/json") :: auth_headers)
                    (Some result) 10 in
       run perform (Urlopen req) then
       ret tt)
      (fun _ => ret tt).

Definition poll_request : http_request :=
  mkRequest "GET" (center_server_url cfg ++ "/api/commands/poll")
            auth_headers None 10.

(** [poll_for_commands], lines 484-514. *)
Definition poll_for_commands : M pyval :=
  if String.eqb (center_server_url cfg) "" || String.eqb (secret_key cfg) ""
  then ret PNone
  else
    try_except
      (let* response := perform (Urlopen poll_request) in
       if (status response =? 200)%Z then
         let* data := lift (body_json response) in
         let* has_command := lift (py_get data "has_command" PNone) in
         if truthy has_command then lift (py_get data "command" PNone)
         else ret PNone
       else ret PNone)
      (fun e =>
         match exn_cls e with
         | HTTPError code => ret PNone
         | _ => ret PNone
         end).

(** One turn of the [while] loop of [command_polling_worker],
    lines 521-537. *)
Definition polling_cycle : M unit :=
  run try_except
        (let* command := poll_for_commands in
         if truthy command then
           let* result := execute_command command in
           run submit_command_result result then
           ret tt
         else ret tt)
        (fun _ => ret tt) then
  perform (TimeSleep (command_poll_interval cfg)).


End Agent.

(** The request by which [submit_command_result] posts a result. *)
Definition result_request (cfg : config) (result : cmd_result) : http_request :=
  mkRequest "POST" (center_server_url cfg ++ "/api/commands/result")
            (("Content-Type", "application/json") :: auth_headers cfg)
            (Some result) 10.

(* ===================================================================== *)
(** * The reader of a session *)
(* ===================================================================== *)

(** [os.WIFEXITED(status)] and [os.WEXITSTATUS(status)] on a wait
    status. *)
Definition WIFEXITED (status : Z) : bool := (Z.land status 127 =? 0)%Z.

Definition WEXITSTATUS (status : Z) : Z := Z.land (Z.shiftr status 8) 255.

(** [isinstance(e, OSError)]. *)
Definition is_OSError (e : exn) : bool :=
  match exn_cls e with
  | OSError | ChildProcessError | ProcessLookupError | BlockingIOError
  | HTTPError _ | URLError => true
  | _ => false
  end.

Definition is_ChildProcessError (e : exn) : bool :=
  match exn_cls e with
  | ChildProcessError => true
  | _ => false
  end.

(** [try: m  except <class> as e: h e], for the classes selected by
    [catches]; any other exception goes on. *)
Definition try_except_if {A} (catches : exn -> bool) (m : M A) (h : exn -> M A)
  : M A :=
  fun w =>
    match m w with
    | (Raise e, w') => if catches e then h e w' else (Raise e, w')
    | r => r
    end.

(** What one turn of the reader loop gets from the descriptor:
    the answer of [select.select([fd], [], [], 0.1)] (whether the list of
    ready descriptors is non-empty) and the answer of [os.read(fd, 4096)],
    which is asked for only when the descriptor is ready. *)
Record reader_obs : Type := mkObs {
  sel : exn + bool;
  rd : exn + list Byte.byte
}.

(** How a turn of the loop ends: by going on, by [return], by [break]. *)
Inductive turn : Type := Continue | Return | Break.

(** What is known of the reader when the observations run out. *)
Inductive reader_status : Type := Finished | StillRunning.

Section Reader.

Variable env : os_env.

(** Whether [self.sio] is set.  It is set by [start_shell_client] before
    any session exists. *)
Variable sio_set : bool.

(** [if self.sio and self.shell_connected: self.sio.emit(...)]. *)
Definition emit_if_connected (ev : event) : M unit :=
  let* connected := gets shell_connected in
  if sio_set && connected then sio_emit env ev else ret tt.

(** One turn of the [while] loop of [_shell_read_worker], lines 746-780. *)
Definition reader_turn (obs : reader_obs) (session_id : string) (s : session)
  : M turn :=
  let* t :=
    try_except_if is_ChildProcessError
      (let* (wpid, status) := perform env (OsWaitpid (pid s) WNOHANG) in
       if negb (wpid =? 0)%Z then
         let exit_code :=
           if WIFEXITED status then WEXITSTATUS status else (-1)%Z in
         run emit_if_connected (shell_client_exit session_id exit_code) then
         run _close_shell_session env session_id then
         ret Return
       else ret Continue)
      (fun _ =>
         run _close_shell_session env session_id then
         ret Return) in
  match t with
  | Continue =>
      try_except_if is_OSError
        (let* ready := lift (sel obs) in
         if ready : bool then
           let* data := lift (rd obs) in
           match data with
           | [] => ret Continue
           | _ :: _ =>
               run emit_if_connected
                     (shell_output session_id (Base64.b64encode data)) then
               ret Continue
           end
         else ret Continue)
        (fun _ => ret Break)
  | other => ret other
  end.

(** The [while session_id in self.shell_sessions:] loop, one observation
    per turn.  [Continue] as a result means that the observations ran out
    with the loop still going. *)
Fixpoint reader_loop (script : list reader_obs) (session_id : string)
    (s : session) : M turn :=
  let* present := gets (fun w => bool_decide (is_Some (shell_sessions w !! session_id))) in
  if present : bool then
    match script with
    | [] => ret Continue
    | obs :: rest =>
        let* t := reader_turn obs session_id s in
        match t with
        | Continue => reader_loop rest session_id s
        | other => ret other
        end
    end
  else ret Break.

(** [_shell_read_worker], lines 735-785.  The [finally] clause runs when
    the loop is left, by [return], by [break], by its condition or by an
    exception. *)
Definition _shell_read_worker (script : list reader_obs) (session_id : string)
  : M reader_status :=
  let* session := get_session session_id in
  match session with
  | None => ret Finished
  | Some s =>
      let* t := try_except (reader_loop script session_id s)
                           (fun _ => ret Break) in
      match t with
      | Continue => ret StillRunning
      | _ =>
          run _close_shell_session env session_id then
          ret Finished
      end
  end.

End Reader.

(** The byte strings a run of observations hands to the relay: a turn
    relays when the descriptor is ready and the read is not empty. *)
Definition relayed (obs : reader_obs) : list (list Byte.byte) :=
  match sel obs, rd obs with
  | inr true, inr (b :: bs) => [b :: bs]
  | _, _ => []
  end.

(** Observations without errors. *)
Definition clean_obs (obs : reader_obs) : Prop :=
  (exists b, sel obs = inr b) /\ (exists d, rd obs = inr d).

(* ===================================================================== *)
(** * Statements about oracles, and concrete scenarios *)
(* ===================================================================== *)

(** The call [c], made after the calls [tr], returns [v] / raises [e]. *)
Definition returns (env : os_env) (tr : list call) (c : call) (v : resp c) : Prop :=
  to_outcome c (env tr c) = Ret v.

Definition raises (env : os_env) (tr : list call) (c : call) (e : exn) : Prop :=
  to_outcome c (env tr c) = Raise e.

(** The call [c] returns whenever it is made. *)
Definition never_raises (env : os_env) (c : call) : Prop :=
  forall tr, exists v, returns env tr c v.

(** [time.time()] as read after the calls [tr]. *)
Definition clock (env : os_env) (tr : list call) : Q := env tr TimeTime.

(** The calls made and the events emitted by a run that started in [w]
    and ended in [w']. *)
Definition new_calls (w w' : world) : list call :=
  drop (length (trace w)) (trace w').

Definition new_events (w w' : world) : list event :=
  drop (length (emitted w)) (emitted w').

Fixpoint count_sleeps (tr : list call) : nat :=
  match tr with
  | [] => 0
  | TimeSleep _ :: rest => S (count_sleeps rest)
  | _ :: rest => count_sleeps rest
  end.

(** The teardown sequence in the words of the specification: close the
    descriptor, terminate, wait, force-kill only when the child is still
    alive ([still_alive]), reap. *)
Definition teardown_as_specified (s : session) (still_alive : bool) : list call :=
  [OsClose (fd s); OsKill (pid s) SIGTERM; TimeSleep (1 # 10)]
  ++ (if still_alive then [OsKill (pid s) SIGKILL] else [])
  ++ [OsWaitpid (pid s) WNOHANG].

(** Opening as the specification words it for an id that is already
    registered: the entry is kept and no second process/descriptor pair
    is created. *)
Definition open_respects_existing (cfg : config) (env : os_env)
    (sid : string) (rows cols : Z) (w : world) : Prop :=
  is_Some (shell_sessions w !! sid) ->
  let w' := (_open_shell_session cfg env sid rows cols w).2 in
  shell_sessions w' !! sid = shell_sessions w !! sid /\
  ~ In PtyFork (new_calls w w').

(** Opening as the specification words it for the events: exactly one
    [shell_ready], or exactly one [shell_client_exit] with code -1. *)
Definition open_emits_exactly_one (cfg : config) (env : os_env)
    (sid : string) (rows cols : Z) (w : world) : Prop :=
  let evs := new_events w (_open_shell_session cfg env sid rows cols w).2 in
  evs = [shell_ready sid (client_id cfg)] \/
  evs = [shell_client_exit sid (-1)].

(** Whether one of the calls [calls], made after the calls [tr], was a
    [waitpid] on the process [p] that returned [p]: the child was
    reaped. *)
Fixpoint reaped (env : os_env) (tr calls : list call) (p : Z) : bool :=
  match calls with
  | [] => false
  | c :: rest =>
      match c return answer c -> bool with
      | OsWaitpid p' _ =>
          fun a => match a with
                   | inr (wpid, _) => ((p' =? p) && (wpid =? p))%Z
                   | inl _ => false
                   end
      | _ => fun _ => false
      end (env tr c)
      || reaped env (tr ++ [c]) rest p
  end.

(** The bytes that the descriptor [d] took among the calls [calls], made
    after the calls [tr]: [os.write] returns how many bytes of the data
    it took, from the front, and takes none when it raises. *)
Fixpoint accepted (env : os_env) (tr calls : list call) (d : Z)
  : list Byte.byte :=
  match calls with
  | [] => []
  | c :: rest =>
      match c return answer c -> list Byte.byte with
      | OsWrite d' data =>
          fun a => match a with
                   | inr n => if (d' =? d)%Z then take (Z.to_nat n) data else []
                   | inl _ => []
                   end
      | _ => fun _ => []
      end (env tr c)
      ++ accepted env (tr ++ [c]) rest d
  end.

(** The input path as the specification words it: the bytes that reach
    the descriptor of the session are exactly the decoding of the
    payload. *)
Definition input_reaches_descriptor (env : os_env) (sid payload : string)
    (w : world) : Prop :=
  forall s data,
    shell_sessions w !! sid = Some s ->
    Base64.b64decode payload = inr data ->
    accepted env (trace w)
      (new_calls w (_handle_shell_input env sid payload w).2) (fd s) = data.

(** An outside where every call succeeds. *)
Definition default_answer (c : call) : answer c :=
  match c return answer c with
  | PtyFork => inr (4321, 7)
  | GetenvSHELL => Some "/bin/bash"
  | PathExists _ => true
  | Execvpe _ _ _ => inr tt
  | FcntlGetfl _ => inr 2
  | FcntlSetfl _ _ => inr tt
  | IoctlTIOCSWINSZ _ _ _ _ _ => inr tt
  | ThreadStart _ => inr tt
  | SioEmit _ => inr tt
  | OsWrite _ data => inr (Z.of_nat (length data))
  | OsClose _ => inr tt
  | OsKill _ _ => inr tt
  | OsWaitpid p _ => inr (p, 9)
  | TimeSleep _ => inr tt
  | TimeTime => 0%Q
  | DatetimeNow => "2024-05-01T12:00:00"
  | SubprocessRun _ _ => inr (mkCompleted 0 "hi" "")
  | Urlopen _ => inr (mkResponse 200 (inr (PDict [("has_command", PBool false)])))
  end.

Definition env_ok : os_env := fun _ c => default_answer c.

(** The reader thread cannot be started (thread limit reached). *)
Definition env_thread_limit : os_env :=
  fun _ c =>
    match c return answer c with
    | ThreadStart _ => inl (mkExn RuntimeError "can't start new thread")
    | c' => default_answer c'
    end.

(** The Socket.IO connection is down: nothing can be emitted. *)
Definition env_channel_down : os_env :=
  fun _ c =>
    match c return answer c with
    | SioEmit _ => inl (mkExn BadNamespaceError "/ is not a connected namespace.")
    | c' => default_answer c'
    end.

(** [pty.fork()] fails (out of pseudo-terminals). *)
Definition env_no_pty : os_env :=
  fun _ c =>
    match c return answer c with
    | PtyFork => inl (mkExn OSError "out of pty devices")
    | c' => default_answer c'
    end.

(** The child is already gone and reaped: signalling it fails. *)
Definition env_child_gone : os_env :=
  fun _ c =>
    match c return answer c with
    | OsKill _ _ => inl (mkExn ProcessLookupError "[Errno 3] No such process")
    | OsWaitpid _ _ => inl (mkExn ChildProcessError "[Errno 10] No child processes")
    | c' => default_answer c'
    end.

(** The child exits on SIGTERM within the grace period: [waitpid]
    reports termination by signal 15. *)
Definition env_term_suffices : os_env :=
  fun _ c =>
    match c return answer c with
    | OsWaitpid p _ => inr (p, 15)
    | c' => default_answer c'
    end.

(** The child has not terminated yet when [waitpid] is called with
    WNOHANG: the call returns [(0, 0)]. *)
Definition env_still_running : os_env :=
  fun _ c =>
    match c return answer c with
    | OsWaitpid _ _ => inr (0, 0)
    | c' => default_answer c'
    end.

(** The command runs into its timeout; the clock advances by one second
    per call. *)
Definition env_timeout : os_env :=
  fun tr c =>
    match c return answer c with
    | SubprocessRun _ _ => inl (mkExn TimeoutExpired "timed out")
    | TimeTime => inject_Z (Z.of_nat (length tr))
    | c' => default_answer c'
    end.

(** The server cannot be reached. *)
Definition env_net_down : os_env :=
  fun _ c =>
    match c return answer c with
    | Urlopen _ => inl (mkExn URLError "<urlopen error [Errno 111] Connection refused>")
    | c' => default_answer c'
    end.

(** The server rejects the credentials. *)
Definition env_unauthorized : os_env :=
  fun _ c =>
    match c return answer c with
    | Urlopen _ => inl (mkExn (HTTPError 401) "HTTP Error 401: UNAUTHORIZED")
    | c' => default_answer c'
    end.


(** The terminal takes only the first two bytes of a write: the
    descriptor is non-blocking and its buffer is nearly full. *)
Definition env_short_write : os_env :=
  fun _ c =>
    match c return answer c with
    | OsWrite _ _ => inr 2
    | c' => default_answer c'
    end.

(** The buffer of the terminal is full: a write on the non-blocking
    descriptor raises. *)
Definition env_would_block : os_env :=
  fun _ c =>
    match c return answer c with
    | OsWrite _ _ =>
        inl (mkExn BlockingIOError "[Errno 11] Resource temporarily unavailable")
    | c' => default_answer c'
    end.

Definition cfg0 : config :=
  mkConfig "http://center:5000" "s3cret" "edge-1" 10.

(** No session open. *)
Definition w_idle : world := mkWorld ∅ true true [] [].

(** One session open: "s1", descriptor 5, process 100. *)
Definition w_one : world :=
  mkWorld {[ "s1" := mkSession 5 100 24 80 ]} true true [] [].

Definition cmd_sleep : list (string * pyval) :=
  [("command_uuid", PStr "u-1"); ("command_id", PStr "c-1");
   ("command_string", PStr "sleep 10"); ("timeout", PInt 1)].

Definition cmd_no_timeout : list (string * pyval) :=
  [("command_uuid", PStr "u-2"); ("command_id", PStr "c-2");
   ("command_string", PStr "echo hi")].

(** [w'] differs from [w] at most in the entry of [sid], in the events
    and in the call log. *)
Definition only_touches (sid : string) (w w' : world) : Prop :=
  (forall sid', sid' <> sid ->
     shell_sessions w' !! sid' = shell_sessions w !! sid') /\
  shell_connected w' = shell_connected w.


(* ===================================================================== *)
(** * The ping measurement ([ping_through_router], [print_summary]) *)
(* ===================================================================== *)

Module Ping.

(** Strings are sequences of 8-bit characters, among which the class
    [\d] of the patterns is 0-9. *)

Definition is_digit (c : ascii) : bool :=
  ((48 <=? N_of_ascii c) && (N_of_ascii c <=? 57))%N.

Definition is_digit_or_dot (c : ascii) : bool :=
  is_digit c || Ascii.eqb c "."%char.

(** The longest prefix of [s] made of characters in [p], and the rest. *)
Fixpoint span (p : ascii -> bool) (s : string) : string * string :=
  match s with
  | EmptyString => (EmptyString, EmptyString)
  | String c r =>
      if p c then let (a, b) := span p r in (String c a, b)
      else (EmptyString, s)
  end.

(** [t in s]. *)
Fixpoint contains (t s : string) : bool :=
  String.prefix t s
  || match s with
     | EmptyString => false
     | String _ r => contains t r
     end.

(** [re.search(r'(\d+)% packet loss', s)]: group 1 of the leftmost
    match.  A match at a position takes the whole run of digits there,
    since the character after the group must be '%'. *)
Definition match_loss_here (s : string) : option string :=
  let (ds, rest) := span is_digit s in
  if negb (String.eqb ds "") && String.prefix "% packet loss" rest
  then Some ds else None.

Fixpoint search_loss (s : string) : option string :=
  match match_loss_here s with
  | Some g => Some g
  | None =>
      match s with
      | EmptyString => None
      | String _ r => search_loss r
      end
  end.

(** [re.search(r'time=([\d.]+)', s)]: group 1 of the leftmost match. *)
Definition match_time_here (s : string) : option string :=
  if String.prefix "time=" s then
    let (g, _) := span is_digit_or_dot (String.substring 5 (String.length s - 5) s) in
    if String.eqb g "" then None else Some g
  else None.

Fixpoint search_time (s : string) : option string :=
  match match_time_here s with
  | Some g => Some g
  | None =>
      match s with
      | EmptyString => None
      | String _ r => search_time r
      end
  end.

(** [s.split('\n')]. *)
Fixpoint split_lines (s : string) : list string :=
  match s with
  | EmptyString => [EmptyString]
  | String c r =>
      if Ascii.eqb c "010"%char then EmptyString :: split_lines r
      else match split_lines r with
           | l :: ls => String c l :: ls
           | [] => [String c EmptyString]
           end
  end.

Fixpoint digits_value (acc : N) (s : string) : N :=
  match s with
  | EmptyString => acc
  | String c r => digits_value (acc * 10 + (N_of_ascii c - 48))%N r
  end.

(** Python floats.  A finite float is given by the rational it stands
    for: rounding to the nearest double is not modelled.  Overflow is:
    a value whose magnitude reaches [float_overflow], half-way between
    the largest double and 2^1024, becomes an infinity. *)
Inductive pyfloat : Type :=
| Fin (q : Q)
| PInf
| NInf
| NaN.

Definition float_overflow : Z := 2 ^ 1024 - 2 ^ 970.

Definition to_float (q : Q) : pyfloat :=
  if Qle_bool (inject_Z float_overflow) q then PInf
  else if Qle_bool q (inject_Z (- float_overflow)) then NInf
  else Fin q.

Arguments to_float : simpl never.

Definition is_finite (x : pyfloat) : bool :=
  match x with
  | Fin _ => true
  | _ => false
  end.

(** [x + y]. *)
Definition fadd (x y : pyfloat) : pyfloat :=
  match x, y with
  | Fin a, Fin b => to_float (a + b)
  | NaN, _ => NaN
  | _, NaN => NaN
  | PInf, NInf => NaN
  | NInf, PInf => NaN
  | PInf, _ => PInf
  | _, PInf => PInf
  | NInf, _ => NInf
  | _, NInf => NInf
  end.

(** [x / n] for a positive integer [n]. *)
Definition fdiv_nat (x : pyfloat) (n : nat) : pyfloat :=
  match x with
  | Fin a => Fin (a / inject_Z (Z.of_nat n))
  | other => other
  end.

(** [x < y] and [x <= y]. *)
Definition flt (x y : pyfloat) : bool :=
  match x, y with
  | Fin a, Fin b => negb (Qle_bool b a)
  | Fin _, PInf => true
  | NInf, Fin _ => true
  | NInf, PInf => true
  | _, _ => false
  end.

Definition fle (x y : pyfloat) : bool :=
  match x, y with
  | Fin a, Fin b => Qle_bool a b
  | Fin _, PInf => true
  | NInf, Fin _ => true
  | NInf, PInf => true
  | PInf, PInf => true
  | NInf, NInf => true
  | _, _ => false
  end.

Definition float_error (g : string) : exn :=
  mkExn ValueError ("could not convert string to float: '" ++ g ++ "'").

(** [float(g)] for a text [g] of digits and dots, as the two patterns
    capture it: digits with at most one dot and at least one digit. *)
Definition py_float (g : string) : exn + pyfloat :=
  let (ip, rest) := span is_digit g in
  match rest with
  | EmptyString =>
      if String.eqb ip "" then inl (float_error g)
      else inr (to_float (inject_Z (Z.of_N (digits_value 0 ip))))
  | String c fr =>
      if Ascii.eqb c "."%char then
        let (fp, rest') := span is_digit fr in
        if String.eqb rest' "" && negb (String.eqb ip "" && String.eqb fp "")
        then inr (to_float
                    (Qmake (Z.of_N (digits_value 0 (ip ++ fp)))
                           (Z.to_pos (10 ^ Z.of_nat (String.length fp)))))
        else inl (float_error g)
      else inl (float_error g)
  end.

(** The loop over the lines of the output, lines 132-136. *)
Fixpoint parse_latencies (lines : list string) : exn + list pyfloat :=
  match lines with
  | [] => inr []
  | line :: rest =>
      if contains "time=" line then
        match search_time line with
        | Some g =>
            match py_float g with
            | inl e => inl e
            | inr x =>
                match parse_latencies rest with
                | inl e => inl e
                | inr xs => inr (x :: xs)
                end
            end
        | None => parse_latencies rest
        end
      else parse_latencies rest
  end.

(** [min(l)] and [max(l)] of a list with first element [x]: an item
    takes the place of the current one when it compares below (above)
    it. *)
Definition min_list (x : pyfloat) (l : list pyfloat) : pyfloat :=
  fold_left (fun m y => if flt y m then y else m) l x.

Definition max_list (x : pyfloat) (l : list pyfloat) : pyfloat :=
  fold_left (fun m y => if flt m y then y else m) l x.

(** The data as exact fractions, when all of them are finite. *)
Fixpoint finite_values (l : list pyfloat) : option (list Q) :=
  match l with
  | [] => Some []
  | Fin q :: r => option_map (cons q) (finite_values r)
  | _ :: _ => None
  end.

Definition all_finite (l : list pyfloat) : bool := forallb is_finite l.

Definition sum_list (l : list Q) : Q := fold_right Qplus 0%Q l.

Definition exact_mean (l : list Q) : Q :=
  Qdiv (sum_list l) (inject_Z (Z.of_nat (length l))).

(** The float sum of the data that are not finite, which is what
    [statistics._sum] keeps of data that are not all finite. *)
Definition special_sum (l : list pyfloat) : pyfloat :=
  fold_left (fun acc x => if is_finite x then acc else fadd acc x) l (Fin 0).

(** [statistics.mean]: the exact mean of finite data (it lies between
    the least and the largest of them, so it does not overflow);
    otherwise the sum of the infinities and nans divided by the count. *)
Definition mean (l : list pyfloat) : pyfloat :=
  match finite_values l with
  | Some qs => Fin (exact_mean qs)
  | None => fdiv_nat (special_sum l) (length l)
  end.

Fixpoint insert_sorted (x : pyfloat) (l : list pyfloat) : list pyfloat :=
  match l with
  | [] => [x]
  | y :: r => if flt y x then y :: insert_sorted x r else x :: l
  end.

(** [sorted(l)], for data without nan (the measurement produces
    none). *)
Definition sort (l : list pyfloat) : list pyfloat :=
  fold_right insert_sorted [] l.

(** [statistics.median]: the middle element of the sorted data, or half
    the float sum of the two middle ones. *)
Definition median (l : list pyfloat) : pyfloat :=
  let srt := sort l in
  let n := length l in
  if Nat.even n
  then fdiv_nat (fadd (nth (n / 2 - 1) srt NaN) (nth (n / 2) srt NaN)) 2
  else nth (n / 2) srt NaN.

(** The sample variance of finite data. *)
Definition variance (l : list Q) : Q :=
  let m := exact_mean l in
  Qdiv (sum_list (List.map (fun x => Qmult (Qminus x m) (Qminus x m)) l))
       (inject_Z (Z.of_nat (length l) - 1)).

(** The value under ['stdev_ms']: the integer 0 for a single sample, the
    square root of the sample variance otherwise. *)
Inductive stdev_value : Type :=
| StdevZero
| StdevSqrt (var : Q).

Definition stdev_error : exn :=
  mkExn AttributeError "'float' object has no attribute 'numerator'".

(** [statistics.stdev] on two data or more: the square root of the
    exact sample variance of finite data.  On data that are not all
    finite the sum of squares is a float and not a fraction, and taking
    its numerator raises (CPython 3.11). *)
Definition stdev (l : list pyfloat) : exn + stdev_value :=
  match finite_values l with
  | Some qs => inr (StdevSqrt (variance qs))
  | None => inl stdev_error
  end.

Record latency_summary : Type := mkSummary {
  min_ms : pyfloat;
  max_ms : pyfloat;
  avg_ms : pyfloat;
  median_ms : pyfloat;
  stdev_ms : stdev_value
}.

(** The dict returned by [ping_through_router].  A field that is [None]
    stands for a key that the dict does not have; [latency] is
    [Some None] when the five latency keys are present with value
    [None]. *)
Record ping_stats : Type := mkStats {
  timestamp : string;
  router : string;
  gateway : string;
  interface : string;
  target : string;
  packet_loss_pct : option pyfloat;
  packets_sent : option Z;
  packets_received : option nat;
  success : bool;
  latency : option (option latency_summary);
  error : option string
}.

(** The values of the five latency keys, lines 150-165, evaluated in
    the order of the dict display: only [statistics.stdev] can raise. *)
Definition summarize (latencies : list pyfloat) : exn + option latency_summary :=
  match latencies with
  | [] => inr None
  | x :: l =>
      let lo := min_list x l in
      let hi := max_list x l in
      let avg := mean latencies in
      let med := median latencies in
      match (if (1 <? length latencies)%nat
             then stdev latencies else inr StdevZero) with
      | inl e => inl e
      | inr sd => inr (Some (mkSummary lo hi avg med sd))
      end
  end.

Section Measure.

Variable env : os_env.

(** [self.ping_target] and [self.ping_count]. *)
Variable ping_target : string.
Variable ping_count : Z.

Definition ping_command (iface : string) : pyval :=
  PList [PStr "ping"; PStr "-I"; PStr iface; PStr "-c"; PStr (pretty ping_count);
         PStr "-W"; PStr "2"; PStr ping_target].

(** [ping_through_router], lines 100-193.  The time stamp of the result
    is read when the dict of line 138 is built, before the statistics of
    line 150 are computed. *)
Definition ping_through_router (gw iface name : string) : M ping_stats :=
  try_except
    (let* result := perform env (SubprocessRun (ping_command iface)
                                   (PInt (ping_count * 3))) in
     let output := cp_stdout result in
     let packet_loss :=
       match search_loss output with
       | Some g => to_float (inject_Z (Z.of_N (digits_value 0 g)))
       | None => Fin 100
       end in
     let* latencies := lift (parse_latencies (split_lines output)) in
     let* now := perform env DatetimeNow in
     let* summary := lift (summarize latencies) in
     ret (mkStats now name gw iface ping_target
            (Some packet_loss) (Some ping_count) (Some (length latencies))
            (flt packet_loss (Fin 100))
            (Some summary) None))
    (fun e =>
       match exn_cls e with
       | TimeoutExpired =>
           let* now := perform env DatetimeNow in
           ret (mkStats now name gw iface ping_target
                  (Some (Fin 100)) (Some ping_count) (Some 0%nat) false
                  None (Some "timeout"))
       | _ =>
           let* now := perform env DatetimeNow in
           ret (mkStats now name gw iface ping_target
                  None None None false None (Some (exn_str e)))
       end).

End Measure.

(** ** [print_summary] *)

(** The values that the result dicts hold. *)
#[local] Unset Elimination Schemes.
Inductive value : Type :=
| VNone
| VBool (b : bool)
| VInt (z : Z)
| VFloat (x : pyfloat)
| VStr (s : string)
| VDict (d : list (string * value)).
#[local] Set Elimination Schemes.

Definition type_name (v : value) : string :=
  match v with
  | VNone => "NoneType"
  | VBool _ => "bool"
  | VInt _ => "int"
  | VFloat _ => "float"
  | VStr _ => "str"
  | VDict _ => "dict"
  end.

Fixpoint lookup_key (k : string) (d : list (string * value)) : option value :=
  match d with
  | [] => None
  | (k', v) :: rest => if String.eqb k k' then Some v else lookup_key k rest
  end.

(** Evaluation that can raise, without state. *)
Definition and_then {A B} (r : exn + A) (k : A -> exn + B) : exn + B :=
  match r with
  | inl e => inl e
  | inr a => k a
  end.

Notation "'try!' x ':=' r 'in' k" := (and_then r (fun x => k))
  (at level 10, x pattern, r at level 100, k at level 200).

(** [v[k]] for a string [k].  The keys used hold no quote, so that
    their [repr] is the key between quotes. *)
Definition subscript (v : value) (k : string) : exn + value :=
  match v with
  | VDict d =>
      match lookup_key k d with
      | Some x => inr x
      | None => inl (mkExn KeyError ("'" ++ k ++ "'"))
      end
  | VStr _ => inl (mkExn TypeError "string indices must be integers, not 'str'")
  | _ => inl (mkExn TypeError ("'" ++ type_name v ++ "' object is not subscriptable"))
  end.

(** [v.get(k, dflt)]. *)
Definition get_or (v : value) (k : string) (dflt : value) : exn + value :=
  match v with
  | VDict d => inr (default dflt (lookup_key k d))
  | _ => inl (mkExn AttributeError
                ("'" ++ type_name v ++ "' object has no attribute 'get'"))
  end.

(** [bool(v)]. *)
Definition is_true (v : value) : bool :=
  match v with
  | VNone => false
  | VBool b => b
  | VInt z => negb (z =? 0)%Z
  | VFloat (Fin q) => negb (Qeq_bool q 0)
  | VFloat _ => true
  | VStr s => negb (String.eqb s "")
  | VDict [] => false
  | VDict (_ :: _) => true
  end.

Definition is_none (v : value) : bool :=
  match v with
  | VNone => true
  | _ => false
  end.

(** [float(z)] for an int. *)
Definition int_to_float (z : Z) : exn + pyfloat :=
  match to_float (inject_Z z) with
  | Fin q => inr (Fin q)
  | _ => inl (mkExn OverflowError "int too large to convert to float")
  end.

Definition fneg (x : pyfloat) : pyfloat :=
  match x with
  | Fin q => Fin (- q)
  | PInf => NInf
  | NInf => PInf
  | NaN => NaN
  end.

Definition fsub (x y : pyfloat) : pyfloat := fadd x (fneg y).

Definition fabs (x : pyfloat) : pyfloat :=
  match x with
  | Fin q => Fin (if Qle_bool 0 q then q else - q)
  | NInf => PInf
  | other => other
  end.

Arguments fsub : simpl never.
Arguments fabs : simpl never.

(** The numbers among the values; a bool counts as the int 0 or 1. *)
Inductive number : Type :=
| NInt (z : Z)
| NFloat (x : pyfloat).

Definition number_of (v : value) : option number :=
  match v with
  | VBool b => Some (NInt (if b then 1 else 0))
  | VInt z => Some (NInt z)
  | VFloat x => Some (NFloat x)
  | _ => None
  end.

(** [a - b]. *)
Definition py_sub (a b : value) : exn + value :=
  match number_of a, number_of b with
  | Some (NInt x), Some (NInt y) => inr (VInt (x - y))
  | Some (NInt x), Some (NFloat y) =>
      try! fx := int_to_float x in inr (VFloat (fsub fx y))
  | Some (NFloat x), Some (NInt y) =>
      try! fy := int_to_float y in inr (VFloat (fsub x fy))
  | Some (NFloat x), Some (NFloat y) => inr (VFloat (fsub x y))
  | _, _ =>
      inl (mkExn TypeError
             ("unsupported operand type(s) for -: '" ++ type_name a
              ++ "' and '" ++ type_name b ++ "'"))
  end.

(** [abs(v)]. *)
Definition py_abs (v : value) : exn + value :=
  match number_of v with
  | Some (NInt x) => inr (VInt (Z.abs x))
  | Some (NFloat x) => inr (VFloat (fabs x))
  | None =>
      inl (mkExn TypeError ("bad operand type for abs(): '" ++ type_name v ++ "'"))
  end.

(** [v < n] and [v > n] for an int literal [n]; an int and a float are
    compared by their exact values. *)
Definition py_lt_int (v : value) (n : Z) : exn + bool :=
  match number_of v with
  | Some (NInt x) => inr (x <? n)%Z
  | Some (NFloat x) => inr (flt x (Fin (inject_Z n)))
  | None =>
      inl (mkExn TypeError
             ("'<' not supported between instances of '" ++ type_name v
              ++ "' and 'int'"))
  end.

Definition py_gt_int (v : value) (n : Z) : exn + bool :=
  match number_of v with
  | Some (NInt x) => inr (n <? x)%Z
  | Some (NFloat x) => inr (flt (Fin (inject_Z n)) x)
  | None =>
      inl (mkExn TypeError
             ("'>' not supported between instances of '" ++ type_name v
              ++ "' and 'int'"))
  end.

(** A replacement field [{v:.1f}] or [{v:.2f}]: whether formatting
    raises; the text is not kept, since what is printed is left out. *)
Definition format_fixed (v : value) : exn + unit :=
  match v with
  | VFloat _ => inr tt
  | VBool _ => inr tt
  | VInt z => try! _ := int_to_float z in inr tt
  | VStr _ =>
      inl (mkExn ValueError "Unknown format code 'f' for object of type 'str'")
  | _ =>
      inl (mkExn TypeError
             ("unsupported format string passed to " ++ type_name v
              ++ ".__format__"))
  end.

(** [print(f"...{r[k]:.2f} ms")]. *)
Definition print_fixed (r : value) (k : string) : exn + unit :=
  try! v := subscript r k in format_fixed v.

(** The body of the loop over the two routers, lines 241-256.  A
    replacement field without format specification never raises once
    its value is there. *)
Definition print_router (r : value) : exn + unit :=
  try! _ := subscript r "router" in
  try! _ := subscript r "interface" in
  try! _ := subscript r "gateway" in
  try! _ := print_fixed r "packet_loss_pct" in
  try! ok := subscript r "success" in
  try! with_latency :=
    (if is_true ok
     then try! avg := get_or r "avg_ms" VNone in inr (negb (is_none avg))
     else inr false) in
  if with_latency : bool then
    try! _ := print_fixed r "min_ms" in
    try! _ := print_fixed r "avg_ms" in
    try! _ := print_fixed r "median_ms" in
    try! _ := print_fixed r "max_ms" in
    print_fixed r "stdev_ms"
  else
    try! _ := get_or r "error" (VStr "No response") in
    inr tt.

(** The comparison of the two routers, lines 263-285.  Which of the
    lines is printed depends on float comparisons, which here are those
    of the exact values; every branch is evaluated as the source does. *)
Definition print_comparison (r1 r2 : value) : exn + unit :=
  try! s1 := subscript r1 "success" in
  try! both :=
    (if is_true s1
     then try! s2 := subscript r2 "success" in inr (is_true s2)
     else inr false) in
  if both : bool then
    try! a1 := get_or r1 "avg_ms" VNone in
    try! have_avg :=
      (if is_true a1
       then try! a2 := get_or r2 "avg_ms" VNone in inr (is_true a2)
       else inr false) in
    try! _ :=
      (if have_avg : bool then
         try! x := subscript r1 "avg_ms" in
         try! y := subscript r2 "avg_ms" in
         try! diff := py_sub x y in
         try! size := py_abs diff in
         try! similar := py_lt_int size 1 in
         if similar : bool then inr tt
         else
           try! faster := py_lt_int diff 0 in
           if faster : bool
           then try! size' := py_abs diff in format_fixed size'
           else format_fixed diff
       else inr tt) in
    try! l1 := subscript r1 "packet_loss_pct" in
    try! l2 := subscript r2 "packet_loss_pct" in
    try! loss_diff := py_sub l1 l2 in
    try! better2 := py_gt_int loss_diff 0 in
    if better2 : bool then format_fixed loss_diff
    else
      try! better1 := py_lt_int loss_diff 0 in
      if better1 : bool
      then try! size := py_abs loss_diff in format_fixed size
      else inr tt
  else
    try! _ := subscript r1 "success" in
    try! _ := subscript r2 "success" in
    inr tt.

(** [print_summary], lines 235-287.  [print] itself is left out: what
    remains is the evaluation of what is printed, which can raise. *)
Definition print_summary (result : value) : exn + unit :=
  try! ra := subscript result "router1" in
  try! _ := print_router ra in
  try! rb := subscript result "router2" in
  try! _ := print_router rb in
  try! r1 := subscript result "router1" in
  try! r2 := subscript result "router2" in
  print_comparison r1 r2.

Definition optional_item (k : string) (v : option value) : list (string * value) :=
  match v with
  | Some x => [(k, x)]
  | None => []
  end.

(** The dict for which a [ping_stats] record stands, with its keys in
    the order in which [ping_through_router] sets them.  [root] gives
    the float that [statistics.stdev] returns for a sample variance,
    its square root. *)
Definition stats_dict (root : Q -> pyfloat) (r : ping_stats)
  : list (string * value) :=
  [("timestamp", VStr (timestamp r)); ("router", VStr (router r));
   ("gateway", VStr (gateway r)); ("interface", VStr (interface r));
   ("target", VStr (target r))]
  ++ optional_item "packet_loss_pct" (VFloat <$> packet_loss_pct r)
  ++ optional_item "packets_sent" (VInt <$> packets_sent r)
  ++ optional_item "packets_received"
       ((fun n => VInt (Z.of_nat n)) <$> packets_received r)
  ++ [("success", VBool (success r))]
  ++ match latency r with
     | None => []
     | Some None =>
         [("min_ms", VNone); ("max_ms", VNone); ("avg_ms", VNone);
          ("median_ms", VNone); ("stdev_ms", VNone)]
     | Some (Some sm) =>
         [("min_ms", VFloat (min_ms sm)); ("max_ms", VFloat (max_ms sm));
          ("avg_ms", VFloat (avg_ms sm)); ("median_ms", VFloat (median_ms sm));
          ("stdev_ms",
           match stdev_ms sm with
           | StdevZero => VInt 0
           | StdevSqrt var => VFloat (root var)
           end)]
     end
  ++ optional_item "error" (VStr <$> error r).

(** The three shapes of the results of [ping_through_router]: a
    measurement, the time-out record and the error record. *)
Inductive measured : ping_stats -> Prop :=
| measured_parsed (ts nm gw ifc tgt : string) (loss : pyfloat) (sent : Z)
    (received : nat) (summary : option latency_summary) :
    measured (mkStats ts nm gw ifc tgt (Some loss) (Some sent) (Some received)
                (flt loss (Fin 100)) (Some summary) None)
| measured_timeout (ts nm gw ifc tgt : string) (sent : Z) :
    measured (mkStats ts nm gw ifc tgt (Some (Fin 100)) (Some sent) (Some 0%nat)
                false None (Some "timeout"))
| measured_error (ts nm gw ifc tgt msg : string) :
    measured (mkStats ts nm gw ifc tgt None None None false None (Some msg)).

End Ping.

(** Further scenarios. *)

(** A configuration without a secret key. *)
Definition cfg_no_key : config := mkConfig "http://center:5000" "" "edge-1" 10.

(** The server has a command waiting: [echo hi], no time-out given. *)
Definition env_has_command : os_env :=
  fun _ c =>
    match c return answer c with
    | Urlopen _ =>
        inr (mkResponse 200
               (inr (PDict [("has_command", PBool true);
                            ("command", PDict cmd_no_timeout)])))
    | c' => default_answer c'
    end.

(** The command cannot be started. *)
Definition env_cannot_run : os_env :=
  fun _ c =>
    match c return answer c with
    | SubprocessRun _ _ => inl (mkExn OSError "[Errno 12] Cannot allocate memory")
    | c' => default_answer c'
    end.

(** The child has exited with status 3 ([waitpid] reports 3 * 256). *)
Definition env_child_exited : os_env :=
  fun _ c =>
    match c return answer c with
    | OsWaitpid p _ => inr (p, 768)
    | c' => default_answer c'
    end.

(** Two turns of output, a turn without data and an empty read. *)
Definition script_output : list reader_obs :=
  [mkObs (inr true) (inr [Byte.x6c; Byte.x73]);
   mkObs (inr false) (inr []);
   mkObs (inr true) (inr []);
   mkObs (inr true) (inr [Byte.x0a])].

(** The descriptor has been closed under the reader. *)
Definition script_closed : list reader_obs :=
  [mkObs (inl (mkExn OSError "[Errno 9] Bad file descriptor")) (inr [])].

Definition nl : string := String "010"%char EmptyString.

(** The outside answers the ping command with [out] on stdout. *)
Definition env_ping (out : string) : os_env :=
  fun _ c =>
    match c return answer c with
    | SubprocessRun _ _ => inr (mkCompleted 0 out "")
    | c' => default_answer c'
    end.

(** Two replies and the statistics line. *)
Definition ping_output_ok : string :=
  "64 bytes from 8.8.8.8: icmp_seq=1 ttl=117 time=12.3 ms" ++ nl ++
  "64 bytes from 8.8.8.8: icmp_seq=2 ttl=117 time=11.9 ms" ++ nl ++
  "2 packets transmitted, 2 received, 0% packet loss, time 1001ms" ++ nl.

(** A reply, but the output breaks off before the statistics line. *)
Definition ping_output_cut : string :=
  "64 bytes from 8.8.8.8: icmp_seq=1 ttl=117 time=12.3 ms" ++ nl.

(** A reply line whose time value is not a number. *)
Definition ping_output_garbled : string :=
  "64 bytes from 8.8.8.8: icmp_seq=1 ttl=117 time=12.3 ms" ++ nl ++
  "64 bytes from 8.8.8.8: icmp_seq=2 ttl=117 time=1.2.3 ms" ++ nl ++
  "2 packets transmitted, 2 received, 0% packet loss, time 1001ms" ++ nl.

(** [n] times the digit 9. *)
Fixpoint nines (n : nat) : string :=
  match n with
  | O => EmptyString
  | S k => String "9"%char (nines k)
  end.

(** Two replies, one of them with a time value of 400 digits, which no
    double can hold. *)
Definition ping_output_overflow : string :=
  "64 bytes from 8.8.8.8: icmp_seq=1 ttl=117 time=" ++ nines 400 ++ " ms" ++ nl ++
  "64 bytes from 8.8.8.8: icmp_seq=2 ttl=117 time=11.9 ms" ++ nl ++
  "2 packets transmitted, 2 received, 0% packet loss, time 1001ms" ++ nl.

(* ===================================================================== *)
(** * Base64 round trip *)
(* ===================================================================== *)

Module Base64Facts.
Import Base64.
Local Open Scope N_scope.

#[local] Ltac Zify.zify_post_hook ::= Z.to_euclidean_division_equations.

Lemma byte_of_to_N (b : Byte.byte) : byte_of_N (Byte.to_N b) = b.
Proof.
  unfold byte_of_N.
  pose proof (Byte.to_N_bounded b) as Hb.
  rewrite N.mod_small by lia.
  now rewrite Byte.of_to_N.
Qed.

Lemma N_of_b64_char (n : N) :
  n < 64 ->
  N_of_ascii (b64_char n) =
    if n <? 26 then 65 + n
    else if n <? 52 then 71 + n
    else if n <? 62 then n - 4
    else if n =? 62 then 43 else 47.
Proof.
  intros Hn. unfold b64_char.
  destruct (N.ltb_spec n 26); [apply N_ascii_embedding; lia|].
  destruct (N.ltb_spec n 52); [apply N_ascii_embedding; lia|].
  destruct (N.ltb_spec n 62); [apply N_ascii_embedding; lia|].
  destruct (N.eqb_spec n 62); reflexivity.
Qed.

Lemma b64_index_char (n : N) : n < 64 -> b64_index (b64_char n) = Some n.
Proof.
  intros Hn. unfold b64_index. rewrite (N_of_b64_char n Hn).
  destruct (N.ltb_spec n 26).
  { replace ((65 <=? 65 + n) && (65 + n <=? 90))%bool with true.
    - f_equal; lia.
    - symmetry; apply andb_true_intro; split; apply N.leb_le; lia. }
  destruct (N.ltb_spec n 52).
  { replace ((65 <=? 71 + n) && (71 + n <=? 90))%bool with false.
    2:{ symmetry; apply andb_false_iff; right; apply N.leb_gt; lia. }
    replace ((97 <=? 71 + n) && (71 + n <=? 122))%bool with true.
    - f_equal; lia.
    - symmetry; apply andb_true_intro; split; apply N.leb_le; lia. }
  destruct (N.ltb_spec n 62).
  { replace ((65 <=? n - 4) && (n - 4 <=? 90))%bool with false.
    2:{ symmetry; apply andb_false_iff; left; apply N.leb_gt; lia. }
    replace ((97 <=? n - 4) && (n - 4 <=? 122))%bool with false.
    2:{ symmetry; apply andb_false_iff; left; apply N.leb_gt; lia. }
    replace ((48 <=? n - 4) && (n - 4 <=? 57))%bool with true.
    - f_equal; lia.
    - symmetry; apply andb_true_intro; split; apply N.leb_le; lia. }
  destruct (N.eqb_spec n 62) as [->|Hne]; [reflexivity|].
  assert (n = 63) as -> by lia. reflexivity.
Qed.

Lemma b64_char_not_pad (n : N) : n < 64 -> Ascii.eqb (b64_char n) BASE64_PAD = false.
Proof.
  intros Hn. apply Ascii.eqb_neq. intros Heq.
  apply (f_equal N_of_ascii) in Heq. rewrite (N_of_b64_char n Hn) in Heq.
  change (N_of_ascii BASE64_PAD) with 61 in Heq.
  destruct (N.ltb_spec n 26); [lia|].
  destruct (N.ltb_spec n 52); [lia|].
  destruct (N.ltb_spec n 62); [lia|].
  destruct (N.eqb_spec n 62); lia.
Qed.

Lemma b64_char_7bit (n : N) : n < 64 -> (N_of_ascii (b64_char n) <? 128) = true.
Proof.
  intros Hn. rewrite (N_of_b64_char n Hn). apply N.ltb_lt.
  destruct (N.ltb_spec n 26); [lia|].
  destruct (N.ltb_spec n 52); [lia|].
  destruct (N.ltb_spec n 62); [lia|].
  destruct (N.eqb_spec n 62); lia.
Qed.

(** One alphabet character seen by the decoder in each of the four
    positions of a quad. *)
Lemma a2b_step0 (v : N) (rest : string) (lc pads : N) :
  v < 64 ->
  a2b_base64 (String (b64_char v) rest) 0 lc pads = a2b_base64 rest 1 v 0.
Proof.
  intros Hv. cbn [a2b_base64].
  rewrite (b64_char_not_pad v Hv), (b64_index_char v Hv). reflexivity.
Qed.

Lemma a2b_step1 (v : N) (rest : string) (lc pads : N) :
  v < 64 ->
  a2b_base64 (String (b64_char v) rest) 1 lc pads =
    push (byte_of_N (lc * 4 + v / 16)) (a2b_base64 rest 2 (v mod 16) 0).
Proof.
  intros Hv. cbn [a2b_base64].
  rewrite (b64_char_not_pad v Hv), (b64_index_char v Hv). reflexivity.
Qed.

Lemma a2b_step2 (v : N) (rest : string) (lc pads : N) :
  v < 64 ->
  a2b_base64 (String (b64_char v) rest) 2 lc pads =
    push (byte_of_N (lc * 16 + v / 4)) (a2b_base64 rest 3 (v mod 4) 0).
Proof.
  intros Hv. cbn [a2b_base64].
  rewrite (b64_char_not_pad v Hv), (b64_index_char v Hv). reflexivity.
Qed.

Lemma a2b_step3 (v : N) (rest : string) (lc pads : N) :
  v < 64 ->
  a2b_base64 (String (b64_char v) rest) 3 lc pads =
    push (byte_of_N (lc * 64 + v)) (a2b_base64 rest 0 0 0).
Proof.
  intros Hv. cbn [a2b_base64].
  rewrite (b64_char_not_pad v Hv), (b64_index_char v Hv). reflexivity.
Qed.

Lemma a2b_encode (n : nat) :
  forall (bs : list Byte.byte) (lc pads : N),
    (length bs < n)%nat -> a2b_base64 (b64encode bs) 0 lc pads = inr bs.
Proof.
  induction n as [|n IH]; intros bs lc pads Hlen; [exfalso; inversion Hlen|].
  destruct bs as [|b1 [|b2 [|b3 rest]]].
  - reflexivity.
  - pose proof (Byte.to_N_bounded b1) as H1.
    cbn [b64encode].
    rewrite a2b_step0 by lia. rewrite a2b_step1 by lia.
    cbn [a2b_base64]. cbn.
    replace (Byte.to_N b1 / 4 * 4 + Byte.to_N b1 mod 4 * 16 / 16)
      with (Byte.to_N b1) by lia.
    now rewrite byte_of_to_N.
  - pose proof (Byte.to_N_bounded b1) as H1.
    pose proof (Byte.to_N_bounded b2) as H2.
    cbn [b64encode].
    rewrite a2b_step0 by lia. rewrite a2b_step1 by lia.
    rewrite a2b_step2 by lia.
    cbn [a2b_base64]. cbn.
    replace (Byte.to_N b1 / 4 * 4
             + (Byte.to_N b1 mod 4 * 16 + Byte.to_N b2 / 16) / 16)
      with (Byte.to_N b1) by lia.
    replace ((Byte.to_N b1 mod 4 * 16 + Byte.to_N b2 / 16) mod 16 * 16
             + Byte.to_N b2 mod 16 * 4 / 4)
      with (Byte.to_N b2) by lia.
    now rewrite !byte_of_to_N.
  - pose proof (Byte.to_N_bounded b1) as H1.
    pose proof (Byte.to_N_bounded b2) as H2.
    pose proof (Byte.to_N_bounded b3) as H3.
    cbn [b64encode].
    rewrite a2b_step0 by lia. rewrite a2b_step1 by lia.
    rewrite a2b_step2 by lia. rewrite a2b_step3 by lia.
    rewrite (IH rest 0 0) by (cbn [length] in Hlen; lia).
    cbn [push].
    replace (Byte.to_N b1 / 4 * 4
             + (Byte.to_N b1 mod 4 * 16 + Byte.to_N b2 / 16) / 16)
      with (Byte.to_N b1) by lia.
    replace ((Byte.to_N b1 mod 4 * 16 + Byte.to_N b2 / 16) mod 16 * 16
             + (Byte.to_N b2 mod 16 * 4 + Byte.to_N b3 / 64) / 4)
      with (Byte.to_N b2) by lia.
    replace ((Byte.to_N b2 mod 16 * 4 + Byte.to_N b3 / 64) mod 4 * 64
             + Byte.to_N b3 mod 64)
      with (Byte.to_N b3) by lia.
    now rewrite !byte_of_to_N.
Qed.

Lemma b64encode_is_ascii (n : nat) :
  forall bs : list Byte.byte, (length bs < n)%nat -> is_ascii (b64encode bs) = true.
Proof.
  induction n as [|n IH]; intros bs Hlen; [exfalso; inversion Hlen|].
  destruct bs as [|b1 [|b2 [|b3 rest]]].
  - reflexivity.
  - pose proof (Byte.to_N_bounded b1) as H1.
    cbn [b64encode is_ascii].
    rewrite !b64_char_7bit by lia. reflexivity.
  - pose proof (Byte.to_N_bounded b1) as H1.
    pose proof (Byte.to_N_bounded b2) as H2.
    cbn [b64encode is_ascii].
    rewrite !b64_char_7bit by lia. reflexivity.
  - pose proof (Byte.to_N_bounded b1) as H1.
    pose proof (Byte.to_N_bounded b2) as H2.
    pose proof (Byte.to_N_bounded b3) as H3.
    cbn [b64encode is_ascii].
    rewrite !b64_char_7bit by lia.
    rewrite (IH rest) by (cbn [length] in Hlen; lia). reflexivity.
Qed.

(** Decoding an encoded byte string gives the byte string back. *)
Lemma b64decode_b64encode (bs : list Byte.byte) :
  b64decode (b64encode bs) = inr bs.
Proof.
  unfold b64decode.
  rewrite (b64encode_is_ascii (S (length bs))) by lia.
  apply (a2b_encode (S (length bs))). lia.
Qed.

End Base64Facts.

(* ===================================================================== *)
(** * Facts about the monad and the oracle *)
(* ===================================================================== *)

Local Open Scope list_scope.

Lemma to_outcome_not_replaced (c : call) (a : answer c) :
  to_outcome c a <> Replaced.
Proof.
  destruct c; unfold to_outcome; cbn in *;
    solve [discriminate | destruct a; discriminate].
Qed.

Lemma world_eta (w : world) :
  mkWorld (shell_sessions w) (shell_connected w) (command_polling_running w)
          (emitted w) (trace w) = w.
Proof. destruct w; reflexivity. Qed.

Lemma new_calls_app (w w' : world) (calls : list call) :
  trace w' = trace w ++ calls -> new_calls w w' = calls.
Proof. unfold new_calls. intros ->. apply drop_app_length. Qed.

Lemma new_events_app (w w' : world) (evs : list event) :
  emitted w' = emitted w ++ evs -> new_events w w' = evs.
Proof. unfold new_events. intros ->. apply drop_app_length. Qed.

(** Consult the oracle for the next call in the goal: use a hypothesis
    about that very call when there is one, split on the answer
    otherwise. *)
Ltac ask :=
  match goal with
  | H : to_outcome ?c (?env ?tr ?c) = _
    |- context [to_outcome ?c (?env ?tr ?c)] => rewrite H
  | |- context [to_outcome ?c (?env ?tr ?c)] =>
      let v := fresh "v" in
      let Hv := fresh "Hv" in
      assert (exists v, to_outcome c (env tr c) = Ret v) as [v Hv]
        by (unfold never_raises, returns in *; eauto);
      rewrite Hv
  | |- context [to_outcome ?c (?env ?tr ?c)] =>
      let E := fresh "E" in
      destruct (to_outcome c (env tr c)) eqn:E;
      [ | | exfalso; exact (to_outcome_not_replaced _ _ E)]
  end.

Ltac split_pair :=
  match goal with
  | |- context [let (_, _) := ?x in _] => is_var x; destruct x
  end.

(** Setting the window size never raises and touches nothing but the
    call log. *)
Lemma set_pty_size_spec (env : os_env) (fd rows cols : Z) (w : world) :
  exists calls,
    _set_pty_size env fd rows cols w =
      (Ret tt,
       mkWorld (shell_sessions w) (shell_connected w)
               (command_polling_running w) (emitted w) (trace w ++ calls)).
Proof.
  unfold _set_pty_size, try_except, bind, lift, perform, ret, raise, log_call.
  destruct (struct_pack_HHHH rows cols 0 0) as [e|[[[r c] x] y]].
  - exists []. now rewrite app_nil_r, world_eta.
  - cbn. ask; [destruct a|]; eauto.
Qed.

Ltac unfold_agent :=
  unfold _open_shell_session, _handle_shell_input, _resize_shell,
    _close_shell_session, os_execvpe, sio_emit,
    get_session, store_session, pop_session,
    try_except, bind, lift, perform, gets, modify, ret, raise,
    returns, raises in *.

Ltac resize_step :=
  match goal with
  | |- context [_set_pty_size ?env ?fd ?r ?c ?w] =>
      let calls := fresh "calls" in
      destruct (set_pty_size_spec env fd r c w) as [calls ->]
  end.

Ltac run_agent := repeat (cbn; try first [split_pair | resize_step | ask]).

(* ===================================================================== *)
(** * Closing a session *)
(* ===================================================================== *)

(** Closing a registered session starts with the descriptor and the
    process of its entry. *)
Lemma close_spec_calls (env : os_env) (sid : string) (s : session) (w : world) :
  shell_sessions w !! sid = Some s ->
  exists rest,
    _close_shell_session env sid w =
      (Ret tt,
       mkWorld (delete sid (shell_sessions w)) (shell_connected w)
               (command_polling_running w) (emitted w)
               (trace w ++ OsClose (fd s) :: OsKill (pid s) SIGTERM :: rest)).
Proof.
  intros Hs. unfold_agent. rewrite Hs. unfold set_sessions, log_call.
  run_agent; rewrite <- ?app_assoc; cbn; eauto.
Qed.

(** An answer that raises contradicts a call that never raises. *)
Ltac never_raised :=
  match goal with
  | H : never_raises ?env ?c, E : to_outcome ?c (?env ?tr ?c) = Raise _ |- _ =>
      let v := fresh "v" in
      let Hv := fresh "Hv" in
      destruct (H tr) as [v Hv]; unfold returns in Hv;
      rewrite Hv in E; discriminate
  end.

Section CloseFacts.

Variable env : os_env.

(** Closing never raises, removes the entry and leaves the rest of the
    state alone; what it adds to the call log depends on the outside. *)
Lemma close_spec (sid : string) (w : world) :
  exists calls,
    _close_shell_session env sid w =
      (Ret tt,
       mkWorld (delete sid (shell_sessions w)) (shell_connected w)
               (command_polling_running w) (emitted w) (trace w ++ calls)).
Proof.
  unfold_agent.
  destruct (shell_sessions w !! sid) as [s|] eqn:Hs.
  - unfold set_sessions, log_call. run_agent; rewrite <- ?app_assoc; eauto.
  - exists []. rewrite app_nil_r, delete_id by done. now rewrite world_eta.
Qed.

Lemma close_absent (sid : string) (w : world) :
  shell_sessions w !! sid = None ->
  _close_shell_session env sid w = (Ret tt, w).
Proof. intros Hs. unfold_agent. now rewrite Hs. Qed.

Lemma for_each_close_spec (ks : list string) :
  forall w : world,
  exists calls,
    for_each ks (_close_shell_session env) w =
      (Ret tt,
       mkWorld (foldl (fun m k => delete k m) (shell_sessions w) ks)
               (shell_connected w) (command_polling_running w)
               (emitted w) (trace w ++ calls)).
Proof.
  induction ks as [|k ks IH]; intros w.
  - exists []. cbn. now rewrite app_nil_r, world_eta.
  - cbn [for_each foldl]. unfold bind at 1.
    destruct (close_spec k w) as [calls1 ->].
    destruct (IH (mkWorld (delete k (shell_sessions w)) (shell_connected w)
                    (command_polling_running w) (emitted w)
                    (trace w ++ calls1))) as [calls2 ->].
    exists (calls1 ++ calls2). cbn. now rewrite app_assoc.
Qed.

Lemma lookup_foldl_delete (ks : list string) :
  forall (m : gmap string session) (k : string),
    foldl (fun m k => delete k m) m ks !! k =
      if decide (k ∈ ks) then None else m !! k.
Proof.
  induction ks as [|k0 ks IH]; intros m k; cbn [foldl].
  - case_decide as Hin; [by apply elem_of_nil in Hin | done].
  - rewrite IH.
    destruct (decide (k ∈ ks)) as [Hin|Hnin].
    + rewrite decide_True by (by right). done.
    + destruct (decide (k = k0)) as [->|Hne].
      * rewrite decide_True by (by left). apply lookup_delete_eq.
      * rewrite decide_False.
        -- by apply lookup_delete_ne.
        -- intros [?|?]%elem_of_cons; done.
Qed.

(** C5: for a session id that is not in the registry, the input, resize
    and close operations return normally, make no call to the outside and
    leave the whole state, the registry included, as it was. *)
Theorem unknown_session_noop
    (sid input_data : string) (rows cols : Z) (w : world) :
  shell_sessions w !! sid = None ->
  _handle_shell_input env sid input_data w = (Ret tt, w) /\
  _resize_shell env sid rows cols w = (Ret tt, w) /\
  _close_shell_session env sid w = (Ret tt, w).
Proof.
  intros Hs. repeat split; unfold_agent; now rewrite Hs.
Qed.

(** C6: closing is idempotent.  The first close returns normally and
    leaves no entry for the id; a second close of the same id, whatever
    the outside does, returns normally and changes nothing: no call is
    made, so no teardown is performed. *)
Theorem close_idempotent (env' : os_env) (sid : string) (w : world) :
  let first := _close_shell_session env sid w in
  first.1 = Ret tt /\
  shell_sessions first.2 !! sid = None /\
  _close_shell_session env' sid first.2 = (Ret tt, first.2).
Proof.
  cbn zeta. destruct (close_spec sid w) as [calls ->]. cbn [fst snd].
  assert (Hgone : delete sid (shell_sessions w) !! sid = None)
    by apply lookup_delete_eq.
  repeat split; [exact Hgone|].
  unfold _close_shell_session, bind, pop_session. cbn [shell_sessions].
  now rewrite Hgone.
Qed.

(** The teardown of one registered session: the descriptor is closed
    and the process signalled; when SIGTERM and the wait return, the
    process is killed and reaped as well; no other call is made. *)
Lemma close_spec_teardown (sid : string) (s : session) (w : world) :
  shell_sessions w !! sid = Some s ->
  exists calls,
    _close_shell_session env sid w =
      (Ret tt,
       mkWorld (delete sid (shell_sessions w)) (shell_connected w)
               (command_polling_running w) (emitted w) (trace w ++ calls)) /\
    In (OsClose (fd s)) calls /\
    In (OsKill (pid s) SIGTERM) calls /\
    (never_raises env (OsKill (pid s) SIGTERM) ->
     never_raises env (TimeSleep (1 # 10)) ->
     In (OsKill (pid s) SIGKILL) calls /\
     In (OsWaitpid (pid s) WNOHANG) calls) /\
    (forall c, In c calls ->
       In c [OsClose (fd s); OsKill (pid s) SIGTERM; TimeSleep (1 # 10);
             OsKill (pid s) SIGKILL; OsWaitpid (pid s) WNOHANG]).
Proof.
  intros Hs. unfold_agent. rewrite Hs. unfold set_sessions, log_call.
  run_agent; rewrite <- ?app_assoc; cbn [app];
    (eexists; split; [reflexivity|]);
    (split; [cbn; tauto|]); (split; [cbn; tauto|]);
    (split; [intros Hterm Hsleep; try never_raised; cbn; tauto
            |intros c Hc; cbn in Hc |- *; tauto]).
Qed.

Lemma for_each_close_teardown (ks : list string) :
  NoDup ks ->
  forall w : world,
  exists calls,
    for_each ks (_close_shell_session env) w =
      (Ret tt,
       mkWorld (foldl (fun m k => delete k m) (shell_sessions w) ks)
               (shell_connected w) (command_polling_running w)
               (emitted w) (trace w ++ calls)) /\
    (forall k s,
       k ∈ ks -> shell_sessions w !! k = Some s ->
       In (OsClose (fd s)) calls /\
       In (OsKill (pid s) SIGTERM) calls /\
       (never_raises env (OsKill (pid s) SIGTERM) ->
        never_raises env (TimeSleep (1 # 10)) ->
        In (OsKill (pid s) SIGKILL) calls /\
        In (OsWaitpid (pid s) WNOHANG) calls)) /\
    (forall c, In c calls ->
       exists k s, shell_sessions w !! k = Some s /\
         In c [OsClose (fd s); OsKill (pid s) SIGTERM; TimeSleep (1 # 10);
               OsKill (pid s) SIGKILL; OsWaitpid (pid s) WNOHANG]).
Proof.
  induction 1 as [|k0 ks Hnotin Hnodup IH]; intros w.
  - exists []. cbn. rewrite app_nil_r, world_eta.
    split; [reflexivity|]. split.
    + intros k s Hin; by apply elem_of_nil in Hin.
    + intros c [].
  - cbn [for_each foldl]. unfold bind at 1.
    destruct (shell_sessions w !! k0) as [s0|] eqn:Hk0.
    + destruct (close_spec_teardown k0 s0 w Hk0)
        as (calls1 & -> & Hclose & Hterm & Hforce & Honly).
      set (w1 := mkWorld (delete k0 (shell_sessions w)) (shell_connected w)
                   (command_polling_running w) (emitted w) (trace w ++ calls1)).
      destruct (IH w1) as (calls2 & -> & Heach & Honly2).
      exists (calls1 ++ calls2). cbn. rewrite app_assoc.
      split; [reflexivity|]. split.
      * intros k s [->|Hk]%elem_of_cons Hs.
        -- rewrite Hk0 in Hs. injection Hs as <-.
           split; [apply in_or_app; now left|].
           split; [apply in_or_app; now left|].
           intros H1 H2. destruct (Hforce H1 H2).
           split; apply in_or_app; now left.
        -- assert (Hne : k0 <> k) by (intros ->; contradiction).
           assert (Hs1 : shell_sessions w1 !! k = Some s)
             by (cbn; now rewrite lookup_delete_ne).
           destruct (Heach k s Hk Hs1) as (H1 & H2 & H3).
           split; [apply in_or_app; now right|].
           split; [apply in_or_app; now right|].
           intros Ha Hb. destruct (H3 Ha Hb).
           split; apply in_or_app; now right.
      * intros c [Hc|Hc]%in_app_or.
        -- exists k0, s0. split; [exact Hk0|now apply Honly].
        -- destruct (Honly2 c Hc) as (k & s & Hs & Hin).
           exists k, s. split; [|exact Hin].
           cbn in Hs. apply lookup_delete_Some in Hs. tauto.
    + rewrite (close_absent k0 w Hk0).
      destruct (IH w) as (calls2 & -> & Heach & Honly2).
      exists calls2. rewrite delete_id by exact Hk0.
      split; [reflexivity|]. split; [|exact Honly2].
      intros k s [->|Hk]%elem_of_cons Hs; [congruence|].
      exact (Heach k s Hk Hs).
Qed.

(** C7: the disconnect handler force-closes every open session.  From any
    state of the registry it returns normally with the connection flag
    cleared and a registry that holds no session; for every session that
    was registered, the descriptor of its entry has been closed and its
    process sent SIGTERM, and, when the signal and the 0.1 s wait return,
    the process has been sent SIGKILL and waited for; every call made is
    one of these teardown calls of a registered session, and no event is
    emitted. *)
Theorem disconnect_closes_all (w : world) :
  let r := disconnect env w in
  r.1 = Ret tt /\
  shell_sessions r.2 = ∅ /\
  shell_connected r.2 = false /\
  emitted r.2 = emitted w /\
  (forall sid s,
     shell_sessions w !! sid = Some s ->
     In (OsClose (fd s)) (new_calls w r.2) /\
     In (OsKill (pid s) SIGTERM) (new_calls w r.2) /\
     (never_raises env (OsKill (pid s) SIGTERM) ->
      never_raises env (TimeSleep (1 # 10)) ->
      In (OsKill (pid s) SIGKILL) (new_calls w r.2) /\
      In (OsWaitpid (pid s) WNOHANG) (new_calls w r.2))) /\
  (forall c,
     In c (new_calls w r.2) ->
     exists sid s,
       shell_sessions w !! sid = Some s /\
       In c [OsClose (fd s); OsKill (pid s) SIGTERM; TimeSleep (1 # 10);
             OsKill (pid s) SIGKILL; OsWaitpid (pid s) WNOHANG]).
Proof.
  cbn zeta. unfold disconnect, bind, modify, gets.
  destruct (for_each_close_teardown
              (map_to_list (shell_sessions (set_connected false w))).*1
              (NoDup_fst_map_to_list _) (set_connected false w))
    as (calls & -> & Heach & Honly).
  cbn [fst snd shell_sessions shell_connected emitted set_connected] in *.
  match goal with
  | |- context [new_calls w ?w'] =>
      rewrite (new_calls_app w w' calls) by reflexivity
  end.
  split; [reflexivity|]. split; [|split; [reflexivity|split; [reflexivity|split]]].
  - apply map_empty. intros k. rewrite lookup_foldl_delete.
    case_decide as Hin; [done|].
    destruct (shell_sessions w !! k) as [s|] eqn:Hk; [|done].
    exfalso. apply Hin. apply list_elem_of_fmap. exists (k, s). split; [done|].
    by apply elem_of_map_to_list.
  - intros sid s Hs. apply (Heach sid s); [|exact Hs].
    apply list_elem_of_fmap. exists (sid, s). split; [done|].
    by apply elem_of_map_to_list.
  - exact Honly.
Qed.

(** C8 (amended): teardown of a registered session returns normally and
    removes the entry.  It closes the descriptor and sends SIGTERM; when
    SIGTERM is delivered and the 0.1 s wait returns, it goes on to send
    SIGKILL, without looking whether the child is still alive, and to
    issue one non-blocking [waitpid], in this order and whatever these
    three calls answer; when SIGTERM fails, the wait, the kill and the
    reap are skipped. *)
Theorem close_teardown (sid : string) (s : session) (w : world) :
  shell_sessions w !! sid = Some s ->
  let r := _close_shell_session env sid w in
  let tr1 := trace w ++ [OsClose (fd s)] in
  r.1 = Ret tt /\
  shell_sessions r.2 = delete sid (shell_sessions w) /\
  (returns env tr1 (OsKill (pid s) SIGTERM) tt ->
   returns env (tr1 ++ [OsKill (pid s) SIGTERM]) (TimeSleep (1 # 10)) tt ->
   new_calls w r.2 =
     [OsClose (fd s); OsKill (pid s) SIGTERM; TimeSleep (1 # 10);
      OsKill (pid s) SIGKILL; OsWaitpid (pid s) WNOHANG]) /\
  (forall e, raises env tr1 (OsKill (pid s) SIGTERM) e ->
   new_calls w r.2 = [OsClose (fd s); OsKill (pid s) SIGTERM]).
Proof.
  intros Hs. cbn zeta.
  destruct (close_spec sid w) as [calls Hc]. rewrite Hc. cbn [fst snd].
  repeat split.
  - intros Hterm Hsleep. apply new_calls_app. revert Hc.
    unfold_agent. rewrite Hs. unfold set_sessions, log_call.
    run_agent; intros [= Hc]; rewrite <- ?app_assoc in Hc;
      apply app_inv_head in Hc; subst calls; reflexivity.
  - intros e Hterm. apply new_calls_app. revert Hc.
    unfold_agent. rewrite Hs. unfold set_sessions, log_call.
    run_agent; intros [= Hc]; rewrite <- ?app_assoc in Hc;
      apply app_inv_head in Hc; subst calls; reflexivity.
Qed.

End CloseFacts.

Lemma unknown_session_noop_witness :
  shell_sessions w_one !! "s2" = None /\
  _handle_shell_input env_ok "s2" "aGkK" w_one = (Ret tt, w_one) /\
  _resize_shell env_ok "s2" 40 120 w_one = (Ret tt, w_one) /\
  _close_shell_session env_ok "s2" w_one = (Ret tt, w_one).
Proof.
  split; [vm_compute; reflexivity|].
  apply (unknown_session_noop env_ok "s2" "aGkK" 40 120 w_one).
  vm_compute; reflexivity.
Defined.

Lemma disconnect_closes_all_witness :
  shell_sessions (disconnect env_ok w_one).2 = ∅ /\
  In (OsClose 5) (new_calls w_one (disconnect env_ok w_one).2) /\
  In (OsKill 100 SIGTERM) (new_calls w_one (disconnect env_ok w_one).2) /\
  In (OsKill 100 SIGKILL) (new_calls w_one (disconnect env_ok w_one).2) /\
  In (OsWaitpid 100 WNOHANG) (new_calls w_one (disconnect env_ok w_one).2).
Proof.
  destruct (disconnect_closes_all env_ok w_one)
    as (_ & Hempty & _ & _ & Heach & _).
  destruct (Heach "s1" (mkSession 5 100 24 80))
    as (Hclose & Hterm & Hforce); [vm_compute; reflexivity|].
  destruct Hforce as [Hkill Hreap].
  - intros tr. exists tt. reflexivity.
  - intros tr. exists tt. reflexivity.
  - repeat split; assumption.
Defined.

Lemma close_teardown_witness :
  new_calls w_one (_close_shell_session env_ok "s1" w_one).2 =
    [OsClose 5; OsKill 100 SIGTERM; TimeSleep (1 # 10);
     OsKill 100 SIGKILL; OsWaitpid 100 WNOHANG].
Proof.
  assert (Hs : shell_sessions w_one !! "s1" = Some (mkSession 5 100 24 80))
    by (vm_compute; reflexivity).
  destruct (close_teardown env_ok "s1" (mkSession 5 100 24 80) w_one Hs)
    as (_ & _ & Hall & _).
  apply Hall; reflexivity.
Defined.

(** C8 as stated fails.  (1) When the child is already gone (it exited
    and the reader reaped it before calling close), SIGTERM raises and
    teardown stops after two calls: no wait, no reap, whichever way the
    "still alive" test of the specification would have gone.  (2) When
    the child exits on SIGTERM, SIGKILL is sent all the same: the calls
    are not those the specification gives for a child that is no longer
    alive.  (3) When the child has not terminated yet at the non-blocking
    [waitpid], teardown ends without having reaped it. *)
Lemma teardown_order_counterexample :
  shell_sessions w_one !! "s1" = Some (mkSession 5 100 24 80) /\
  (new_calls w_one (_close_shell_session env_child_gone "s1" w_one).2 =
     [OsClose 5; OsKill 100 SIGTERM] /\
   forall still_alive,
     new_calls w_one (_close_shell_session env_child_gone "s1" w_one).2 <>
       teardown_as_specified (mkSession 5 100 24 80) still_alive) /\
  (In (OsKill 100 SIGKILL)
      (new_calls w_one (_close_shell_session env_term_suffices "s1" w_one).2) /\
   new_calls w_one (_close_shell_session env_term_suffices "s1" w_one).2 <>
     teardown_as_specified (mkSession 5 100 24 80) false) /\
  reaped env_still_running (trace w_one)
    (new_calls w_one (_close_shell_session env_still_running "s1" w_one).2) 100
  = false.
Proof.
  split; [vm_compute; reflexivity|].
  split; [split; [vm_compute; reflexivity|intros [|]; vm_compute; discriminate]|].
  split; [split; [vm_compute; tauto|vm_compute; discriminate]|].
  vm_compute. reflexivity.
Qed.

(* ===================================================================== *)
(** * Opening a session *)
(* ===================================================================== *)

Section OpenFacts.

Variable cfg : config.
Variable env : os_env.

(** C1 (amended): the registry holds at most one entry per session id.
    Opening does not look whether the id is already registered: once
    [pty.fork] and the non-blocking set-up of the descriptor have
    succeeded, the entry of the id is the pair just created, and the
    entries of the other ids are unchanged; when [pty.fork] fails the
    registry is unchanged. *)
Theorem open_registry (sid : string) (rows cols : Z) (w : world) :
  let r := _open_shell_session cfg env sid rows cols w in
  (forall e, raises env (trace w) PtyFork e ->
     shell_sessions r.2 = shell_sessions w) /\
  (forall pid fd,
     pid <> 0 ->
     returns env (trace w) PtyFork (pid, fd) ->
     never_raises env (FcntlGetfl fd) ->
     (forall flags, never_raises env (FcntlSetfl fd flags)) ->
     shell_sessions r.2 = <[sid := mkSession fd pid rows cols]> (shell_sessions w) /\
     shell_sessions r.2 !! sid = Some (mkSession fd pid rows cols) /\
     forall sid', sid' <> sid ->
       shell_sessions r.2 !! sid' = shell_sessions w !! sid').
Proof.
  cbn zeta. split.
  - intros e Hfork. unfold_agent. unfold log_call, log_event. run_agent; reflexivity.
  - intros pid fd Hpid Hfork Hget Hset.
    assert (Hreg : shell_sessions (_open_shell_session cfg env sid rows cols w).2
                   = <[sid := mkSession fd pid rows cols]> (shell_sessions w)).
    { unfold_agent. rewrite Hfork. cbn.
      destruct (Z.eqb_spec pid 0) as [|_]; [contradiction|].
      unfold log_call, log_event, set_sessions.
      run_agent; reflexivity. }
    rewrite Hreg. split; [reflexivity|]. split.
    + apply lookup_insert_eq.
    + intros sid' Hne. by apply lookup_insert_ne.
Qed.

(** C2 (amended): provided the event channel accepts emissions, opening
    a session emits exactly one [shell_client_exit] with code -1 and no
    [shell_ready] when [pty.fork] fails or the descriptor cannot be read
    for its flags; it emits exactly one [shell_ready] and no
    [shell_client_exit] when the fork, the descriptor set-up and the start
    of the reader all succeed; and in the agent process (fork does not
    answer pid 0) it never emits neither. *)
Theorem open_emission (sid : string) (rows cols : Z) (w : world) :
  (forall ev, never_raises env (SioEmit ev)) ->
  let r := _open_shell_session cfg env sid rows cols w in
  (forall e, raises env (trace w) PtyFork e ->
     new_events w r.2 = [shell_client_exit sid (-1)]) /\
  (forall pid fd e,
     pid <> 0 ->
     returns env (trace w) PtyFork (pid, fd) ->
     raises env (trace w ++ [PtyFork]) (FcntlGetfl fd) e ->
     new_events w r.2 = [shell_client_exit sid (-1)]) /\
  (forall pid fd,
     pid <> 0 ->
     returns env (trace w) PtyFork (pid, fd) ->
     never_raises env (FcntlGetfl fd) ->
     (forall flags, never_raises env (FcntlSetfl fd flags)) ->
     never_raises env (ThreadStart sid) ->
     new_events w r.2 = [shell_ready sid (client_id cfg)]) /\
  ((forall fd, ~ returns env (trace w) PtyFork (0, fd)) ->
   new_events w r.2 <> []).
Proof.
  intros Hemit. cbn zeta. repeat split.
  - intros e Hfork. apply new_events_app.
    unfold_agent. unfold log_call, log_event. run_agent; reflexivity.
  - intros pid fd e Hpid Hfork Hget. apply new_events_app.
    unfold_agent. rewrite Hfork. cbn.
    destruct (Z.eqb_spec pid 0) as [|_]; [contradiction|].
    unfold log_call, log_event. run_agent; reflexivity.
  - intros pid fd Hpid Hfork Hget Hset Hthread. apply new_events_app.
    unfold_agent. rewrite Hfork. cbn.
    destruct (Z.eqb_spec pid 0) as [|_]; [contradiction|].
    unfold log_call, log_event, set_sessions. run_agent; reflexivity.
  - intros Hparent.
    assert (Hnew : exists ev evs,
               emitted (_open_shell_session cfg env sid rows cols w).2
               = emitted w ++ ev :: evs).
    { unfold_agent. unfold log_call, log_event.
      destruct (to_outcome PtyFork (env (trace w) PtyFork)) as [[pid fd]|e|] eqn:Hfork;
        [ | | exfalso; exact (to_outcome_not_replaced _ _ Hfork)].
      - destruct (Z.eqb_spec pid 0) as [->|_]; [destruct (Hparent fd eq_refl)|].
        unfold set_sessions.
        run_agent; rewrite <- ?app_assoc; cbn; eauto.
      - run_agent; eauto. }
    destruct Hnew as (ev & evs & Hnew).
    rewrite (new_events_app _ _ _ Hnew). discriminate.
Qed.

End OpenFacts.

Lemma open_registry_witness :
  shell_sessions (_open_shell_session cfg0 env_ok "s1" 24 80 w_one).2 !! "s1"
  = Some (mkSession 7 4321 24 80).
Proof.
  destruct (open_registry cfg0 env_ok "s1" 24 80 w_one) as [_ Hok].
  refine (proj1 (proj2 (Hok 4321 7 _ _ _ _))).
  - lia.
  - reflexivity.
  - intros tr. exists 2. reflexivity.
  - intros flags tr. exists tt. reflexivity.
Defined.

Lemma open_emission_witness :
  new_events w_idle (_open_shell_session cfg0 env_ok "s1" 24 80 w_idle).2
  = [shell_ready "s1" "edge-1"].
Proof.
  assert (Hemit : forall ev, never_raises env_ok (SioEmit ev))
    by (intros ev tr; exists tt; reflexivity).
  destruct (open_emission cfg0 env_ok "s1" 24 80 w_idle Hemit)
    as (_ & _ & Hok & _).
  apply (Hok 4321 7).
  - lia.
  - reflexivity.
  - intros tr. exists 2. reflexivity.
  - intros flags tr. exists tt. reflexivity.
  - intros tr. exists tt. reflexivity.
Defined.

(** C1 as stated fails: opening "s1" while "s1" is registered forks a
    second pair and makes the entry point at it; the pair of the first
    open (descriptor 5, process 100) is no longer in the registry. *)
Lemma open_existing_counterexample :
  shell_sessions w_one !! "s1" = Some (mkSession 5 100 24 80) /\
  shell_sessions (_open_shell_session cfg0 env_ok "s1" 24 80 w_one).2 !! "s1"
  = Some (mkSession 7 4321 24 80) /\
  ~ open_respects_existing cfg0 env_ok "s1" 24 80 w_one.
Proof.
  split; [vm_compute; reflexivity|].
  split; [vm_compute; reflexivity|].
  intros H. destruct H as [H _]; [eexists; vm_compute; reflexivity|].
  vm_compute in H. discriminate.
Qed.

(** C2 as stated fails, in both directions.  When the connection is
    down, neither event is emitted (and the exception of the second
    [emit] leaves the handler).  When the reader thread cannot be
    started, the failure comes after [shell_ready] has been sent, and the
    handler sends [shell_client_exit] as well. *)
Lemma open_events_counterexample :
  (new_events w_idle (_open_shell_session cfg0 env_channel_down "s1" 24 80 w_idle).2
   = [] /\
   ~ open_emits_exactly_one cfg0 env_channel_down "s1" 24 80 w_idle) /\
  (new_events w_idle (_open_shell_session cfg0 env_thread_limit "s1" 24 80 w_idle).2
   = [shell_ready "s1" "edge-1"; shell_client_exit "s1" (-1)] /\
   ~ open_emits_exactly_one cfg0 env_thread_limit "s1" 24 80 w_idle).
Proof.
  split; (split; [vm_compute; reflexivity|]);
    intros H; vm_compute in H; destruct H as [H|H]; discriminate.
Qed.

(* ===================================================================== *)
(** * Input to a session *)
(* ===================================================================== *)

Section InputFacts.

Variable env : os_env.

Lemma handle_input_spec (sid payload : string) (s : session)
    (data : list Byte.byte) (w : world) :
  shell_sessions w !! sid = Some s ->
  Base64.b64decode payload = inr data ->
  _handle_shell_input env sid payload w = (Ret tt, log_calls [OsWrite (fd s) data] w).
Proof.
  intros Hs Hd. unfold_agent. rewrite Hs, Hd. unfold log_call, log_calls.
  run_agent; reflexivity.
Qed.

Lemma handle_inputs_spec (sid : string) (s : session) (bss : list (list Byte.byte)) :
  forall w : world,
    shell_sessions w !! sid = Some s ->
    for_each (List.map Base64.b64encode bss) (_handle_shell_input env sid) w =
      (Ret tt, log_calls (List.map (OsWrite (fd s)) bss) w).
Proof.
  induction bss as [|bs bss IH]; intros w Hs.
  - cbn. unfold ret, log_calls. now rewrite app_nil_r, world_eta.
  - cbn [List.map for_each]. unfold bind at 1.
    rewrite (handle_input_spec sid _ s bs w Hs (Base64Facts.b64decode_b64encode bs)).
    rewrite IH by exact Hs.
    unfold log_calls. cbn. now rewrite <- app_assoc.
Qed.

Lemma accepted_write (d : Z) (data : list Byte.byte) (tr : list call) :
  accepted env tr [OsWrite d data] d =
    match env tr (OsWrite d data) with
    | inr n => take (Z.to_nat n) data
    | inl _ => []
    end.
Proof.
  cbn. rewrite Z.eqb_refl, app_nil_r. reflexivity.
Qed.

Lemma accepted_writes_full (d : Z) (bss : list (list Byte.byte)) :
  (forall tr bs, returns env tr (OsWrite d bs) (Z.of_nat (length bs))) ->
  forall tr, accepted env tr (List.map (OsWrite d) bss) d = concat bss.
Proof.
  intros Hfull. induction bss as [|bs bss IH]; intros tr; [reflexivity|].
  cbn [List.map accepted concat]. rewrite IH. f_equal.
  specialize (Hfull tr bs). unfold returns, to_outcome in Hfull.
  destruct (env tr (OsWrite d bs)) as [e|n]; [discriminate|].
  injection Hfull as ->. rewrite Z.eqb_refl, Nat2Z.id.
  now apply take_ge.
Qed.

(** C9 (amended): base64 decoding after encoding is the identity, and
    for a registered session the input handler returns normally after
    one [os.write] on the descriptor of that session, whose data are
    exactly the decoding of the payload, with nothing else done.  The
    count that [os.write] returns is ignored and its error swallowed:
    what reaches the descriptor is the front part of the decoding that
    the call took, nothing when it raised, and the rest is dropped.  A
    sequence of input events gives the writes of their byte strings in
    the order received; when every write is taken whole, the bytes that
    reach the descriptor are those byte strings one after the other. *)
Theorem shell_input_writes_decoded (sid : string) (s : session) (w : world) :
  shell_sessions w !! sid = Some s ->
  (forall bs, Base64.b64decode (Base64.b64encode bs) = inr bs) /\
  (forall payload data,
     Base64.b64decode payload = inr data ->
     let r := _handle_shell_input env sid payload w in
     let took := accepted env (trace w) (new_calls w r.2) (fd s) in
     r.1 = Ret tt /\
     new_calls w r.2 = [OsWrite (fd s) data] /\
     shell_sessions r.2 = shell_sessions w /\
     (forall n, returns env (trace w) (OsWrite (fd s) data) n ->
        took = take (Z.to_nat n) data) /\
     (forall e, raises env (trace w) (OsWrite (fd s) data) e -> took = []) /\
     (exists dropped, data = took ++ dropped)) /\
  (forall bs,
     new_calls w (_handle_shell_input env sid (Base64.b64encode bs) w).2
     = [OsWrite (fd s) bs]) /\
  (forall bss,
     let r := for_each (List.map Base64.b64encode bss)
                       (_handle_shell_input env sid) w in
     r.1 = Ret tt /\
     new_calls w r.2 = List.map (OsWrite (fd s)) bss /\
     ((forall tr bs, returns env tr (OsWrite (fd s) bs) (Z.of_nat (length bs))) ->
      accepted env (trace w) (new_calls w r.2) (fd s) = concat bss)).
Proof.
  intros Hs. split; [exact Base64Facts.b64decode_b64encode|].
  split; [|split].
  - intros payload data Hd. cbn zeta.
    rewrite (handle_input_spec sid payload s data w Hs Hd). cbn [fst snd].
    rewrite (new_calls_app w _ [OsWrite (fd s) data]) by reflexivity.
    rewrite accepted_write.
    do 3 (split; [reflexivity|]).
    unfold returns, raises, to_outcome.
    destruct (env (trace w) (OsWrite (fd s) data)) as [e|n].
    + split; [discriminate|]. split; [reflexivity|]. now exists data.
    + split; [now intros n' [= <-]|]. split; [discriminate|].
      exists (drop (Z.to_nat n) data). symmetry. apply take_drop.
  - intros bs.
    rewrite (handle_input_spec sid _ s bs w Hs (Base64Facts.b64decode_b64encode bs)).
    now apply new_calls_app.
  - intros bss. cbn zeta. rewrite (handle_inputs_spec sid s bss w Hs).
    cbn [fst snd].
    rewrite (new_calls_app w _ (List.map (OsWrite (fd s)) bss)) by reflexivity.
    split; [reflexivity|]. split; [reflexivity|].
    intros Hfull. now apply accepted_writes_full.
Qed.

End InputFacts.

Lemma shell_input_writes_decoded_witness :
  new_calls w_one (_handle_shell_input env_ok "s1" "bHMK" w_one).2
  = [OsWrite 5 [Byte.x6c; Byte.x73; Byte.x0a]] /\
  accepted env_ok (trace w_one)
    (new_calls w_one
       (for_each (List.map Base64.b64encode [[Byte.x6c; Byte.x73]; [Byte.x0a]])
          (_handle_shell_input env_ok "s1") w_one).2) 5
  = [Byte.x6c; Byte.x73; Byte.x0a].
Proof.
  assert (Hs : shell_sessions w_one !! "s1" = Some (mkSession 5 100 24 80))
    by (vm_compute; reflexivity).
  destruct (shell_input_writes_decoded env_ok "s1" (mkSession 5 100 24 80) w_one Hs)
    as (_ & _ & Henc & Hseq).
  split; [exact (Henc [Byte.x6c; Byte.x73; Byte.x0a])|].
  destruct (Hseq [[Byte.x6c; Byte.x73]; [Byte.x0a]]) as (_ & _ & Hfull).
  apply Hfull. intros tr bs. reflexivity.
Defined.

(** C9 as stated fails.  The descriptor is non-blocking, and the handler
    makes one [os.write], ignores the count it returns and swallows its
    error.  (1) When the terminal takes two of the three bytes, the
    handler returns normally after that one call: the third byte never
    reaches the descriptor.  (2) When the write would block, the handler
    returns normally all the same and no byte reaches the descriptor. *)
Lemma input_short_write_counterexample :
  shell_sessions w_one !! "s1" = Some (mkSession 5 100 24 80) /\
  Base64.b64decode "bHMK" = inr [Byte.x6c; Byte.x73; Byte.x0a] /\
  ((_handle_shell_input env_short_write "s1" "bHMK" w_one).1 = Ret tt /\
   new_calls w_one (_handle_shell_input env_short_write "s1" "bHMK" w_one).2
   = [OsWrite 5 [Byte.x6c; Byte.x73; Byte.x0a]] /\
   accepted env_short_write (trace w_one)
     (new_calls w_one (_handle_shell_input env_short_write "s1" "bHMK" w_one).2) 5
   = [Byte.x6c; Byte.x73] /\
   ~ input_reaches_descriptor env_short_write "s1" "bHMK" w_one) /\
  ((_handle_shell_input env_would_block "s1" "bHMK" w_one).1 = Ret tt /\
   accepted env_would_block (trace w_one)
     (new_calls w_one (_handle_shell_input env_would_block "s1" "bHMK" w_one).2) 5
   = [] /\
   ~ input_reaches_descriptor env_would_block "s1" "bHMK" w_one).
Proof.
  split; [vm_compute; reflexivity|].
  split; [vm_compute; reflexivity|].
  split.
  - do 3 (split; [vm_compute; reflexivity|]).
    intros H.
    specialize (H (mkSession 5 100 24 80) [Byte.x6c; Byte.x73; Byte.x0a]
                  ltac:(vm_compute; reflexivity) ltac:(vm_compute; reflexivity)).
    vm_compute in H. discriminate.
  - do 2 (split; [vm_compute; reflexivity|]).
    intros H.
    specialize (H (mkSession 5 100 24 80) [Byte.x6c; Byte.x73; Byte.x0a]
                  ltac:(vm_compute; reflexivity) ltac:(vm_compute; reflexivity)).
    vm_compute in H. discriminate.
Qed.

(* ===================================================================== *)
(** * Command dispatch *)
(* ===================================================================== *)

Lemma to_outcome_TimeTime (a : answer TimeTime) : to_outcome TimeTime a = Ret a.
Proof. reflexivity. Qed.

Lemma to_outcome_DatetimeNow (a : answer DatetimeNow) :
  to_outcome DatetimeNow a = Ret a.
Proof. reflexivity. Qed.



Lemma log_calls_nil (w : world) : log_calls [] w = w.
Proof. unfold log_calls. now rewrite app_nil_r, world_eta. Qed.

Ltac unfold_dispatch :=
  unfold execute_command, submit_command_result, poll_for_commands,
    try_except, bind, lift, perform, gets, modify, ret, raise,
    returns, raises, clock, log_call in *.

Ltac read_clock :=
  rewrite ?to_outcome_TimeTime, ?to_outcome_DatetimeNow.

Section CommandFacts.

Variable cfg : config.
Variable env : os_env.

(** What [execute_command] does on a record, in full: it always returns
    a result, after four calls; the identifiers and the time-out are read
    from the record with their defaults; the result has one of three
    shapes, by the outcome of [subprocess.run]. *)
Lemma execute_command_spec (d : list (string * pyval)) (w : world) :
  let cs := default (PStr "") (dict_lookup "command_string" d) in
  let tm := default (PInt 60) (dict_lookup "timeout" d) in
  let tr1 := trace w ++ [TimeTime] in
  let tr2 := tr1 ++ [SubprocessRun cs tm] in
  exists r,
    execute_command env (PDict d) w =
      (Ret r, log_calls [TimeTime; SubprocessRun cs tm; TimeTime; DatetimeNow] w) /\
    command_uuid r = default (PStr "") (dict_lookup "command_uuid" d) /\
    command_id r = default (PStr "") (dict_lookup "command_id" d) /\
    duration_seconds r = py_round3 (clock env tr2 - clock env (trace w)) /\
    (forall p, returns env tr1 (SubprocessRun cs tm) p ->
       exit_code r = returncode p /\ stdout r = cp_stdout p /\
       stderr r = cp_stderr p /\ error r = None) /\
    (forall e, raises env tr1 (SubprocessRun cs tm) e ->
       exn_cls e = TimeoutExpired ->
       exit_code r = -1 /\ stdout r = "" /\
       stderr r = ("Command timed out after " ++ py_str tm ++ " seconds")%string /\
       error r = Some "timeout") /\
    (forall e, raises env tr1 (SubprocessRun cs tm) e ->
       exn_cls e <> TimeoutExpired ->
       exit_code r = -1 /\ stdout r = "" /\
       stderr r = exn_str e /\ error r = Some (exn_str e)).
Proof.
  cbn zeta. unfold_dispatch. unfold log_calls. cbn. read_clock. cbn.
  ask.
  - cbn. read_clock. cbn. read_clock. cbn. rewrite <- !app_assoc.
    eexists. split; [reflexivity|]. cbn.
    repeat split; intros; try discriminate.
    all: match goal with H : Ret _ = Ret _ |- _ => injection H as <- end;
      reflexivity.
  - cbn.
    destruct (exn_cls e) eqn:Hcls; cbn; read_clock; cbn; read_clock; cbn;
      rewrite <- !app_assoc;
      (eexists; split; [reflexivity|]; cbn;
       repeat split; intros; try discriminate;
       match goal with
       | H : Raise _ = Raise _ |- _ => injection H as <-
       end; try reflexivity; congruence).
Qed.

(** C3: when [subprocess.run] raises [TimeoutExpired], [execute_command]
    returns (it does not raise) a result with exit code -1, empty stdout,
    the message "Command timed out after <timeout> seconds" as stderr,
    the elapsed time (second clock reading minus first, rounded to three
    places) as duration, and the error tag "timeout". *)
Theorem execute_command_timeout (d : list (string * pyval)) (w : world) (e : exn) :
  let cs := default (PStr "") (dict_lookup "command_string" d) in
  let tm := default (PInt 60) (dict_lookup "timeout" d) in
  exn_cls e = TimeoutExpired ->
  raises env (trace w ++ [TimeTime]) (SubprocessRun cs tm) e ->
  exists r w',
    execute_command env (PDict d) w = (Ret r, w') /\
    exit_code r = -1 /\
    stdout r = "" /\
    stderr r = ("Command timed out after " ++ py_str tm ++ " seconds")%string /\
    error r = Some "timeout" /\
    duration_seconds r =
      py_round3 (clock env (trace w ++ [TimeTime; SubprocessRun cs tm])
                 - clock env (trace w)).
Proof.
  cbn zeta. intros Hcls Hraise.
  destruct (execute_command_spec d w) as (r & Hrun & _ & _ & Hdur & _ & Hto & _).
  destruct (Hto e Hraise Hcls) as (Hc & Ho & He & Ht).
  exists r. eexists. split; [exact Hrun|].
  repeat split; try assumption.
  rewrite Hdur. now rewrite <- app_assoc.
Qed.

(** C10: for every command record and every outcome of the execution
    (completion, time-out or another exception) [execute_command] returns
    a result whose [command_uuid] and [command_id] are those of the
    record, the empty string when the record has none; the time-out
    passed to [subprocess.run] is the record's, and 60 when the record
    has no [timeout] field. *)
Theorem execute_command_correlation (d : list (string * pyval)) (w : world) :
  let cs := default (PStr "") (dict_lookup "command_string" d) in
  exists r w',
    execute_command env (PDict d) w = (Ret r, w') /\
    command_uuid r = default (PStr "") (dict_lookup "command_uuid" d) /\
    command_id r = default (PStr "") (dict_lookup "command_id" d) /\
    new_calls w w' =
      [TimeTime;
       SubprocessRun cs (default (PInt 60) (dict_lookup "timeout" d));
       TimeTime; DatetimeNow] /\
    (dict_lookup "timeout" d = None ->
     new_calls w w' = [TimeTime; SubprocessRun cs (PInt 60); TimeTime; DatetimeNow]).
Proof.
  cbn zeta.
  destruct (execute_command_spec d w) as (r & Hrun & Hu & Hi & _).
  exists r. eexists. split; [exact Hrun|].
  assert (Hcalls : new_calls w
            (log_calls [TimeTime;
                        SubprocessRun (default (PStr "") (dict_lookup "command_string" d))
                                      (default (PInt 60) (dict_lookup "timeout" d));
                        TimeTime; DatetimeNow] w)
          = [TimeTime;
             SubprocessRun (default (PStr "") (dict_lookup "command_string" d))
                           (default (PInt 60) (dict_lookup "timeout" d));
             TimeTime; DatetimeNow])
    by (now apply new_calls_app).
  repeat split; try assumption.
  intros Hnone. rewrite Hcalls, Hnone. reflexivity.
Qed.



(** Polling never raises: whatever the outside answers, the result is a
    value, and the only thing done is at most one request. *)
Lemma poll_for_commands_spec (w : world) :
  exists v calls,
    poll_for_commands cfg env w = (Ret v, log_calls calls w) /\
    count_sleeps calls = 0%nat.
Proof.
  unfold_dispatch.
  destruct (String.eqb (center_server_url cfg) "" || String.eqb (secret_key cfg) "").
  - exists PNone, []. now rewrite log_calls_nil.
  - ask.
    + destruct a as [st [e|v]]; cbn.
      * destruct (st =? 200)%Z; cbn; [destruct (exn_cls e)|];
          eexists; eexists; (split; [reflexivity|reflexivity]).
      * destruct (st =? 200)%Z; cbn;
          [|eexists; eexists; (split; [reflexivity|reflexivity])].
        destruct v as [| | | | |d]; cbn;
          try (eexists; eexists; (split; [reflexivity|reflexivity])).
        destruct (truthy (default PNone (dict_lookup "has_command" d)));
          eexists; eexists; (split; [reflexivity|reflexivity]).
    + cbn. destruct (exn_cls e);
        eexists; eexists; (split; [reflexivity|reflexivity]).
Qed.







End CommandFacts.

Lemma execute_command_timeout_witness :
  exists r w',
    execute_command env_timeout (PDict cmd_sleep) w_idle = (Ret r, w') /\
    exit_code r = -1 /\
    stdout r = "" /\
    stderr r = "Command timed out after 1 seconds" /\
    error r = Some "timeout" /\
    duration_seconds r = py_round3 (2 - 0).
Proof.
  apply (execute_command_timeout env_timeout cmd_sleep w_idle
           (mkExn TimeoutExpired "timed out")); reflexivity.
Defined.

Lemma execute_command_correlation_witness :
  exists r w',
    execute_command env_ok (PDict cmd_no_timeout) w_idle = (Ret r, w') /\
    command_uuid r = PStr "u-2" /\
    command_id r = PStr "c-2" /\
    new_calls w_idle w' =
      [TimeTime; SubprocessRun (PStr "echo hi") (PInt 60); TimeTime; DatetimeNow].
Proof.
  destruct (execute_command_correlation env_ok cmd_no_timeout w_idle)
    as (r & w' & Hrun & Hu & Hi & _ & Hdefault).
  exists r, w'. repeat split; [exact Hrun|exact Hu|exact Hi|].
  apply Hdefault. reflexivity.
Defined.


(* ===================================================================== *)
(** * Runs of the model on the scenarios *)
(* ===================================================================== *)

Example open_when_fork_fails :
  new_events w_idle (_open_shell_session cfg0 env_no_pty "s1" 24 80 w_idle).2
  = [shell_client_exit "s1" (-1)].
Proof. vm_compute. reflexivity. Qed.

Example open_calls :
  new_calls w_idle (_open_shell_session cfg0 env_ok "s1" 24 80 w_idle).2
  = [PtyFork; FcntlGetfl 7; FcntlSetfl 7 2050; IoctlTIOCSWINSZ 7 24 80 0 0;
     SioEmit (shell_ready "s1" "edge-1"); ThreadStart "s1"].
Proof. vm_compute. reflexivity. Qed.

Example poll_unauthorized :
  poll_for_commands cfg0 env_unauthorized w_idle
  = (Ret PNone, log_calls [Urlopen (poll_request cfg0)] w_idle).
Proof. vm_compute. reflexivity. Qed.

Example execute_echo :
  (execute_command env_ok (PDict cmd_no_timeout) w_idle).1
  = Ret (mkResult (PStr "u-2") (PStr "c-2") 0 "hi" "" "2024-05-01T12:00:00"
           (0 # 1000) None).
Proof. vm_compute. reflexivity. Qed.

Example disconnect_one :
  shell_sessions (disconnect env_ok w_one).2 = ∅ /\
  new_calls w_one (disconnect env_ok w_one).2
  = [OsClose 5; OsKill 100 SIGTERM; TimeSleep (1 # 10);
     OsKill 100 SIGKILL; OsWaitpid 100 WNOHANG].
Proof. split; vm_compute; reflexivity. Qed.

Example close_reaps_terminated_child :
  reaped env_ok (trace w_one)
    (new_calls w_one (_close_shell_session env_ok "s1" w_one).2) 100 = true.
Proof. vm_compute. reflexivity. Qed.

Example decode_skips_blanks :
  Base64.b64decode "bH MK" = inr [Byte.x6c; Byte.x73; Byte.x0a].
Proof. vm_compute. reflexivity. Qed.

(* ===================================================================== *)
(** * Further properties: resizing *)
(* ===================================================================== *)

Section ResizeFacts.

Variable env : os_env.

Lemma struct_pack_in_range (rows cols : Z) :
  0 <= rows <= 65535 -> 0 <= cols <= 65535 ->
  struct_pack_HHHH rows cols 0 0 = inr (rows, cols, 0, 0).
Proof.
  intros Hr Hc. unfold struct_pack_HHHH.
  replace ((0 <=? rows) && (rows <=? 65535))%Z with true
    by (symmetry; apply andb_true_intro; split; apply Z.leb_le; lia).
  replace ((0 <=? cols) && (cols <=? 65535))%Z with true
    by (symmetry; apply andb_true_intro; split; apply Z.leb_le; lia).
  reflexivity.
Qed.

Lemma struct_pack_out_of_range (rows cols : Z) :
  ~ (0 <= rows <= 65535 /\ 0 <= cols <= 65535) ->
  exists e, struct_pack_HHHH rows cols 0 0 = inl e.
Proof.
  intros Hout. unfold struct_pack_HHHH.
  destruct ((0 <=? rows) && (rows <=? 65535))%Z eqn:Hr;
    destruct ((0 <=? cols) && (cols <=? 65535))%Z eqn:Hc; cbn; eauto.
  exfalso. apply Hout.
  apply andb_prop in Hr as [Hr1 Hr2]. apply andb_prop in Hc as [Hc1 Hc2].
  apply Z.leb_le in Hr1, Hr2, Hc1, Hc2. lia.
Qed.

(** What [_set_pty_size] asks of the outside: one [TIOCSWINSZ] with the
    requested size when both dimensions fit an unsigned short, nothing
    otherwise; the answer of the [ioctl] is ignored. *)
Lemma set_pty_size_calls (fd rows cols : Z) (w : world) :
  _set_pty_size env fd rows cols w =
    (Ret tt,
     log_calls (if decide (0 <= rows <= 65535 /\ 0 <= cols <= 65535)
                then [IoctlTIOCSWINSZ fd rows cols 0 0] else []) w).
Proof.
  unfold _set_pty_size, try_except, bind, lift, perform, ret, raise.
  case_decide as Hrange.
  - destruct Hrange as [Hr Hc]. rewrite (struct_pack_in_range rows cols Hr Hc).
    cbn. unfold log_call, log_calls. ask; [destruct a|]; reflexivity.
  - destruct (struct_pack_out_of_range rows cols Hrange) as [e ->].
    cbn. now rewrite log_calls_nil.
Qed.

(** X1: resizing a registered session returns normally whatever the
    outside answers; the entry keeps its descriptor and process and takes
    the new dimensions, the other entries are unchanged, and no event is
    emitted. *)
Theorem resize_updates_entry (sid : string) (s : session) (rows cols : Z) (w : world) :
  shell_sessions w !! sid = Some s ->
  let r := _resize_shell env sid rows cols w in
  r.1 = Ret tt /\
  shell_sessions r.2 !! sid = Some (mkSession (fd s) (pid s) rows cols) /\
  (forall sid', sid' <> sid ->
     shell_sessions r.2 !! sid' = shell_sessions w !! sid') /\
  emitted r.2 = emitted w.
Proof.
  intros Hs. cbn zeta.
  unfold _resize_shell, bind, get_session, gets, store_session, modify.
  rewrite Hs. rewrite set_pty_size_calls. cbn.
  repeat split.
  - apply lookup_insert_eq.
  - intros sid' Hne. by apply lookup_insert_ne.
Qed.

(** X2: the window size is applied to the descriptor of the session, by
    one [TIOCSWINSZ] carrying the requested rows and columns, exactly
    when both fit an unsigned short (0..65535); outside that range no
    call is made at all, although the stored dimensions are updated. *)
Theorem resize_window_size_bounds (sid : string) (s : session) (rows cols : Z) (w : world) :
  shell_sessions w !! sid = Some s ->
  let r := _resize_shell env sid rows cols w in
  (0 <= rows <= 65535 /\ 0 <= cols <= 65535 ->
   new_calls w r.2 = [IoctlTIOCSWINSZ (fd s) rows cols 0 0]) /\
  (~ (0 <= rows <= 65535 /\ 0 <= cols <= 65535) ->
   new_calls w r.2 = [] /\
   shell_sessions r.2 !! sid = Some (mkSession (fd s) (pid s) rows cols)).
Proof.
  intros Hs. cbn zeta.
  unfold _resize_shell, bind, get_session, gets, store_session, modify.
  rewrite Hs. rewrite set_pty_size_calls. cbn.
  split; intros Hrange.
  - rewrite decide_True by exact Hrange. now apply new_calls_app.
  - rewrite decide_False by exact Hrange. split.
    + apply new_calls_app. cbn. now rewrite app_nil_r.
    + apply lookup_insert_eq.
Qed.

End ResizeFacts.

Lemma resize_updates_entry_witness :
  shell_sessions (_resize_shell env_ok "s1" 40 120 w_one).2 !! "s1"
  = Some (mkSession 5 100 40 120).
Proof.
  assert (Hs : shell_sessions w_one !! "s1" = Some (mkSession 5 100 24 80))
    by (vm_compute; reflexivity).
  exact (proj1 (proj2 (resize_updates_entry env_ok "s1" _ 40 120 w_one Hs))).
Defined.

Lemma resize_window_size_bounds_witness :
  new_calls w_one (_resize_shell env_ok "s1" 40 120 w_one).2
  = [IoctlTIOCSWINSZ 5 40 120 0 0] /\
  new_calls w_one (_resize_shell env_ok "s1" 70000 120 w_one).2 = [].
Proof.
  assert (Hs : shell_sessions w_one !! "s1" = Some (mkSession 5 100 24 80))
    by (vm_compute; reflexivity).
  split.
  - apply (proj1 (resize_window_size_bounds env_ok "s1" _ 40 120 w_one Hs)). lia.
  - apply (proj2 (resize_window_size_bounds env_ok "s1" _ 70000 120 w_one Hs)). lia.
Defined.

(* ===================================================================== *)
(** * Further properties: the life of a session *)
(* ===================================================================== *)

(** A successful set-up stores the new pair under the id. *)
Lemma open_success_registry (cfg : config) (env : os_env) (sid : string) (rows cols : Z) (w : world) (pid fd : Z) :
  pid <> 0 ->
  returns env (trace w) PtyFork (pid, fd) ->
  never_raises env (FcntlGetfl fd) ->
  (forall flags, never_raises env (FcntlSetfl fd flags)) ->
  shell_sessions (_open_shell_session cfg env sid rows cols w).2
  = <[sid := mkSession fd pid rows cols]> (shell_sessions w).
Proof.
  intros Hpid Hfork Hget Hset.
  unfold_agent. rewrite Hfork. cbn.
  destruct (Z.eqb_spec pid 0) as [|_]; [contradiction|].
  unfold log_call, log_event, set_sessions.
  run_agent; reflexivity.
Qed.

Section LifecycleFacts.

Variable cfg : config.
Variable env : os_env.

(** X3: closing a session leaves every other session registered as it
    was, emits no event and does not touch the connection flag, whatever
    the outside answers. *)
Theorem close_leaves_others (sid : string) (w : world) :
  let r := _close_shell_session env sid w in
  (forall sid', sid' <> sid ->
     shell_sessions r.2 !! sid' = shell_sessions w !! sid') /\
  emitted r.2 = emitted w /\
  shell_connected r.2 = shell_connected w.
Proof.
  cbn zeta. destruct (close_spec env sid w) as [calls ->]. cbn.
  repeat split. intros sid' Hne. by apply lookup_delete_ne.
Qed.

(** X4: opening a session changes at most the entry of its own id: the
    entries of all other ids are as before, on every path (success,
    failure at any step, child process). *)
Theorem open_leaves_others (sid : string) (rows cols : Z) (w : world) :
  forall sid', sid' <> sid ->
    shell_sessions (_open_shell_session cfg env sid rows cols w).2 !! sid'
    = shell_sessions w !! sid'.
Proof.
  intros sid' Hne.
  assert (H : shell_sessions (_open_shell_session cfg env sid rows cols w).2
              = shell_sessions w \/
              exists s, shell_sessions (_open_shell_session cfg env sid rows cols w).2
                        = <[sid := s]> (shell_sessions w)).
  { unfold_agent. unfold log_call, log_event, set_sessions.
    destruct (to_outcome PtyFork (env (trace w) PtyFork)) as [[pid fd]|e|] eqn:Hfork;
      [ | | exfalso; exact (to_outcome_not_replaced _ _ Hfork)].
    - destruct (Z.eqb_spec pid 0) as [->|_]; run_agent; eauto.
    - run_agent; eauto. }
  destruct H as [->|[s ->]]; [reflexivity|]. by apply lookup_insert_ne.
Qed.

(** X5: a session opened under a fresh id and then closed leaves the
    registry exactly as it was before the open, and the teardown goes to
    the descriptor and the process that the open created. *)
Theorem open_then_close_restores (env' : os_env) (sid : string) (rows cols : Z)
    (w : world) (pid fd : Z) :
  shell_sessions w !! sid = None ->
  pid <> 0 ->
  returns env (trace w) PtyFork (pid, fd) ->
  never_raises env (FcntlGetfl fd) ->
  (forall flags, never_raises env (FcntlSetfl fd flags)) ->
  let w1 := (_open_shell_session cfg env sid rows cols w).2 in
  let r := _close_shell_session env' sid w1 in
  r.1 = Ret tt /\
  shell_sessions r.2 = shell_sessions w /\
  exists rest, new_calls w1 r.2 = OsClose fd :: OsKill pid SIGTERM :: rest.
Proof.
  intros Hfresh Hpid Hfork Hget Hset. cbn zeta.
  pose proof (open_success_registry cfg env sid rows cols w pid fd Hpid Hfork Hget Hset) as Hreg.
  set (w1 := (_open_shell_session cfg env sid rows cols w).2) in *.
  assert (Hs : shell_sessions w1 !! sid = Some (mkSession fd pid rows cols))
    by (rewrite Hreg; apply lookup_insert_eq).
  unfold_agent. rewrite Hs. unfold set_sessions, log_call.
  assert (Hback : delete sid (shell_sessions w1) = shell_sessions w).
  { rewrite Hreg. rewrite delete_insert_eq. by apply delete_id. }
  run_agent; (split; [reflexivity|]); (split; [exact Hback|]);
    eexists; apply new_calls_app; cbn; rewrite <- ?app_assoc; reflexivity.
Qed.

(** X6: two sessions opened under different ids are independent: after
    opening [a] and then [b], each id is registered with the pair created
    for it; closing [a] then leaves [b] registered with its pair and [a]
    not registered. *)
Theorem sessions_independent (env_a env_b env_c : os_env) (a b : string)
    (rows_a cols_a rows_b cols_b : Z) (w : world) (pid_a fd_a pid_b fd_b : Z) :
  a <> b ->
  pid_a <> 0 -> pid_b <> 0 ->
  let w1 := (_open_shell_session cfg env_a a rows_a cols_a w).2 in
  returns env_a (trace w) PtyFork (pid_a, fd_a) ->
  never_raises env_a (FcntlGetfl fd_a) ->
  (forall flags, never_raises env_a (FcntlSetfl fd_a flags)) ->
  let w2 := (_open_shell_session cfg env_b b rows_b cols_b w1).2 in
  returns env_b (trace w1) PtyFork (pid_b, fd_b) ->
  never_raises env_b (FcntlGetfl fd_b) ->
  (forall flags, never_raises env_b (FcntlSetfl fd_b flags)) ->
  let w3 := (_close_shell_session env_c a w2).2 in
  (shell_sessions w2 !! a = Some (mkSession fd_a pid_a rows_a cols_a) /\
   shell_sessions w2 !! b = Some (mkSession fd_b pid_b rows_b cols_b)) /\
  (shell_sessions w3 !! b = Some (mkSession fd_b pid_b rows_b cols_b) /\
   shell_sessions w3 !! a = None).
Proof.
  intros Hab Hpa Hpb w1 Hfa Hga Hsa w2 Hfb Hgb Hsb w3.
  assert (H2 : shell_sessions w2
               = <[b := mkSession fd_b pid_b rows_b cols_b]>
                   (<[a := mkSession fd_a pid_a rows_a cols_a]> (shell_sessions w))).
  { subst w2.
    rewrite (open_success_registry cfg env_b b rows_b cols_b w1 pid_b fd_b Hpb Hfb Hgb Hsb).
    subst w1.
    now rewrite (open_success_registry cfg env_a a rows_a cols_a w pid_a fd_a Hpa Hfa Hga Hsa). }
  assert (Hb : shell_sessions w2 !! b = Some (mkSession fd_b pid_b rows_b cols_b))
    by (rewrite H2; apply lookup_insert_eq).
  split.
  - split; [|exact Hb].
    rewrite H2, lookup_insert_ne by (intros ->; contradiction).
    apply lookup_insert_eq.
  - subst w3. destruct (close_spec env_c a w2) as [calls ->]. cbn.
    split; [|apply lookup_delete_eq].
    now rewrite lookup_delete_ne by exact Hab.
Qed.

(** X7: when the descriptor cannot be switched to non-blocking mode
    (reading or writing its flags fails), the open stores no entry: the
    registry is as before. *)
Theorem open_setup_failure_registers_nothing (sid : string) (rows cols : Z)
    (w : world) (pid fd : Z) (e : exn) :
  pid <> 0 ->
  returns env (trace w) PtyFork (pid, fd) ->
  (raises env (trace w ++ [PtyFork]) (FcntlGetfl fd) e \/
   exists flags,
     returns env (trace w ++ [PtyFork]) (FcntlGetfl fd) flags /\
     raises env ((trace w ++ [PtyFork]) ++ [FcntlGetfl fd])
            (FcntlSetfl fd (Z.lor flags O_NONBLOCK)) e) ->
  shell_sessions (_open_shell_session cfg env sid rows cols w).2 = shell_sessions w.
Proof.
  intros Hpid Hfork Hfail.
  unfold_agent. rewrite Hfork. cbn.
  destruct (Z.eqb_spec pid 0) as [|_]; [contradiction|].
  unfold log_call, log_event, set_sessions.
  destruct Hfail as [Hget|(flags & Hget & Hset)].
  - run_agent; reflexivity.
  - run_agent; reflexivity.
Qed.

(** X8: in the parent, once the flags of the descriptor have been read,
    the flags written back are the ones read with O_NONBLOCK added: the
    non-blocking bit is set and every other bit is as it was. *)
Theorem open_sets_nonblocking (sid : string) (rows cols : Z)
    (w : world) (pid fd flags : Z) :
  pid <> 0 ->
  returns env (trace w) PtyFork (pid, fd) ->
  returns env (trace w ++ [PtyFork]) (FcntlGetfl fd) flags ->
  let w' := (_open_shell_session cfg env sid rows cols w).2 in
  let written := Z.lor flags O_NONBLOCK in
  (exists rest,
     new_calls w w' = PtyFork :: FcntlGetfl fd :: FcntlSetfl fd written :: rest) /\
  Z.testbit written 11 = true /\
  (forall i, i <> 11 -> Z.testbit written i = Z.testbit flags i).
Proof.
  intros Hpid Hfork Hget. cbn zeta. split; [|split].
  - unfold_agent. rewrite Hfork. cbn.
    destruct (Z.eqb_spec pid 0) as [|_]; [contradiction|].
    unfold log_call, log_event, set_sessions. cbn. rewrite Hget.
    run_agent; eexists; apply new_calls_app; cbn; rewrite <- ?app_assoc;
      cbn; reflexivity.
  - rewrite Z.lor_spec. change (Z.testbit O_NONBLOCK 11) with true.
    apply orb_true_r.
  - intros i Hi. rewrite Z.lor_spec.
    assert (Hbit : Z.testbit O_NONBLOCK i = false).
    { change O_NONBLOCK with (2 ^ 11).
      destruct (Z.neg_nonneg_cases i) as [Hneg|Hpos].
      - now apply Z.testbit_neg_r.
      - apply Z.pow2_bits_false. congruence. }
    rewrite Hbit. apply orb_false_r.
Qed.

End LifecycleFacts.

(* ===================================================================== *)
(** * Further properties: disconnect, input, the child process *)
(* ===================================================================== *)

Lemma to_outcome_GetenvSHELL (a : answer GetenvSHELL) :
  to_outcome GetenvSHELL a = Ret a.
Proof. reflexivity. Qed.

Lemma to_outcome_PathExists (p : string) (a : answer (PathExists p)) :
  to_outcome (PathExists p) a = Ret a.
Proof. reflexivity. Qed.

Section MoreSessionFacts.

Variable cfg : config.
Variable env : os_env.

Lemma for_each_close_targets (ks : list string) :
  NoDup ks ->
  forall w : world,
  exists calls,
    (for_each ks (_close_shell_session env) w).1 = Ret tt /\
    trace (for_each ks (_close_shell_session env) w).2 = trace w ++ calls /\
    emitted (for_each ks (_close_shell_session env) w).2 = emitted w /\
    forall k s,
      k ∈ ks -> shell_sessions w !! k = Some s ->
      In (OsClose (fd s)) calls /\ In (OsKill (pid s) SIGTERM) calls.
Proof.
  induction 1 as [|k0 ks Hnotin Hnodup IH]; intros w.
  - exists []. cbn. rewrite app_nil_r.
    do 3 (split; [reflexivity|]).
    intros k s Hin; by apply elem_of_nil in Hin.
  - cbn [for_each]. unfold bind at 1 2 3.
    destruct (shell_sessions w !! k0) as [s0|] eqn:Hk0.
    + destruct (close_spec_calls env k0 s0 w Hk0) as [rest ->].
      set (w1 := mkWorld (delete k0 (shell_sessions w)) (shell_connected w)
                   (command_polling_running w) (emitted w)
                   (trace w ++ OsClose (fd s0) :: OsKill (pid s0) SIGTERM :: rest)).
      destruct (IH w1) as (calls2 & Ho & Ht & He & Hin).
      exists ((OsClose (fd s0) :: OsKill (pid s0) SIGTERM :: rest) ++ calls2).
      split; [exact Ho|]. split; [rewrite Ht; cbn; now rewrite <- app_assoc|].
      split; [exact He|].
      intros k s [->|Hk]%elem_of_cons Hs.
      * rewrite Hk0 in Hs. injection Hs as <-.
        split; apply in_or_app; left; cbn; tauto.
      * assert (Hne : k0 <> k) by (intros ->; contradiction).
        assert (Hs1 : shell_sessions w1 !! k = Some s)
          by (cbn; now rewrite lookup_delete_ne).
        destruct (Hin k s Hk Hs1).
        split; apply in_or_app; right; assumption.
    + rewrite (close_absent env k0 w Hk0).
      destruct (IH w) as (calls2 & Ho & Ht & He & Hin).
      exists calls2. do 3 (split; [assumption|]).
      intros k s [->|Hk]%elem_of_cons Hs; [congruence|].
      by destruct (Hin k s Hk Hs).
Qed.

(** X9: the disconnect handler tears down every registered session: for
    each entry of the registry, the descriptor of the entry is closed and
    its process is sent SIGTERM; no event is emitted. *)
Theorem disconnect_tears_down_each (w : world) (sid : string) (s : session) :
  shell_sessions w !! sid = Some s ->
  let r := disconnect env w in
  In (OsClose (fd s)) (new_calls w r.2) /\
  In (OsKill (pid s) SIGTERM) (new_calls w r.2) /\
  emitted r.2 = emitted w.
Proof.
  intros Hs. cbn zeta.
  assert (Hd : disconnect env w
               = for_each (map_to_list (shell_sessions w)).*1
                   (_close_shell_session env) (set_connected false w))
    by reflexivity.
  rewrite Hd.
  destruct (for_each_close_targets (map_to_list (shell_sessions w)).*1
              (NoDup_fst_map_to_list _) (set_connected false w))
    as (calls & _ & Ht & He & Hin).
  assert (Hkey : sid ∈ (map_to_list (shell_sessions w)).*1).
  { apply list_elem_of_fmap. exists (sid, s). split; [done|].
    by apply elem_of_map_to_list. }
  destruct (Hin sid s Hkey Hs) as [Hclose Hkill].
  rewrite (new_calls_app w _ calls Ht). repeat split; assumption.
Qed.

(** X10: an input payload that does not decode as base64 is dropped: the
    handler returns normally, writes nothing and leaves the state as it
    was. *)
Theorem shell_input_undecodable (sid payload : string) (e : exn) (w : world) :
  Base64.b64decode payload = inl e ->
  _handle_shell_input env sid payload w = (Ret tt, w).
Proof.
  intros Hd. unfold_agent.
  destruct (shell_sessions w !! sid); [|reflexivity].
  now rewrite Hd.
Qed.

(** X11: in the child process (fork answers pid 0) the program executed
    is the one named by SHELL when that path exists, else /bin/bash when
    it exists, else /bin/sh; it gets the single argument -l and an
    environment with TERM, COLUMNS and LINES set from the request.  The
    child registers no session, and when the exec succeeds nothing else
    happens in it: no event is emitted. *)
Theorem open_child_execs_shell (sid : string) (rows cols : Z) (w : world) (fd : Z)
    (shell_var : option string) (path_exists : string -> bool) :
  returns env (trace w) PtyFork (0, fd) ->
  (forall tr, env tr GetenvSHELL = shell_var) ->
  (forall tr p, env tr (PathExists p) = path_exists p) ->
  let sh0 := default "/bin/bash" shell_var in
  let sh1 := if path_exists sh0 then sh0 else "/bin/bash" in
  let chosen := if path_exists sh0 then sh0
                else if path_exists "/bin/bash" then "/bin/bash" else "/bin/sh" in
  let exec := Execvpe chosen [chosen; "-l"]
                [("TERM", "xterm-256color"); ("COLUMNS", pretty cols);
                 ("LINES", pretty rows)] in
  let tr_exec := trace w ++ [PtyFork; GetenvSHELL; PathExists sh0; PathExists sh1] in
  let r := _open_shell_session cfg env sid rows cols w in
  shell_sessions r.2 = shell_sessions w /\
  (exists rest,
     new_calls w r.2 =
       [PtyFork; GetenvSHELL; PathExists sh0; PathExists sh1; exec] ++ rest) /\
  (returns env tr_exec exec tt ->
   r.1 = Replaced /\ new_events w r.2 = [] /\
   new_calls w r.2 = [PtyFork; GetenvSHELL; PathExists sh0; PathExists sh1; exec]).
Proof.
  intros Hfork Hshell Hexists. cbn zeta.
  unfold_agent. rewrite Hfork. cbn. unfold log_call, log_event. cbn.
  rewrite !to_outcome_GetenvSHELL, !Hshell. cbn.
  rewrite ?to_outcome_PathExists, ?Hexists. cbn.
  rewrite ?to_outcome_PathExists, ?Hexists. cbn.
  assert (Hchosen :
    (if path_exists (if path_exists (default "/bin/bash" shell_var)
                     then default "/bin/bash" shell_var else "/bin/bash")
     then (if path_exists (default "/bin/bash" shell_var)
           then default "/bin/bash" shell_var else "/bin/bash")
     else "/bin/sh")
    = (if path_exists (default "/bin/bash" shell_var)
       then default "/bin/bash" shell_var
       else if path_exists "/bin/bash" then "/bin/bash" else "/bin/sh")).
  { destruct (path_exists (default "/bin/bash" shell_var)) eqn:H0;
      [now rewrite H0|reflexivity]. }
  rewrite !Hchosen. rewrite <- !app_assoc. cbn.
  split; [|split].
  - run_agent; reflexivity.
  - run_agent; eexists; apply new_calls_app; cbn; rewrite <- ?app_assoc;
      cbn; reflexivity.
  - intros Hexec. rewrite Hexec. cbn.
    split; [reflexivity|]. split.
    + apply new_events_app. cbn. now rewrite app_nil_r.
    + now apply new_calls_app.
Qed.

End MoreSessionFacts.

(* ===================================================================== *)
(** * Further properties: command dispatch *)
(* ===================================================================== *)

Section MoreCommandFacts.

Variable cfg : config.
Variable env : os_env.

Lemma submit_command_result_calls (r : cmd_result) (w : world) :
  submit_command_result cfg env r w =
    (Ret tt,
     log_calls (if String.eqb (center_server_url cfg) "" then []
                else [Urlopen (result_request cfg r)]) w).
Proof.
  unfold_dispatch. unfold result_request, log_calls.
  destruct (String.eqb (center_server_url cfg) "").
  - now rewrite app_nil_r, world_eta.
  - ask; reflexivity.
Qed.

Lemma poll_for_commands_ok (w : world) (st : Z) (d : list (string * pyval)) :
  center_server_url cfg <> "" ->
  secret_key cfg <> "" ->
  returns env (trace w) (Urlopen (poll_request cfg))
          (mkResponse st (inr (PDict d))) ->
  poll_for_commands cfg env w =
    (Ret (if (st =? 200)%Z && truthy (default PNone (dict_lookup "has_command" d))
          then default PNone (dict_lookup "command" d) else PNone),
     log_calls [Urlopen (poll_request cfg)] w).
Proof.
  intros Hurl Hkey Hresp. unfold_dispatch. unfold log_calls.
  apply String.eqb_neq in Hurl, Hkey. rewrite Hurl, Hkey. cbn.
  rewrite Hresp. cbn.
  destruct (st =? 200)%Z; cbn; [|reflexivity].
  destruct (truthy (default PNone (dict_lookup "has_command" d))); reflexivity.
Qed.

(** X12: without a server address or without a secret key, polling makes
    no request at all and reports no command. *)
Theorem poll_needs_credentials (w : world) :
  center_server_url cfg = "" \/ secret_key cfg = "" ->
  poll_for_commands cfg env w = (Ret PNone, w).
Proof.
  intros Hmissing. unfold_dispatch.
  destruct Hmissing as [->| ->]; cbn; [reflexivity|].
  now rewrite orb_true_r.
Qed.

(** X13: when the server answers with a JSON object, polling makes
    exactly one request and returns the value under ["command"] exactly
    when the status is 200 and ["has_command"] is truthy; with any other
    status, with ["has_command"] missing or falsy, or with no ["command"]
    key, it returns [None]. *)
Theorem poll_returns_command (w : world) (st : Z) (d : list (string * pyval)) :
  center_server_url cfg <> "" ->
  secret_key cfg <> "" ->
  returns env (trace w) (Urlopen (poll_request cfg))
          (mkResponse st (inr (PDict d))) ->
  let r := poll_for_commands cfg env w in
  new_calls w r.2 = [Urlopen (poll_request cfg)] /\
  (st = 200 ->
   truthy (default PNone (dict_lookup "has_command" d)) = true ->
   r.1 = Ret (default PNone (dict_lookup "command" d))) /\
  (st <> 200 \/ truthy (default PNone (dict_lookup "has_command" d)) = false ->
   r.1 = Ret PNone).
Proof.
  intros Hurl Hkey Hresp. cbn zeta.
  rewrite (poll_for_commands_ok w st d Hurl Hkey Hresp). cbn [fst snd].
  split; [now apply new_calls_app|]. split.
  - intros -> ->. reflexivity.
  - intros [Hst| ->].
    + apply Z.eqb_neq in Hst. now rewrite Hst.
    + now rewrite andb_false_r.
Qed.

(** X14: when the command completes, the result carries the exit code and
    the captured output of the process unchanged, has no [error] key, and
    exactly one process was run. *)
Theorem execute_command_completed (d : list (string * pyval)) (w : world)
    (p : completed_process) :
  let cs := default (PStr "") (dict_lookup "command_string" d) in
  let tm := default (PInt 60) (dict_lookup "timeout" d) in
  returns env (trace w ++ [TimeTime]) (SubprocessRun cs tm) p ->
  exists r w',
    execute_command env (PDict d) w = (Ret r, w') /\
    exit_code r = returncode p /\
    stdout r = cp_stdout p /\
    stderr r = cp_stderr p /\
    error r = None /\
    new_calls w w' = [TimeTime; SubprocessRun cs tm; TimeTime; DatetimeNow].
Proof.
  cbn zeta. intros Hrun.
  destruct (execute_command_spec env d w) as (r & Hexec & _ & _ & _ & Hok & _).
  destruct (Hok p Hrun) as (Hc & Ho & He & Hn).
  exists r. eexists. split; [exact Hexec|].
  repeat split; try assumption. now apply new_calls_app.
Qed.

(** X15: when running the command fails with an exception other than the
    time-out, [execute_command] still returns a result: exit code -1,
    empty stdout, and the text of the exception both as stderr and as
    the [error] tag. *)
Theorem execute_command_failure (d : list (string * pyval)) (w : world) (e : exn) :
  let cs := default (PStr "") (dict_lookup "command_string" d) in
  let tm := default (PInt 60) (dict_lookup "timeout" d) in
  exn_cls e <> TimeoutExpired ->
  raises env (trace w ++ [TimeTime]) (SubprocessRun cs tm) e ->
  exists r w',
    execute_command env (PDict d) w = (Ret r, w') /\
    exit_code r = -1 /\
    stdout r = "" /\
    stderr r = exn_str e /\
    error r = Some (exn_str e).
Proof.
  cbn zeta. intros Hcls Hrun.
  destruct (execute_command_spec env d w) as (r & Hexec & _ & _ & _ & _ & _ & Herr).
  destruct (Herr e Hrun Hcls) as (Hc & Ho & He & Hn).
  exists r. eexists. split; [exact Hexec|]. repeat split; assumption.
Qed.

(** X16: a command that is not a JSON object makes [execute_command]
    raise [AttributeError] before anything is run: no call is made. *)
Theorem execute_command_not_object (v : pyval) (w : world) :
  (forall d, v <> PDict d) ->
  exists e,
    execute_command env v w = (Raise e, w) /\ exn_cls e = AttributeError.
Proof.
  intros Hv. unfold_dispatch.
  destruct v as [| | | | |d]; try (eexists; split; reflexivity).
  now destruct (Hv d).
Qed.

(** X17: a loop turn in which the poll returns a command (a non-empty
    JSON object) runs it once and posts its result once, then sleeps:
    the calls are the poll, the four calls of the execution, the post of
    that very result and the sleep, whatever the post answers. *)
Theorem polling_cycle_runs_command (w : world) (d body : list (string * pyval)) :
  center_server_url cfg <> "" ->
  secret_key cfg <> "" ->
  d <> [] ->
  returns env (trace w) (Urlopen (poll_request cfg))
          (mkResponse 200 (inr (PDict body))) ->
  truthy (default PNone (dict_lookup "has_command" body)) = true ->
  dict_lookup "command" body = Some (PDict d) ->
  let w1 := log_calls [Urlopen (poll_request cfg)] w in
  let cs := default (PStr "") (dict_lookup "command_string" d) in
  let tm := default (PInt 60) (dict_lookup "timeout" d) in
  exists r,
    (execute_command env (PDict d) w1).1 = Ret r /\
    new_calls w (polling_cycle cfg env w).2 =
      [Urlopen (poll_request cfg);
       TimeTime; SubprocessRun cs tm; TimeTime; DatetimeNow;
       Urlopen (result_request cfg r);
       TimeSleep (command_poll_interval cfg)].
Proof.
  intros Hurl Hkey Hd Hresp Hhas Hcmd. cbn zeta.
  destruct (execute_command_spec env d (log_calls [Urlopen (poll_request cfg)] w))
    as (r & Hexec & _).
  exists r. split; [now rewrite Hexec|].
  unfold polling_cycle.
  unfold bind at 1. unfold try_except at 1. unfold bind at 1.
  rewrite (poll_for_commands_ok w 200 body Hurl Hkey Hresp).
  rewrite Hhas, Hcmd. cbn [andb Z.eqb Pos.eqb default truthy].
  destruct d as [|kv d']; [contradiction|].
  unfold id. cbn [truthy].
  unfold bind at 1. rewrite Hexec.
  unfold bind at 1. rewrite submit_command_result_calls.
  apply String.eqb_neq in Hurl. rewrite Hurl.
  unfold ret, perform, log_call, log_calls. cbn.
  apply new_calls_app. cbn. rewrite <- !app_assoc. reflexivity.
Qed.

(** X18: a loop turn in which the poll returns anything but a non-empty
    JSON object (nothing, an empty object, a string, a number, a list)
    runs no process and posts nothing: after the calls of the poll it
    only sleeps. *)
Theorem polling_cycle_runs_nothing (w : world) (v : pyval) :
  (poll_for_commands cfg env w).1 = Ret v ->
  (forall kv d, v <> PDict (kv :: d)) ->
  new_calls w (polling_cycle cfg env w).2 =
    new_calls w (poll_for_commands cfg env w).2
    ++ [TimeSleep (command_poll_interval cfg)].
Proof.
  intros Hpoll Hv.
  destruct (poll_for_commands_spec cfg env w) as (v' & c1 & Hp & _).
  rewrite Hp in Hpoll |- *. cbn in Hpoll. injection Hpoll as ->.
  cbn [snd]. rewrite (new_calls_app w (log_calls c1 w) c1 eq_refl).
  unfold polling_cycle.
  unfold bind at 1. unfold try_except at 1. unfold bind at 1. rewrite Hp.
  assert (Hend : forall w2 : world,
            trace w2 = trace w ++ c1 ->
            new_calls w (perform env (TimeSleep (command_poll_interval cfg)) w2).2
            = c1 ++ [TimeSleep (command_poll_interval cfg)]).
  { intros w2 Ht. apply new_calls_app. unfold perform, log_call. cbn.
    now rewrite Ht, <- app_assoc. }
  destruct v as [| | | | |d].
  - cbn. now apply Hend.
  - destruct b; cbn; now apply Hend.
  - cbn [truthy]. destruct (negb (z =? 0)%Z); cbn; now apply Hend.
  - cbn [truthy]. destruct (negb (String.eqb s "")); cbn; now apply Hend.
  - destruct l; cbn; now apply Hend.
  - destruct d as [|kv d]; [cbn; now apply Hend|]. now destruct (Hv kv d).
Qed.

(** X19: posting a result never raises and is never retried: with a
    server address it is exactly one POST of the result, with the
    credential headers, to [<server>/api/commands/result], whatever the
    server answers; without a server address it does nothing. *)
Theorem submit_posts_once (r : cmd_result) (w : world) :
  (center_server_url cfg = "" -> submit_command_result cfg env r w = (Ret tt, w)) /\
  (center_server_url cfg <> "" ->
   (submit_command_result cfg env r w).1 = Ret tt /\
   new_calls w (submit_command_result cfg env r w).2
   = [Urlopen (result_request cfg r)] /\
   req_url (result_request cfg r)
   = (center_server_url cfg ++ "/api/commands/result")%string /\
   req_data (result_request cfg r) = Some r /\
   In ("X-Client-ID", client_id cfg) (req_headers (result_request cfg r)) /\
   In ("X-Client-API-Key", secret_key cfg) (req_headers (result_request cfg r))).
Proof.
  rewrite submit_command_result_calls. split.
  - intros ->. cbn. now rewrite log_calls_nil.
  - intros Hurl. apply String.eqb_neq in Hurl. rewrite Hurl. cbn [fst snd].
    split; [reflexivity|]. split; [now apply new_calls_app|].
    cbn. tauto.
Qed.

End MoreCommandFacts.

Lemma close_leaves_others_witness :
  shell_sessions (_close_shell_session env_ok "s2" w_one).2 !! "s1"
  = shell_sessions w_one !! "s1".
Proof.
  apply (proj1 (close_leaves_others env_ok "s2" w_one)). discriminate.
Defined.

Lemma open_leaves_others_witness :
  shell_sessions (_open_shell_session cfg0 env_thread_limit "s2" 24 80 w_one).2 !! "s1"
  = shell_sessions w_one !! "s1".
Proof.
  apply (open_leaves_others cfg0 env_thread_limit "s2" 24 80 w_one). discriminate.
Defined.

Lemma open_then_close_restores_witness :
  shell_sessions
    (_close_shell_session env_child_gone "s2"
       (_open_shell_session cfg0 env_ok "s2" 24 80 w_one).2).2
  = shell_sessions w_one.
Proof.
  refine (proj1 (proj2 (open_then_close_restores cfg0 env_ok env_child_gone
                          "s2" 24 80 w_one 4321 7 _ _ _ _ _))).
  - vm_compute; reflexivity.
  - lia.
  - reflexivity.
  - intros tr. exists 2. reflexivity.
  - intros flags tr. exists tt. reflexivity.
Defined.

Lemma sessions_independent_witness :
  shell_sessions
    (_close_shell_session env_ok "a"
       (_open_shell_session cfg0 env_ok "b" 30 100
          (_open_shell_session cfg0 env_ok "a" 24 80 w_idle).2).2).2 !! "b"
  = Some (mkSession 7 4321 30 100).
Proof.
  refine (proj1 (proj2 (sessions_independent cfg0 env_ok env_ok env_ok "a" "b"
                          24 80 30 100 w_idle 4321 7 4321 7 _ _ _ _ _ _ _ _ _))).
  - discriminate.
  - lia.
  - lia.
  - reflexivity.
  - intros tr. exists 2. reflexivity.
  - intros flags tr. exists tt. reflexivity.
  - reflexivity.
  - intros tr. exists 2. reflexivity.
  - intros flags tr. exists tt. reflexivity.
Defined.

(** The descriptor set-up fails: its flags cannot be read. *)
Lemma open_setup_failure_registers_nothing_witness :
  shell_sessions
    (_open_shell_session cfg0
       (fun tr c => match c return answer c with
                    | FcntlGetfl _ => inl (mkExn OSError "[Errno 9] Bad file descriptor")
                    | c' => default_answer c'
                    end) "s2" 24 80 w_one).2
  = shell_sessions w_one.
Proof.
  apply (open_setup_failure_registers_nothing cfg0 _ "s2" 24 80 w_one 4321 7
           (mkExn OSError "[Errno 9] Bad file descriptor")).
  - lia.
  - reflexivity.
  - left. reflexivity.
Defined.

Lemma open_sets_nonblocking_witness :
  exists rest,
    new_calls w_idle (_open_shell_session cfg0 env_ok "s1" 24 80 w_idle).2
    = PtyFork :: FcntlGetfl 7 :: FcntlSetfl 7 2050 :: rest.
Proof.
  refine (proj1 (open_sets_nonblocking cfg0 env_ok "s1" 24 80 w_idle 4321 7 2 _ _ _)).
  - lia.
  - reflexivity.
  - reflexivity.
Defined.

Lemma disconnect_tears_down_each_witness :
  In (OsClose 5) (new_calls w_one (disconnect env_child_gone w_one).2) /\
  In (OsKill 100 SIGTERM) (new_calls w_one (disconnect env_child_gone w_one).2).
Proof.
  assert (Hs : shell_sessions w_one !! "s1" = Some (mkSession 5 100 24 80))
    by (vm_compute; reflexivity).
  destruct (disconnect_tears_down_each env_child_gone w_one "s1" _ Hs)
    as (Hc & Hk & _).
  split; assumption.
Defined.

Lemma shell_input_undecodable_witness :
  _handle_shell_input env_ok "s1" "bHM" w_one = (Ret tt, w_one).
Proof.
  apply (shell_input_undecodable env_ok "s1" "bHM"
           (mkExn BinasciiError "Incorrect padding") w_one).
  reflexivity.
Defined.

(** The child process, with SHELL set to a path that does not exist. *)
Lemma open_child_execs_shell_witness :
  exists rest,
    new_calls w_idle
      (_open_shell_session cfg0
         (fun tr c => match c return answer c with
                      | PtyFork => inr (0, 7)
                      | GetenvSHELL => Some "/usr/bin/fish"
                      | PathExists p => String.eqb p "/bin/bash"
                      | c' => default_answer c'
                      end) "s1" 24 80 w_idle).2
    = [PtyFork; GetenvSHELL; PathExists "/usr/bin/fish"; PathExists "/bin/bash";
       Execvpe "/bin/bash" ["/bin/bash"; "-l"]
         [("TERM", "xterm-256color"); ("COLUMNS", "80"); ("LINES", "24")]]
      ++ rest.
Proof.
  refine (proj1 (proj2 (open_child_execs_shell cfg0 _ "s1" 24 80 w_idle 7
                          (Some "/usr/bin/fish")
                          (fun p => String.eqb p "/bin/bash") _ _ _))).
  - reflexivity.
  - reflexivity.
  - reflexivity.
Defined.

Lemma poll_needs_credentials_witness :
  poll_for_commands cfg_no_key env_has_command w_idle = (Ret PNone, w_idle).
Proof.
  apply (poll_needs_credentials cfg_no_key env_has_command w_idle).
  right. reflexivity.
Defined.

Lemma poll_returns_command_witness :
  (poll_for_commands cfg0 env_has_command w_idle).1 = Ret (PDict cmd_no_timeout).
Proof.
  refine (proj1 (proj2 (poll_returns_command cfg0 env_has_command w_idle 200
                          [("has_command", PBool true);
                           ("command", PDict cmd_no_timeout)] _ _ _)) _ _).
  - discriminate.
  - discriminate.
  - reflexivity.
  - reflexivity.
  - reflexivity.
Defined.

Lemma execute_command_completed_witness :
  exists r w',
    execute_command env_ok (PDict cmd_no_timeout) w_idle = (Ret r, w') /\
    exit_code r = 0 /\ stdout r = "hi" /\ stderr r = "" /\ error r = None /\
    new_calls w_idle w' =
      [TimeTime; SubprocessRun (PStr "echo hi") (PInt 60); TimeTime; DatetimeNow].
Proof.
  apply (execute_command_completed env_ok cmd_no_timeout w_idle
           (mkCompleted 0 "hi" "")).
  reflexivity.
Defined.

Lemma execute_command_failure_witness :
  exists r w',
    execute_command env_cannot_run (PDict cmd_no_timeout) w_idle = (Ret r, w') /\
    exit_code r = -1 /\ stdout r = "" /\
    stderr r = "[Errno 12] Cannot allocate memory" /\
    error r = Some "[Errno 12] Cannot allocate memory".
Proof.
  apply (execute_command_failure env_cannot_run cmd_no_timeout w_idle
           (mkExn OSError "[Errno 12] Cannot allocate memory")).
  - discriminate.
  - reflexivity.
Defined.

Lemma execute_command_not_object_witness :
  exists e,
    execute_command env_ok (PStr "ls") w_idle = (Raise e, w_idle) /\
    exn_cls e = AttributeError.
Proof.
  apply (execute_command_not_object env_ok (PStr "ls") w_idle).
  discriminate.
Defined.

Lemma polling_cycle_runs_command_witness :
  exists r,
    (execute_command env_has_command (PDict cmd_no_timeout)
       (log_calls [Urlopen (poll_request cfg0)] w_idle)).1 = Ret r /\
    new_calls w_idle (polling_cycle cfg0 env_has_command w_idle).2 =
      [Urlopen (poll_request cfg0);
       TimeTime; SubprocessRun (PStr "echo hi") (PInt 60); TimeTime; DatetimeNow;
       Urlopen (result_request cfg0 r);
       TimeSleep 10].
Proof.
  apply (polling_cycle_runs_command cfg0 env_has_command w_idle cmd_no_timeout
           [("has_command", PBool true); ("command", PDict cmd_no_timeout)]).
  - discriminate.
  - discriminate.
  - discriminate.
  - reflexivity.
  - reflexivity.
  - reflexivity.
Defined.

Lemma polling_cycle_runs_nothing_witness :
  new_calls w_idle (polling_cycle cfg0 env_ok w_idle).2 =
    new_calls w_idle (poll_for_commands cfg0 env_ok w_idle).2 ++ [TimeSleep 10].
Proof.
  apply (polling_cycle_runs_nothing cfg0 env_ok w_idle PNone).
  - reflexivity.
  - discriminate.
Defined.

Lemma submit_posts_once_witness :
  new_calls w_idle
    (submit_command_result cfg0 env_net_down
       (mkResult (PStr "u-1") (PStr "c-1") 0 "hi" "" "2024-05-01T12:00:00" 0 None)
       w_idle).2
  = [Urlopen (result_request cfg0
       (mkResult (PStr "u-1") (PStr "c-1") 0 "hi" "" "2024-05-01T12:00:00" 0 None))].
Proof.
  refine (proj1 (proj2 (proj2 (submit_posts_once cfg0 env_net_down _ w_idle) _))).
  discriminate.
Defined.

(* ===================================================================== *)
(** * Further properties: the reader of a session *)
(* ===================================================================== *)

Lemma only_touches_refl (sid : string) (w : world) : only_touches sid w w.
Proof. split; reflexivity. Qed.

Lemma only_touches_trans (sid : string) (w1 w2 w3 : world) :
  only_touches sid w1 w2 -> only_touches sid w2 w3 -> only_touches sid w1 w3.
Proof.
  intros [H1 C1] [H2 C2]. split.
  - intros sid' Hne. now rewrite H2, H1.
  - now rewrite C2, C1.
Qed.

Ltac unfold_reader :=
  unfold reader_turn, emit_if_connected, try_except_if, sio_emit,
    try_except, bind, lift, perform, gets, modify, ret, raise,
    returns, raises, log_call, log_event in *.

Ltac close_step :=
  match goal with
  | |- context [_close_shell_session ?env ?sid ?w] =>
      let calls := fresh "calls" in
      destruct (close_spec env sid w) as [calls ->]
  end.

Ltac run_reader :=
  repeat (cbn -[_close_shell_session];
          try first [split_pair | close_step | ask]).

Section ReaderFacts.

Variable env : os_env.
Variable sio_set : bool.

(** A turn never replaces the process; it touches the entry of its own
    session only, and when it ends by [return] that entry is gone. *)
Lemma reader_turn_ok (obs : reader_obs) (sid : string) (s : session) (w : world) :
  let r := reader_turn env sio_set obs sid s w in
  r.1 <> Replaced /\
  only_touches sid w r.2 /\
  (r.1 = Ret Return -> shell_sessions r.2 !! sid = None) /\
  (sio_set && shell_connected w = false -> emitted r.2 = emitted w).
Proof.
  cbn zeta. unfold_reader.
  destruct obs as [[es|ready] [er|data]];
    destruct (sio_set && shell_connected w) eqn:Hconn.
  all: run_reader.
  all: repeat match goal with
         | |- context [is_ChildProcessError ?e] =>
             destruct (is_ChildProcessError e); run_reader
         | |- context [is_OSError ?e] => destruct (is_OSError e); run_reader
         | |- context [if ?b then _ else _] => destruct b eqn:?; run_reader
         | |- context [match ?d with [] => _ | _ :: _ => _ end] =>
             destruct d; run_reader
         end.
  all: repeat split; try discriminate; try reflexivity;
    try (intros; apply lookup_delete_eq);
    try (intros sid' Hne; cbn; now rewrite lookup_delete_ne by congruence).
Qed.

Lemma reader_loop_nil (sid : string) (s : session) (w : world) :
  reader_loop env sio_set [] sid s w =
    (Ret (if bool_decide (is_Some (shell_sessions w !! sid))
          then Continue else Break), w).
Proof.
  cbn. unfold bind, gets, ret.
  now destruct (bool_decide (is_Some (shell_sessions w !! sid))).
Qed.

Lemma reader_loop_cons (obs : reader_obs) (script : list reader_obs)
    (sid : string) (s : session) (w : world) :
  reader_loop env sio_set (obs :: script) sid s w =
    if bool_decide (is_Some (shell_sessions w !! sid)) then
      match reader_turn env sio_set obs sid s w with
      | (Ret Continue, w1) => reader_loop env sio_set script sid s w1
      | other => other
      end
    else (Ret Break, w).
Proof.
  cbn [reader_loop]. unfold bind at 1. unfold gets.
  destruct (bool_decide (is_Some (shell_sessions w !! sid))); [|reflexivity].
  unfold bind at 1.
  destruct (reader_turn env sio_set obs sid s w) as [[[]|e|] w1]; reflexivity.
Qed.

Lemma reader_loop_ok (script : list reader_obs) (sid : string) (s : session) :
  forall w : world,
    let r := reader_loop env sio_set script sid s w in
    r.1 <> Replaced /\
    only_touches sid w r.2 /\
    (sio_set && shell_connected w = false -> emitted r.2 = emitted w).
Proof.
  induction script as [|obs script IH]; intros w; cbn zeta.
  - rewrite reader_loop_nil. cbn.
    split; [discriminate|]. split; [apply only_touches_refl|reflexivity].
  - rewrite reader_loop_cons.
    destruct (bool_decide (is_Some (shell_sessions w !! sid)));
      [|cbn; (split; [discriminate|]);
        (split; [apply only_touches_refl|reflexivity])].
    destruct (reader_turn_ok obs sid s w) as (Hrep & Htouch & _ & Hquiet).
    destruct (reader_turn env sio_set obs sid s w) as [[t|e|] w1];
      cbn [fst snd] in *; [|split; [discriminate|split; assumption]|contradiction].
    destruct t; cbn [fst snd];
      try (split; [discriminate|split; assumption]).
    destruct (IH w1) as (Hrep2 & Htouch2 & Hquiet2).
    split; [exact Hrep2|]. split.
    + eapply only_touches_trans; eassumption.
    + intros Hoff. destruct Htouch as [_ Hc].
      rewrite Hquiet2 by (rewrite Hc; exact Hoff). now apply Hquiet.
Qed.

Lemma reader_worker_registered (script : list reader_obs) (sid : string)
    (s : session) (w : world) :
  shell_sessions w !! sid = Some s ->
  _shell_read_worker env sio_set script sid w =
    match reader_loop env sio_set script sid s w with
    | (Ret Continue, w1) => (Ret StillRunning, w1)
    | (Replaced, w1) => (Replaced, w1)
    | (_, w1) => (Ret Finished, (_close_shell_session env sid w1).2)
    end.
Proof.
  intros Hs. unfold _shell_read_worker, bind, get_session, gets, try_except.
  rewrite Hs.
  destruct (reader_loop env sio_set script sid s w) as [[[]|e|] w1];
    try reflexivity; cbn;
    destruct (close_spec env sid w1) as [calls ->]; reflexivity.
Qed.

(** X20: the reader never raises, whatever the outside answers.  When it
    has finished, its session is no longer registered: the [finally]
    clause closes it on every way out of the loop.  The entries of all
    other sessions and the connection flag are left as they were. *)
Theorem reader_cleans_up (script : list reader_obs) (sid : string) (w : world) :
  let r := _shell_read_worker env sio_set script sid w in
  (exists st, r.1 = Ret st) /\
  (r.1 = Ret Finished -> shell_sessions r.2 !! sid = None) /\
  (forall sid', sid' <> sid ->
     shell_sessions r.2 !! sid' = shell_sessions w !! sid') /\
  shell_connected r.2 = shell_connected w.
Proof.
  cbn zeta. unfold _shell_read_worker, bind, get_session, gets.
  destruct (shell_sessions w !! sid) as [s|] eqn:Hs.
  - unfold try_except.
    destruct (reader_loop_ok script sid s w) as (Hrep & [Hothers Hconn] & _).
    destruct (reader_loop env sio_set script sid s w) as [[t|e|] w1];
      cbn [fst snd] in *; [| |contradiction].
    + destruct t; cbn.
      * split; [eauto|]. split; [discriminate|]. split; assumption.
      * destruct (close_spec env sid w1) as [calls ->]. cbn.
        split; [eauto|]. split; [intros _; apply lookup_delete_eq|].
        split; [|assumption].
        intros sid' Hne. rewrite lookup_delete_ne by congruence. now apply Hothers.
      * destruct (close_spec env sid w1) as [calls ->]. cbn.
        split; [eauto|]. split; [intros _; apply lookup_delete_eq|].
        split; [|assumption].
        intros sid' Hne. rewrite lookup_delete_ne by congruence. now apply Hothers.
    + cbn. destruct (close_spec env sid w1) as [calls ->]. cbn.
      split; [eauto|]. split; [intros _; apply lookup_delete_eq|].
      split; [|assumption].
      intros sid' Hne. rewrite lookup_delete_ne by congruence. now apply Hothers.
  - cbn. split; [eauto|]. split; [intros _; exact Hs|]. split; reflexivity.
Qed.

(** X21: while the connection is down (or no client object is set) the
    reader emits nothing: neither output nor an exit event, whatever the
    child and the descriptor do. *)
Theorem reader_silent_when_disconnected (script : list reader_obs) (sid : string)
    (w : world) :
  sio_set && shell_connected w = false ->
  emitted (_shell_read_worker env sio_set script sid w).2 = emitted w.
Proof.
  intros Hoff. unfold _shell_read_worker, bind, get_session, gets.
  destruct (shell_sessions w !! sid) as [s|]; [|reflexivity].
  unfold try_except.
  destruct (reader_loop_ok script sid s w) as (Hrep & _ & Hquiet).
  specialize (Hquiet Hoff).
  destruct (reader_loop env sio_set script sid s w) as [[t|e|] w1];
    cbn [fst snd] in *; [| |contradiction].
  - destruct t; cbn; try assumption;
      destruct (close_spec env sid w1) as [calls ->]; cbn; assumption.
  - cbn. destruct (close_spec env sid w1) as [calls ->]. cbn. assumption.
Qed.




(** A turn with the child running, the channel up and no error on the
    descriptor relays what was read and goes on. *)
Lemma reader_turn_relays (obs : reader_obs) (sid : string) (s : session) (w : world) :
  sio_set = true ->
  shell_connected w = true ->
  (forall tr, exists st, returns env tr (OsWaitpid (pid s) WNOHANG) (0, st)) ->
  (forall ev, never_raises env (SioEmit ev)) ->
  clean_obs obs ->
  exists w1,
    reader_turn env sio_set obs sid s w = (Ret Continue, w1) /\
    emitted w1 = emitted w
                 ++ List.map (fun d => shell_output sid (Base64.b64encode d))
                      (relayed obs) /\
    shell_sessions w1 = shell_sessions w /\
    shell_connected w1 = shell_connected w.
Proof.
  intros Hsio Hconn Hwait Hemit [[ready Hsel] [data Hrd]].
  destruct (Hwait (trace w)) as [st Hst].
  destruct obs as [osel ord]. cbn in Hsel, Hrd. subst osel ord.
  unfold relayed. cbn [sel rd].
  unfold_reader. rewrite Hst. cbn. rewrite Hsio, Hconn. cbn.
  destruct ready; [|cbn; eexists; rewrite app_nil_r; repeat split].
  destruct data as [|b bs]; [cbn; eexists; rewrite app_nil_r; repeat split|].
  run_reader. eexists. repeat split.
Qed.

Lemma reader_loop_relays (script : list reader_obs) (sid : string) (s : session) :
  sio_set = true ->
  (forall tr, exists st, returns env tr (OsWaitpid (pid s) WNOHANG) (0, st)) ->
  (forall ev, never_raises env (SioEmit ev)) ->
  Forall clean_obs script ->
  forall w : world,
    shell_connected w = true ->
    is_Some (shell_sessions w !! sid) ->
    exists w1,
      reader_loop env sio_set script sid s w = (Ret Continue, w1) /\
      emitted w1 = emitted w
                   ++ List.map (fun d => shell_output sid (Base64.b64encode d))
                        (flat_map relayed script) /\
      shell_sessions w1 = shell_sessions w.
Proof.
  intros Hsio Hwait Hemit Hclean.
  induction Hclean as [|obs script Hobs Hrest IH]; intros w Hconn Hreg.
  - rewrite reader_loop_nil. rewrite bool_decide_eq_true_2 by exact Hreg.
    exists w. cbn. now rewrite app_nil_r.
  - rewrite reader_loop_cons. rewrite bool_decide_eq_true_2 by exact Hreg.
    destruct (reader_turn_relays obs sid s w Hsio Hconn Hwait Hemit Hobs)
      as (w1 & -> & He1 & Hs1 & Hc1).
    destruct (IH w1) as (w2 & -> & He2 & Hs2).
    + now rewrite Hc1.
    + now rewrite Hs1.
    + exists w2. split; [reflexivity|]. split.
      * rewrite He2, He1. cbn [flat_map]. now rewrite List.map_app, app_assoc.
      * now rewrite Hs2.
Qed.

(** X22: while the child runs and the channel is up, the reader relays
    what it reads in the order read: the events emitted are one
    [shell_output] per non-empty read, each carrying the base64 text of
    that read, from which the bytes are recovered by decoding; turns in
    which the descriptor is not ready or the read is empty emit nothing,
    and the session stays registered. *)
Theorem reader_relays_in_order (script : list reader_obs) (sid : string)
    (s : session) (w : world) :
  sio_set = true ->
  shell_connected w = true ->
  shell_sessions w !! sid = Some s ->
  (forall tr, exists st, returns env tr (OsWaitpid (pid s) WNOHANG) (0, st)) ->
  (forall ev, never_raises env (SioEmit ev)) ->
  Forall clean_obs script ->
  let r := _shell_read_worker env sio_set script sid w in
  r.1 = Ret StillRunning /\
  new_events w r.2 =
    List.map (fun d => shell_output sid (Base64.b64encode d))
             (flat_map relayed script) /\
  (forall d, In d (flat_map relayed script) ->
     Base64.b64decode (Base64.b64encode d) = inr d) /\
  shell_sessions r.2 = shell_sessions w.
Proof.
  intros Hsio Hconn Hs Hwait Hemit Hclean. cbn zeta.
  unfold _shell_read_worker, bind, get_session, gets. rewrite Hs.
  unfold try_except.
  destruct (reader_loop_relays script sid s Hsio Hwait Hemit Hclean w Hconn)
    as (w1 & -> & He & Hreg); [rewrite Hs; eauto|].
  cbn. split; [reflexivity|]. split; [now apply new_events_app|].
  split; [|exact Hreg].
  intros d _. apply Base64Facts.b64decode_b64encode.
Qed.

(** The teardown of the session, when the reader gets to it with the
    session still registered. *)
Ltac close_registered s Hs :=
  match goal with
  | |- context [_close_shell_session ?env ?sid ?w] =>
      let rest := fresh "rest" in
      destruct (close_spec_calls env sid s w Hs) as [rest ->]
  end.


(** X24: when the descriptor fails under the reader ([select] or
    [os.read] raises an [OSError]: the descriptor was closed, or the
    terminal is gone), the reader leaves its loop and tears the session
    down: after its [waitpid] it closes the descriptor of the session
    and signals its process, the entry is removed and the reader
    finishes, without emitting any event. *)
Theorem reader_ends_on_descriptor_error (obs : reader_obs)
    (script : list reader_obs) (sid : string) (s : session) (w : world) (e : exn) :
  shell_sessions w !! sid = Some s ->
  (exists st, returns env (trace w) (OsWaitpid (pid s) WNOHANG) (0, st)) ->
  is_OSError e = true ->
  (sel obs = inl e \/ (sel obs = inr true /\ rd obs = inl e)) ->
  let r := _shell_read_worker env sio_set (obs :: script) sid w in
  r.1 = Ret Finished /\
  emitted r.2 = emitted w /\
  shell_sessions r.2 = delete sid (shell_sessions w) /\
  (exists rest,
     new_calls w r.2 =
       OsWaitpid (pid s) WNOHANG :: OsClose (fd s) :: OsKill (pid s) SIGTERM
       :: rest).
Proof.
  intros Hs [st Hwait] Hos Hobs. cbn zeta.
  rewrite (reader_worker_registered _ sid s w Hs), reader_loop_cons.
  rewrite bool_decide_eq_true_2 by (rewrite Hs; eauto).
  destruct obs as [osel ord]. cbn in Hobs.
  unfold_reader. rewrite Hwait. cbn -[_close_shell_session].
  destruct Hobs as [->|[-> ->]]; cbn -[_close_shell_session];
    rewrite Hos; cbn -[_close_shell_session]; close_registered s Hs;
    cbn; (do 3 (split; [reflexivity|]));
    eexists; apply new_calls_app; cbn; rewrite <- !app_assoc; reflexivity.
Qed.

(** X25: when the child has already been reaped ([waitpid] raises
    [ChildProcessError]), the reader tears the session down: after the
    failed [waitpid] it closes the descriptor of the session and signals
    its process, the entry is removed and the reader finishes, without
    emitting any event. *)
Theorem reader_ends_when_child_reaped (obs : reader_obs)
    (script : list reader_obs) (sid : string) (s : session) (w : world) (e : exn) :
  shell_sessions w !! sid = Some s ->
  raises env (trace w) (OsWaitpid (pid s) WNOHANG) e ->
  exn_cls e = ChildProcessError ->
  let r := _shell_read_worker env sio_set (obs :: script) sid w in
  r.1 = Ret Finished /\
  emitted r.2 = emitted w /\
  shell_sessions r.2 = delete sid (shell_sessions w) /\
  (exists rest,
     new_calls w r.2 =
       OsWaitpid (pid s) WNOHANG :: OsClose (fd s) :: OsKill (pid s) SIGTERM
       :: rest).
Proof.
  intros Hs Hwait Hcls. cbn zeta.
  rewrite (reader_worker_registered _ sid s w Hs), reader_loop_cons.
  rewrite bool_decide_eq_true_2 by (rewrite Hs; eauto).
  unfold_reader. rewrite Hwait. cbn -[_close_shell_session].
  unfold is_ChildProcessError. rewrite Hcls. cbn -[_close_shell_session].
  close_registered s Hs. run_reader.
  do 2 (split; [reflexivity|]). split; [apply delete_delete_eq|].
  eexists. apply new_calls_app. cbn. rewrite <- !app_assoc. cbn. reflexivity.
Qed.

End ReaderFacts.

Lemma reader_cleans_up_witness :
  shell_sessions
    (_shell_read_worker env_child_exited true script_output "s1" w_one).2 !! "s1"
  = None.
Proof.
  apply (proj1 (proj2 (reader_cleans_up env_child_exited true script_output
                         "s1" w_one))).
  vm_compute. reflexivity.
Defined.

Lemma reader_silent_when_disconnected_witness :
  emitted (_shell_read_worker env_child_exited false script_output "s1" w_one).2
  = emitted w_one.
Proof.
  apply (reader_silent_when_disconnected env_child_exited false script_output
           "s1" w_one).
  reflexivity.
Defined.

Lemma reader_relays_in_order_witness :
  new_events w_one
    (_shell_read_worker env_still_running true script_output "s1" w_one).2
  = [shell_output "s1" "bHM="; shell_output "s1" "Cg=="].
Proof.
  refine (proj1 (proj2 (reader_relays_in_order env_still_running true script_output
                          "s1" (mkSession 5 100 24 80) w_one _ _ _ _ _ _))).
  - reflexivity.
  - reflexivity.
  - vm_compute; reflexivity.
  - intros tr. exists 0. reflexivity.
  - intros ev tr. exists tt. reflexivity.
  - unfold script_output, clean_obs. repeat constructor; cbn; eauto.
Defined.


Lemma reader_ends_on_descriptor_error_witness :
  (_shell_read_worker env_still_running true script_closed "s1" w_one).1
  = Ret Finished /\
  emitted (_shell_read_worker env_still_running true script_closed "s1" w_one).2
  = emitted w_one /\
  exists rest,
    new_calls w_one
      (_shell_read_worker env_still_running true script_closed "s1" w_one).2
    = OsWaitpid 100 WNOHANG :: OsClose 5 :: OsKill 100 SIGTERM :: rest.
Proof.
  destruct (reader_ends_on_descriptor_error env_still_running true
              (mkObs (inl (mkExn OSError "[Errno 9] Bad file descriptor")) (inr []))
              [] "s1" (mkSession 5 100 24 80) w_one
              (mkExn OSError "[Errno 9] Bad file descriptor"))
    as (Hfin & Hev & _ & Hcalls).
  - vm_compute; reflexivity.
  - exists 0. reflexivity.
  - reflexivity.
  - left. reflexivity.
  - split; [exact Hfin|]. split; [exact Hev|exact Hcalls].
Defined.

Lemma reader_ends_when_child_reaped_witness :
  (_shell_read_worker env_child_gone true script_output "s1" w_one).1
  = Ret Finished /\
  emitted (_shell_read_worker env_child_gone true script_output "s1" w_one).2
  = emitted w_one /\
  exists rest,
    new_calls w_one
      (_shell_read_worker env_child_gone true script_output "s1" w_one).2
    = OsWaitpid 100 WNOHANG :: OsClose 5 :: OsKill 100 SIGTERM :: rest.
Proof.
  destruct (reader_ends_when_child_reaped env_child_gone true
              (mkObs (inr true) (inr [Byte.x6c; Byte.x73]))
              [mkObs (inr false) (inr []); mkObs (inr true) (inr []);
               mkObs (inr true) (inr [Byte.x0a])]
              "s1" (mkSession 5 100 24 80) w_one
              (mkExn ChildProcessError "[Errno 10] No child processes"))
    as (Hfin & Hev & _ & Hcalls).
  - vm_compute; reflexivity.
  - reflexivity.
  - reflexivity.
  - split; [exact Hfin|]. split; [exact Hev|exact Hcalls].
Defined.

(* ===================================================================== *)
(** * Further properties: the ping measurement *)
(* ===================================================================== *)

Module PingFacts.
Import Ping.

Lemma span_app (p : ascii -> bool) (s : string) :
  forall a b, span p s = (a, b) -> s = (a ++ b)%string.
Proof.
  induction s as [|c r IH]; intros a b; cbn.
  - now intros [= <- <-].
  - destruct (p c).
    + destruct (span p r) as [a' b'] eqn:Hr. intros [= <- <-].
      now rewrite (IH a' b' eq_refl).
    + now intros [= <- <-].
Qed.

Lemma contains_unfold (t s : string) :
  contains t s =
    String.prefix t s
    || match s with
       | EmptyString => false
       | String _ r => contains t r
       end.
Proof. destruct s; reflexivity. Qed.

Lemma contains_suffix (t b : string) (a : string) :
  String.prefix t b = true -> contains t (a ++ b) = true.
Proof.
  intros Hp. induction a as [|c a IH]; cbn.
  - change (contains t b = true). rewrite contains_unfold, Hp. reflexivity.
  - change (contains t (String c (a ++ b)) = true).
    rewrite contains_unfold, IH. apply orb_true_r.
Qed.

Lemma contains_tail (t : string) (c : ascii) (r : string) :
  contains t r = true -> contains t (String c r) = true.
Proof. intros H. rewrite contains_unfold, H. apply orb_true_r. Qed.

Lemma match_loss_here_contains (s g : string) :
  match_loss_here s = Some g -> contains "% packet loss" s = true.
Proof.
  unfold match_loss_here.
  destruct (span is_digit s) as [ds rest] eqn:Hspan.
  destruct (negb (String.eqb ds "") && String.prefix "% packet loss" rest) eqn:Hc;
    [|discriminate].
  intros _. apply andb_prop in Hc as [_ Hp].
  rewrite (span_app _ _ _ _ Hspan). now apply contains_suffix.
Qed.

Lemma search_loss_contains (s : string) :
  forall g, search_loss s = Some g -> contains "% packet loss" s = true.
Proof.
  induction s as [|c r IH]; intros g.
  - cbn. discriminate.
  - cbn [search_loss].
    destruct (match_loss_here (String c r)) as [g'|] eqn:Hm.
    + intros _. now apply (match_loss_here_contains _ g').
    + intros Hr. apply contains_tail. now apply (IH g).
Qed.

Lemma match_time_here_contains (s g : string) :
  match_time_here s = Some g -> contains "time=" s = true.
Proof.
  unfold match_time_here.
  destruct (String.prefix "time=" s) eqn:Hp; [|discriminate].
  intros _. rewrite contains_unfold, Hp. reflexivity.
Qed.

Lemma search_time_contains (s : string) :
  forall g, search_time s = Some g -> contains "time=" s = true.
Proof.
  induction s as [|c r IH]; intros g.
  - cbn. discriminate.
  - cbn [search_time].
    destruct (match_time_here (String c r)) as [g'|] eqn:Hm.
    + intros _. now apply (match_time_here_contains _ g').
    + intros Hr. apply contains_tail. now apply (IH g).
Qed.

Lemma py_float_error (g : string) (e : exn) :
  py_float g = inl e -> e = float_error g.
Proof.
  unfold py_float.
  destruct (span is_digit g) as [ip rest].
  destruct rest as [|c fr].
  - destruct (String.eqb ip ""); [now intros [= <-]|discriminate].
  - destruct (Ascii.eqb c "."); [|now intros [= <-]].
    destruct (span is_digit fr) as [fp rest'].
    destruct (String.eqb rest' "" && negb (String.eqb ip "" && String.eqb fp ""));
      [discriminate|now intros [= <-]].
Qed.

Lemma to_float_no_nan (q : Q) : to_float q <> NaN.
Proof.
  unfold to_float.
  destruct (Qle_bool (inject_Z float_overflow) q); [discriminate|].
  destruct (Qle_bool q (inject_Z (- float_overflow))); discriminate.
Qed.

Lemma py_float_no_nan (g : string) (x : pyfloat) :
  py_float g = inr x -> x <> NaN.
Proof.
  unfold py_float.
  destruct (span is_digit g) as [ip rest].
  destruct rest as [|c fr].
  - destruct (String.eqb ip ""); [discriminate|].
    intros [= <-]. apply to_float_no_nan.
  - destruct (Ascii.eqb c "."); [|discriminate].
    destruct (span is_digit fr) as [fp rest'].
    destruct (String.eqb rest' "" && negb (String.eqb ip "" && String.eqb fp ""));
      [|discriminate].
    intros [= <-]. apply to_float_no_nan.
Qed.

Lemma parse_latencies_error (lines : list string) (e : exn) :
  parse_latencies lines = inl e -> exists g, e = float_error g.
Proof.
  induction lines as [|line rest IH]; cbn; [discriminate|].
  destruct (contains "time=" line); [|exact IH].
  destruct (search_time line) as [g|]; [|exact IH].
  destruct (py_float g) as [e0|q] eqn:Hf.
  - intros [= <-]. exists g. now apply py_float_error.
  - destruct (parse_latencies rest) as [e1|qs]; [|discriminate].
    intros [= <-]. now apply IH.
Qed.

Lemma parse_latencies_bad_line (lines : list string) (line g : string) (e : exn) :
  In line lines ->
  search_time line = Some g ->
  py_float g = inl e ->
  exists e', parse_latencies lines = inl e'.
Proof.
  intros Hin Hs Hf. induction lines as [|l rest IH]; [destruct Hin|].
  cbn. destruct Hin as [->|Hin].
  - rewrite (search_time_contains line g Hs), Hs, Hf. eauto.
  - destruct (IH Hin) as [e' He'].
    destruct (contains "time=" l); [|eauto].
    destruct (search_time l) as [g0|]; [|eauto].
    destruct (py_float g0) as [e0|q]; [eauto|].
    rewrite He'. eauto.
Qed.

(** No latency read from the output is a nan. *)
Lemma parse_latencies_no_nan (lines : list string) :
  forall l, parse_latencies lines = inr l -> Forall (fun x => x <> NaN) l.
Proof.
  induction lines as [|line rest IH]; cbn; intros l.
  - intros [= <-]. constructor.
  - destruct (contains "time=" line); [|apply IH].
    destruct (search_time line) as [g|]; [|apply IH].
    destruct (py_float g) as [e0|x] eqn:Hf; [discriminate|].
    destruct (parse_latencies rest) as [e1|xs]; [discriminate|].
    intros [= <-]. constructor; [now apply (py_float_no_nan g)|now apply IH].
Qed.

(** ** The statistics of finite data *)

Lemma finite_values_map (qs : list Q) :
  finite_values (List.map Fin qs) = Some qs.
Proof.
  induction qs as [|q qs IH]; [reflexivity|].
  cbn. now rewrite IH.
Qed.

Lemma all_finite_map (l : list pyfloat) :
  all_finite l = true -> exists qs, l = List.map Fin qs.
Proof.
  induction l as [|x l IH]; cbn.
  - intros _. now exists [].
  - destruct x; cbn; try discriminate.
    intros H. destruct (IH H) as [qs ->]. now exists (q :: qs).
Qed.

Lemma not_all_finite (l : list pyfloat) :
  all_finite l = false -> finite_values l = None.
Proof.
  induction l as [|x l IH]; cbn; [discriminate|].
  destruct x; cbn; try reflexivity.
  intros H. now rewrite (IH H).
Qed.

Lemma flt_Fin (a b : Q) :
  flt (Fin a) (Fin b) = true -> (a <= b)%Q.
Proof.
  cbn. intros H. apply negb_true_iff in H.
  apply Qlt_le_weak, Qnot_le_lt. intros Hle.
  apply Qle_bool_iff in Hle. congruence.
Qed.

Lemma flt_Fin_false (a b : Q) :
  flt (Fin a) (Fin b) = false -> (b <= a)%Q.
Proof.
  cbn. intros H. apply negb_false_iff in H. now apply Qle_bool_iff.
Qed.

Lemma min_list_finite (qs : list Q) :
  forall q, exists m,
    min_list (Fin q) (List.map Fin qs) = Fin m /\
    (m <= q)%Q /\ forall y, In y qs -> (m <= y)%Q.
Proof.
  unfold min_list. induction qs as [|y qs IH]; intros q; cbn [List.map fold_left].
  - exists q. split; [reflexivity|]. split; [apply Qle_refl|intros y []].
  - destruct (flt (Fin y) (Fin q)) eqn:Hlt.
    + destruct (IH y) as (m & -> & Hm & Hall). exists m.
      split; [reflexivity|]. apply flt_Fin in Hlt. split.
      * eapply Qle_trans; eassumption.
      * intros z [<-|Hz]; [exact Hm|now apply Hall].
    + destruct (IH q) as (m & -> & Hm & Hall). exists m.
      split; [reflexivity|]. apply flt_Fin_false in Hlt. split; [exact Hm|].
      intros z [<-|Hz]; [eapply Qle_trans; eassumption|now apply Hall].
Qed.

Lemma max_list_finite (qs : list Q) :
  forall q, exists m,
    max_list (Fin q) (List.map Fin qs) = Fin m /\
    (q <= m)%Q /\ forall y, In y qs -> (y <= m)%Q.
Proof.
  unfold max_list. induction qs as [|y qs IH]; intros q; cbn [List.map fold_left].
  - exists q. split; [reflexivity|]. split; [apply Qle_refl|intros y []].
  - destruct (flt (Fin q) (Fin y)) eqn:Hlt.
    + destruct (IH y) as (m & -> & Hm & Hall). exists m.
      split; [reflexivity|]. apply flt_Fin in Hlt. split.
      * eapply Qle_trans; eassumption.
      * intros z [<-|Hz]; [exact Hm|now apply Hall].
    + destruct (IH q) as (m & -> & Hm & Hall). exists m.
      split; [reflexivity|]. apply flt_Fin_false in Hlt. split; [exact Hm|].
      intros z [<-|Hz]; [eapply Qle_trans; eassumption|now apply Hall].
Qed.

Lemma inject_Z_succ_nat (k : nat) :
  (inject_Z (Z.of_nat (S k)) == inject_Z (Z.of_nat k) + 1)%Q.
Proof. rewrite Nat2Z.inj_succ. unfold Z.succ. now rewrite inject_Z_plus. Qed.

Lemma sum_list_lower (m : Q) (l : list Q) :
  (forall y, In y l -> (m <= y)%Q) ->
  (m * inject_Z (Z.of_nat (length l)) <= sum_list l)%Q.
Proof.
  induction l as [|y l IH]; intros Hall.
  - change (m * 0 <= 0)%Q. lra.
  - cbn [length sum_list fold_right]. rewrite inject_Z_succ_nat.
    assert (Hy : (m <= y)%Q) by (apply Hall; now left).
    assert (Hl : (m * inject_Z (Z.of_nat (length l)) <= sum_list l)%Q)
      by (apply IH; intros z Hz; apply Hall; now right).
    unfold sum_list in Hl. lra.
Qed.

Lemma sum_list_upper (m : Q) (l : list Q) :
  (forall y, In y l -> (y <= m)%Q) ->
  (sum_list l <= m * inject_Z (Z.of_nat (length l)))%Q.
Proof.
  induction l as [|y l IH]; intros Hall.
  - change (0 <= m * 0)%Q. lra.
  - cbn [length sum_list fold_right]. rewrite inject_Z_succ_nat.
    assert (Hy : (y <= m)%Q) by (apply Hall; now left).
    assert (Hl : (sum_list l <= m * inject_Z (Z.of_nat (length l)))%Q)
      by (apply IH; intros z Hz; apply Hall; now right).
    unfold sum_list in Hl. lra.
Qed.

(** The mean of finite data lies between their minimum and their
    maximum. *)
Lemma mean_between (q : Q) (qs : list Q) :
  let l := List.map Fin (q :: qs) in
  fle (min_list (Fin q) (List.map Fin qs)) (mean l) = true /\
  fle (mean l) (max_list (Fin q) (List.map Fin qs)) = true.
Proof.
  cbn zeta. unfold mean. rewrite finite_values_map.
  assert (Hpos : (0 < inject_Z (Z.of_nat (length (q :: qs))))%Q).
  { unfold Qlt. cbn. lia. }
  destruct (min_list_finite qs q) as (lo & -> & Hlo & Hlos).
  destruct (max_list_finite qs q) as (hi & -> & Hhi & Hhis).
  cbn [fle]. unfold exact_mean. split; apply Qle_bool_iff.
  - apply Qle_shift_div_l; [exact Hpos|].
    apply sum_list_lower. intros y [<-|Hy]; [exact Hlo|now apply Hlos].
  - apply Qle_shift_div_r; [exact Hpos|].
    apply sum_list_upper. intros y [<-|Hy]; [exact Hhi|now apply Hhis].
Qed.

(** The statistics are there for at most one sample and for finite
    samples. *)
Lemma summarize_defined (l : list pyfloat) :
  (length l <= 1)%nat \/ all_finite l = true ->
  Forall (fun x => x <> NaN) l ->
  exists o,
    summarize l = inr o /\
    (l = [] -> o = None) /\
    (l <> [] ->
     exists sm,
       o = Some sm /\
       fle (min_ms sm) (avg_ms sm) = true /\
       fle (avg_ms sm) (max_ms sm) = true /\
       (stdev_ms sm = StdevZero <-> length l = 1%nat)).
Proof.
  intros Hdef Hnan. destruct l as [|x l].
  - exists None. split; [reflexivity|]. split; [reflexivity|contradiction].
  - destruct l as [|y l].
    + eexists. split; [reflexivity|]. split; [discriminate|]. intros _.
      eexists. split; [reflexivity|]. cbn [min_ms avg_ms max_ms stdev_ms length].
      assert (Hx : x <> NaN) by now inversion Hnan.
      destruct x; try contradiction.
      * destruct (mean_between q []) as [H1 H2]. cbn in H1, H2 |- *.
        repeat split; assumption.
      * repeat split.
      * repeat split.
    + destruct Hdef as [Hlen|Hfin]; [cbn in Hlen; lia|].
      destruct (all_finite_map _ Hfin) as [qs Hqs].
      destruct qs as [|q [|q' qs]]; try discriminate. clear Hnan Hfin.
      rewrite Hqs.
      destruct (mean_between q (q' :: qs)) as [H1 H2]. cbn zeta in H1, H2.
      unfold summarize. cbn [List.map].
      change (Fin q :: Fin q' :: List.map Fin qs)
        with (List.map Fin (q :: q' :: qs)).
      change (Fin q' :: List.map Fin qs) with (List.map Fin (q' :: qs)).
      change (1 <? length (List.map Fin (q :: q' :: qs)))%nat with true.
      cbn match. unfold stdev. rewrite finite_values_map.
      eexists. split; [reflexivity|]. split; [discriminate|]. intros _.
      eexists. split; [reflexivity|]. cbn [min_ms avg_ms max_ms stdev_ms].
      split; [exact H1|]. split; [exact H2|].
      cbn [length List.map]. split; [discriminate|lia].
Qed.

(** Two samples or more, one of them not finite: [statistics.stdev]
    raises. *)
Lemma summarize_overflow (l : list pyfloat) :
  (1 < length l)%nat -> all_finite l = false -> summarize l = inl stdev_error.
Proof.
  intros Hlen Hfin. destruct l as [|x l]; [cbn in Hlen; lia|].
  unfold summarize.
  replace (1 <? length (x :: l))%nat with true
    by (symmetry; apply Nat.ltb_lt; exact Hlen).
  unfold stdev. now rewrite (not_all_finite _ Hfin).
Qed.

(** ** Printing the summary of measured results *)

(** Settle the conditions met while evaluating what is printed. *)
Ltac settle :=
  repeat (cbn;
          match goal with
          | |- context [if ?b then _ else _] => destruct b eqn:?
          end).

Lemma print_router_measured (root : Q -> pyfloat) (s : ping_stats) :
  measured s ->
  print_router (VDict (stats_dict root s)) =
    match packet_loss_pct s with
    | Some _ => inr tt
    | None => inl (mkExn KeyError "'packet_loss_pct'")
    end.
Proof.
  intros [ts nm gw ifc tgt loss sent received summary
         |ts nm gw ifc tgt sent
         |ts nm gw ifc tgt msg];
    unfold print_router, print_fixed, stats_dict; cbn; [|reflexivity..].
  destruct summary as [[lo hi avg med [|var]]|]; settle; reflexivity.
Qed.

Lemma print_comparison_measured (root : Q -> pyfloat) (s1 s2 : ping_stats) :
  measured s1 -> measured s2 ->
  packet_loss_pct s1 <> None -> packet_loss_pct s2 <> None ->
  print_comparison (VDict (stats_dict root s1)) (VDict (stats_dict root s2))
  = inr tt.
Proof.
  intros [ts nm gw ifc tgt loss sent received summary
         |ts nm gw ifc tgt sent
         |ts nm gw ifc tgt msg]
         [ts' nm' gw' ifc' tgt' loss' sent' received' summary'
         |ts' nm' gw' ifc' tgt' sent'
         |ts' nm' gw' ifc' tgt' msg'] H1 H2;
    try (exfalso; apply H1; reflexivity);
    try (exfalso; apply H2; reflexivity);
    unfold print_comparison, stats_dict; cbn.
  - destruct summary as [[lo hi avg med [|var]]|],
      summary' as [[lo' hi' avg' med' [|var']]|]; settle; reflexivity.
  - settle; reflexivity.
  - reflexivity.
  - reflexivity.
Qed.

(** What [print_summary] does with the results of two measurements. *)
Lemma print_summary_measured (root : Q -> pyfloat) (s1 s2 : ping_stats)
    (result : list (string * value)) :
  measured s1 -> measured s2 ->
  lookup_key "router1" result = Some (VDict (stats_dict root s1)) ->
  lookup_key "router2" result = Some (VDict (stats_dict root s2)) ->
  print_summary (VDict result) =
    match packet_loss_pct s1, packet_loss_pct s2 with
    | Some _, Some _ => inr tt
    | _, _ => inl (mkExn KeyError "'packet_loss_pct'")
    end.
Proof.
  intros M1 M2 L1 L2. unfold print_summary, subscript. rewrite L1, L2.
  cbn [and_then].
  rewrite (print_router_measured root s1 M1).
  destruct (packet_loss_pct s1) as [x1|] eqn:E1; [|reflexivity].
  cbn [and_then].
  rewrite (print_router_measured root s2 M2).
  destruct (packet_loss_pct s2) as [x2|] eqn:E2; [|reflexivity].
  cbn [and_then].
  apply print_comparison_measured; congruence.
Qed.

Section MeasureFacts.

Variable env : os_env.
Variable ping_target : string.
Variable ping_count : Z.

Local Abbreviation run_ping := (ping_through_router env ping_target ping_count).
Local Abbreviation ping_call iface :=
  (SubprocessRun (ping_command ping_target ping_count iface)
                 (PInt (ping_count * 3))).

(** X26: a measurement never raises.  When the ping command runs into
    its time-out, the result reports 100 % loss, nothing received, no
    success and the error tag "timeout"; when it fails in any other way,
    the result has no loss or packet counts at all, only the text of the
    exception as error, and no success. *)
Theorem ping_failure_records (gw iface name : string) (w : world) :
  let r := run_ping gw iface name w in
  (exists stats, r.1 = Ret stats) /\
  (forall e, raises env (trace w) (ping_call iface) e ->
     exn_cls e = TimeoutExpired ->
     exists stats, r.1 = Ret stats /\
       packet_loss_pct stats = Some (Fin 100) /\
       packets_sent stats = Some ping_count /\
       packets_received stats = Some 0%nat /\
       success stats = false /\
       latency stats = None /\
       error stats = Some "timeout") /\
  (forall e, raises env (trace w) (ping_call iface) e ->
     exn_cls e <> TimeoutExpired ->
     exists stats, r.1 = Ret stats /\
       packet_loss_pct stats = None /\
       packets_sent stats = None /\
       packets_received stats = None /\
       success stats = false /\
       error stats = Some (exn_str e)).
Proof.
  cbn zeta. unfold ping_through_router.
  unfold try_except, bind, lift, perform, ret, raise, raises, log_call.
  split; [|split].
  - ask.
    + cbn. destruct (parse_latencies (split_lines (cp_stdout a))) as [e|l]; cbn.
      * destruct (exn_cls e); rewrite to_outcome_DatetimeNow; cbn; eauto.
      * rewrite to_outcome_DatetimeNow. cbn.
        destruct (summarize l) as [e|sm]; cbn; [|eauto].
        destruct (exn_cls e); rewrite to_outcome_DatetimeNow; cbn; eauto.
    + cbn. destruct (exn_cls e); rewrite to_outcome_DatetimeNow; cbn; eauto.
  - intros e Hr Hcls. rewrite Hr. cbn. rewrite Hcls.
    rewrite to_outcome_DatetimeNow. cbn. eexists. repeat split.
  - intros e Hr Hcls. rewrite Hr. cbn.
    destruct (exn_cls e) eqn:Hc; try contradiction;
      rewrite to_outcome_DatetimeNow; cbn; eexists; repeat split.
Qed.

(** X27: without the statistics line there is no success: when the
    output of the ping command does not contain the text
    "% packet loss", the result has [success = False], even if reply
    lines were counted, and the loss it reports (if any) is 100. *)
Theorem ping_needs_statistics_line (gw iface name : string) (w : world)
    (p : completed_process) :
  returns env (trace w) (ping_call iface) p ->
  contains "% packet loss" (cp_stdout p) = false ->
  exists stats,
    (run_ping gw iface name w).1 = Ret stats /\
    success stats = false /\
    (packet_loss_pct stats = Some (Fin 100) \/ packet_loss_pct stats = None).
Proof.
  intros Hr Hno. unfold ping_through_router.
  unfold try_except, bind, lift, perform, ret, raise, returns, log_call in *.
  rewrite Hr. cbn.
  assert (Hloss : search_loss (cp_stdout p) = None).
  { destruct (search_loss (cp_stdout p)) as [g|] eqn:Hs; [|reflexivity].
    rewrite (search_loss_contains _ g Hs) in Hno. discriminate. }
  rewrite Hloss.
  destruct (parse_latencies (split_lines (cp_stdout p))) as [e|l]; cbn.
  - destruct (exn_cls e); rewrite to_outcome_DatetimeNow; cbn;
      eexists; (split; [reflexivity|]); (split; [reflexivity|]); tauto.
  - rewrite to_outcome_DatetimeNow. cbn.
    destruct (summarize l) as [e|sm]; cbn.
    + destruct (exn_cls e); rewrite to_outcome_DatetimeNow; cbn;
        eexists; (split; [reflexivity|]); (split; [reflexivity|]); tauto.
    + eexists. split; [reflexivity|]. split; [reflexivity|]. now left.
Qed.

(** X28: one reply line whose [time=] value is not a number (two dots,
    a lone dot) discards the whole measurement: the [ValueError] of
    [float] turns the result into the error record, with no loss, no
    counts, no success, whatever the other lines say. *)
Theorem ping_garbled_time_discards (gw iface name : string) (w : world)
    (p : completed_process) (line g : string) (e : exn) :
  returns env (trace w) (ping_call iface) p ->
  In line (split_lines (cp_stdout p)) ->
  search_time line = Some g ->
  py_float g = inl e ->
  exists stats g',
    (run_ping gw iface name w).1 = Ret stats /\
    packet_loss_pct stats = None /\
    packets_received stats = None /\
    success stats = false /\
    error stats = Some ("could not convert string to float: '" ++ g' ++ "'")%string.
Proof.
  intros Hr Hin Hs Hf. unfold ping_through_router.
  unfold try_except, bind, lift, perform, ret, raise, returns, log_call in *.
  rewrite Hr. cbn.
  destruct (parse_latencies_bad_line _ line g e Hin Hs Hf) as [e' He'].
  rewrite He'. cbn.
  destruct (parse_latencies_error _ e' He') as [g' ->].
  cbn. rewrite to_outcome_DatetimeNow. cbn.
  eexists. exists g'. repeat split.
Qed.

(** X30: the statistics of a parsed output.  With at most one latency
    read, or with finite latencies only, the result counts one received
    packet per latency and reports the configured number of packets as
    sent; with no latency the five latency keys are [None]; otherwise
    the average lies between the minimum and the maximum, and the
    deviation is the integer 0 exactly when there is one sample.  With
    two latencies or more of which one overflowed to infinity, the
    deviation cannot be computed and the whole measurement is discarded:
    the result is the error record. *)
Theorem ping_summary_consistent (gw iface name : string) (w : world)
    (p : completed_process) (l : list pyfloat) :
  returns env (trace w) (ping_call iface) p ->
  parse_latencies (split_lines (cp_stdout p)) = inr l ->
  exists stats,
    (run_ping gw iface name w).1 = Ret stats /\
    ((length l <= 1)%nat \/ all_finite l = true ->
     packets_sent stats = Some ping_count /\
     packets_received stats = Some (length l) /\
     error stats = None /\
     (l = [] -> latency stats = Some None) /\
     (l <> [] ->
      exists sm,
        latency stats = Some (Some sm) /\
        fle (min_ms sm) (avg_ms sm) = true /\
        fle (avg_ms sm) (max_ms sm) = true /\
        (stdev_ms sm = StdevZero <-> length l = 1%nat))) /\
    ((1 < length l)%nat -> all_finite l = false ->
     packet_loss_pct stats = None /\
     packets_sent stats = None /\
     packets_received stats = None /\
     success stats = false /\
     latency stats = None /\
     error stats = Some "'float' object has no attribute 'numerator'").
Proof.
  intros Hr Hl.
  pose proof (parse_latencies_no_nan _ l Hl) as Hnan.
  unfold ping_through_router.
  unfold try_except, bind, lift, perform, ret, raise, returns, log_call in *.
  rewrite Hr. cbn. rewrite Hl. cbn. rewrite to_outcome_DatetimeNow. cbn.
  destruct (summarize l) as [e|o] eqn:Hsum; cbn.
  - assert (He : (1 < length l)%nat /\ all_finite l = false).
    { destruct (Nat.le_gt_cases (length l) 1) as [Hle|Hgt].
      - destruct (summarize_defined l (or_introl Hle) Hnan) as (o & Ho & _).
        congruence.
      - split; [exact Hgt|]. destruct (all_finite l) eqn:Hfin; [|reflexivity].
        destruct (summarize_defined l (or_intror Hfin) Hnan) as (o & Ho & _).
        congruence. }
    destruct He as [Hgt Hfin].
    rewrite (summarize_overflow l Hgt Hfin) in Hsum. injection Hsum as <-.
    cbn. rewrite to_outcome_DatetimeNow. cbn.
    eexists. split; [reflexivity|]. split.
    + intros [Hle|Hfin']; [lia|congruence].
    + intros _ _. cbn. repeat split.
  - eexists. split; [reflexivity|]. split.
    + intros Hdef.
      destruct (summarize_defined l Hdef Hnan) as (o' & Ho' & Hnil & Hcons).
      rewrite Hsum in Ho'. injection Ho' as <-. cbn.
      do 3 (split; [reflexivity|]).
      split.
      * intros Hnil'. now rewrite (Hnil Hnil').
      * intros Hne. destruct (Hcons Hne) as (sm & -> & Hrest).
        exists sm. split; [reflexivity|exact Hrest].
    + intros Hgt Hfin. rewrite (summarize_overflow l Hgt Hfin) in Hsum.
      discriminate.
Qed.

(** Every result of a measurement has one of the three shapes. *)
Lemma ping_result_measured (gw iface name : string) (w : world)
    (stats : ping_stats) :
  (run_ping gw iface name w).1 = Ret stats -> measured stats.
Proof.
  unfold ping_through_router.
  unfold try_except, bind, lift, perform, ret, raise, log_call.
  ask.
  - cbn. destruct (parse_latencies (split_lines (cp_stdout a))) as [e|l]; cbn.
    + destruct (exn_cls e); rewrite to_outcome_DatetimeNow; cbn;
        intros [= <-]; constructor.
    + rewrite to_outcome_DatetimeNow. cbn.
      destruct (summarize l) as [e|sm]; cbn.
      * destruct (exn_cls e); rewrite to_outcome_DatetimeNow; cbn;
          intros [= <-]; constructor.
      * intros [= <-]. constructor.
  - cbn. destruct (exn_cls e); rewrite to_outcome_DatetimeNow; cbn;
      intros [= <-]; constructor.
Qed.

(** X29: the summary of a benchmark whose two results come from
    [ping_through_router].  Evaluating what [print_summary] prints
    raises exactly when one of the two results lacks the key
    ['packet_loss_pct'], and what it raises then is the [KeyError] of
    that key: every other subscript, format and subtraction it makes on
    such results goes through, whatever the measured values (infinite
    ones included).  A result lacks the key when the ping command failed
    other than by its time-out (the program is missing, say): printing
    the summary of that benchmark raises. *)
Theorem print_summary_key_error (root : Q -> pyfloat)
    (gw1 iface1 name1 gw2 iface2 name2 : string) (w1 w2 : world)
    (s1 s2 : ping_stats) (result : list (string * value)) :
  (run_ping gw1 iface1 name1 w1).1 = Ret s1 ->
  (run_ping gw2 iface2 name2 w2).1 = Ret s2 ->
  lookup_key "router1" result = Some (VDict (stats_dict root s1)) ->
  lookup_key "router2" result = Some (VDict (stats_dict root s2)) ->
  (packet_loss_pct s1 <> None -> packet_loss_pct s2 <> None ->
   print_summary (VDict result) = inr tt) /\
  (packet_loss_pct s1 = None \/ packet_loss_pct s2 = None ->
   print_summary (VDict result) = inl (mkExn KeyError "'packet_loss_pct'")) /\
  (forall e, raises env (trace w1) (ping_call iface1) e ->
     exn_cls e <> TimeoutExpired ->
     print_summary (VDict result) = inl (mkExn KeyError "'packet_loss_pct'")).
Proof.
  intros R1 R2 L1 L2.
  pose proof (print_summary_measured root s1 s2 result
                (ping_result_measured _ _ _ _ _ R1)
                (ping_result_measured _ _ _ _ _ R2) L1 L2) as Hp.
  assert (Hnone : packet_loss_pct s1 = None \/ packet_loss_pct s2 = None ->
                  print_summary (VDict result)
                  = inl (mkExn KeyError "'packet_loss_pct'")).
  { rewrite Hp. intros [->| ->]; [reflexivity|].
    now destruct (packet_loss_pct s1). }
  split; [|split; [exact Hnone|]].
  - intros H1 H2. rewrite Hp.
    destruct (packet_loss_pct s1); [|contradiction].
    destruct (packet_loss_pct s2); [reflexivity|contradiction].
  - intros e Hr Hcls. apply Hnone. left.
    revert R1. unfold ping_through_router.
    unfold try_except, bind, lift, perform, ret, raise, raises, log_call in *.
    rewrite Hr. cbn.
    destruct (exn_cls e) eqn:Hc; try contradiction;
      rewrite to_outcome_DatetimeNow; cbn; now intros [= <-].
Qed.

End MeasureFacts.

End PingFacts.

Lemma ping_failure_records_witness :
  exists stats,
    (Ping.ping_through_router env_timeout "8.8.8.8" 20
       "192.168.1.1" "eth0" "Router 1" w_idle).1 = Ret stats /\
    Ping.packet_loss_pct stats = Some (Ping.Fin 100) /\
    Ping.success stats = false /\
    Ping.error stats = Some "timeout".
Proof.
  destruct (PingFacts.ping_failure_records env_timeout "8.8.8.8" 20
              "192.168.1.1" "eth0" "Router 1" w_idle) as (_ & Hto & _).
  destruct (Hto (mkExn TimeoutExpired "timed out") eq_refl eq_refl)
    as (stats & Hrun & Hloss & _ & _ & Hsucc & _ & Herr).
  exists stats. repeat split; assumption.
Defined.

Lemma ping_needs_statistics_line_witness :
  exists stats,
    (Ping.ping_through_router (env_ping ping_output_cut) "8.8.8.8" 20
       "192.168.1.1" "eth0" "Router 1" w_idle).1 = Ret stats /\
    Ping.success stats = false.
Proof.
  destruct (PingFacts.ping_needs_statistics_line (env_ping ping_output_cut)
              "8.8.8.8" 20 "192.168.1.1" "eth0" "Router 1" w_idle
              (mkCompleted 0 ping_output_cut ""))
    as (stats & Hrun & Hsucc & _).
  - reflexivity.
  - vm_compute. reflexivity.
  - exists stats. split; assumption.
Defined.

Lemma ping_garbled_time_discards_witness :
  exists stats g',
    (Ping.ping_through_router (env_ping ping_output_garbled) "8.8.8.8" 20
       "192.168.1.1" "eth0" "Router 1" w_idle).1 = Ret stats /\
    Ping.packet_loss_pct stats = None /\
    Ping.packets_received stats = None /\
    Ping.success stats = false /\
    Ping.error stats
    = Some ("could not convert string to float: '" ++ g' ++ "'")%string.
Proof.
  apply (PingFacts.ping_garbled_time_discards (env_ping ping_output_garbled)
           "8.8.8.8" 20 "192.168.1.1" "eth0" "Router 1" w_idle
           (mkCompleted 0 ping_output_garbled "")
           "64 bytes from 8.8.8.8: icmp_seq=2 ttl=117 time=1.2.3 ms" "1.2.3"
           (Ping.float_error "1.2.3")).
  - reflexivity.
  - vm_compute. tauto.
  - vm_compute. reflexivity.
  - vm_compute. reflexivity.
Defined.

Lemma print_summary_key_error_witness :
  exists stats,
    (Ping.ping_through_router env_cannot_run "8.8.8.8" 20
       "192.168.1.1" "eth0" "Router 1" w_idle).1 = Ret stats /\
    Ping.print_summary
      (Ping.VDict [("client_id", Ping.VStr "edge-1");
                   ("router1", Ping.VDict (Ping.stats_dict Ping.Fin stats));
                   ("router2", Ping.VDict (Ping.stats_dict Ping.Fin stats))])
    = inl (mkExn KeyError "'packet_loss_pct'").
Proof.
  eexists. split; [vm_compute; reflexivity|].
  refine (proj1 (proj2 (PingFacts.print_summary_key_error env_cannot_run
                          "8.8.8.8" 20 Ping.Fin
                          "192.168.1.1" "eth0" "Router 1"
                          "192.168.1.1" "eth0" "Router 1" w_idle w_idle
                          _ _ _ _ _ _ _)) _).
  - vm_compute; reflexivity.
  - vm_compute; reflexivity.
  - reflexivity.
  - reflexivity.
  - left. reflexivity.
Defined.

Lemma ping_summary_consistent_witness :
  (exists stats,
     (Ping.ping_through_router (env_ping ping_output_ok) "8.8.8.8" 20
        "192.168.1.1" "eth0" "Router 1" w_idle).1 = Ret stats /\
     Ping.packets_sent stats = Some 20 /\
     Ping.packets_received stats = Some 2%nat /\
     Ping.error stats = None) /\
  (exists stats,
     (Ping.ping_through_router (env_ping ping_output_overflow) "8.8.8.8" 20
        "192.168.1.1" "eth0" "Router 1" w_idle).1 = Ret stats /\
     Ping.packet_loss_pct stats = None /\
     Ping.success stats = false /\
     Ping.error stats = Some "'float' object has no attribute 'numerator'").
Proof.
  split.
  - destruct (PingFacts.ping_summary_consistent (env_ping ping_output_ok)
                "8.8.8.8" 20 "192.168.1.1" "eth0" "Router 1" w_idle
                (mkCompleted 0 ping_output_ok "")
                [Ping.Fin (123 # 10); Ping.Fin (119 # 10)])
      as (stats & Hrun & Hfinite & _).
    + reflexivity.
    + vm_compute. reflexivity.
    + destruct Hfinite as (Hsent & Hrecv & Herr & _); [now right|].
      exists stats. repeat split; assumption.
  - destruct (PingFacts.ping_summary_consistent (env_ping ping_output_overflow)
                "8.8.8.8" 20 "192.168.1.1" "eth0" "Router 1" w_idle
                (mkCompleted 0 ping_output_overflow "")
                [Ping.PInf; Ping.Fin (119 # 10)])
      as (stats & Hrun & _ & Hover).
    + reflexivity.
    + vm_compute. reflexivity.
    + destruct Hover as (Hloss & _ & _ & Hsucc & _ & Herr);
        [cbn; lia|reflexivity|].
      exists stats. repeat split; assumption.
Defined.
